(** * StreetMap elevation import (Elevation.cpp): a shallow embedding

    The development follows Source/StreetMapImporting/GISUtils/Elevation.cpp:
    the per-tile download state machine [FCachedElevationFile], the
    scheduler loop and the reprojection of [FElevationModel], and the
    blend-weight rasterisation of [CreateLandscape].

    Single-precision arithmetic is kept behind the interface [Arith]. It
    has two instances: [binary32], IEEE-754 single precision computed by
    the Standard Library's [SpecFloat], and [exact], the rationals with
    one undefined element, which reads every float as the number it
    denotes and does not round. *)

From Stdlib Require Import ZArith QArith Qround Lia Bool.
From Stdlib Require Import Floats.SpecFloat.
From Stdlib Require DecimalString DecimalZ DecimalPos.
From stdpp Require Import base option list strings.

Local Open Scope Z_scope.

(** ** Machine integers *)

Definition to_int32 (z : Z) : Z := (z + 2 ^ 31) mod 2 ^ 32 - 2 ^ 31.
Definition to_uint32 (z : Z) : Z := z mod 2 ^ 32.
Definition to_uint16 (z : Z) : Z := z mod 2 ^ 16.
Definition to_uint8 (z : Z) : Z := z mod 2 ^ 8.

Definition in_int32 (z : Z) : bool := (- 2 ^ 31 <=? z) && (z <? 2 ^ 31).

(** ** The arithmetic of [float] *)

(** [RoundToInt] is the engine's [FMath::RoundToInt]: the nearest [int32],
    halves rounded up. It has no value on NaN, on an infinity and outside
    the range of [int32], where the C++ conversion is undefined. *)
Class Arith (F : Type) := {
  of_int : Z -> F;
  fneg : F -> F;
  fadd : F -> F -> F;
  fsub : F -> F -> F;
  fmul : F -> F -> F;
  fdiv : F -> F -> F;
  fltb : F -> F -> bool;
  fleb : F -> F -> bool;
  RoundToInt : F -> option Z;
  FLT_MAX : F
}.

Module Binary32.

Definition prec : Z := 24.
Definition emax : Z := 128.

Definition float := spec_float.

Definition of_Z (z : Z) : float := binary_normalize prec emax z 0 false.

(** floor (x + 1/2) of the number a finite float denotes *)
Definition round_half_up (x : float) : option Z :=
  match x with
  | S754_zero _ => Some 0
  | S754_finite s m e =>
      let n := if s then Z.neg m else Z.pos m in
      let r := if 0 <=? e then n * 2 ^ e
               else (2 * n + 2 ^ (- e)) / 2 ^ (1 - e) in
      if in_int32 r then Some r else None
  | S754_infinity _ | S754_nan => None
  end.

(** the largest finite single: (2^24 - 1) * 2^104 *)
Definition max_float : float := S754_finite false 16777215 104.

End Binary32.

#[export] Instance binary32 : Arith Binary32.float := {|
  of_int := Binary32.of_Z;
  fneg := SFopp;
  fadd := SFadd Binary32.prec Binary32.emax;
  fsub := SFsub Binary32.prec Binary32.emax;
  fmul := SFmul Binary32.prec Binary32.emax;
  fdiv := SFdiv Binary32.prec Binary32.emax;
  fltb := SFltb;
  fleb := SFleb;
  RoundToInt := Binary32.round_half_up;
  FLT_MAX := Binary32.max_float
|}.

Module Exact.

(** A rational, or [None] for the result of a division by zero and of
    every operation on it. *)
Definition number := option Q.

Definition lift2 (f : Q -> Q -> Q) (x y : number) : number :=
  match x, y with
  | Some a, Some b => Some (f a b)
  | _, _ => None
  end.

Definition div (x y : number) : number :=
  match x, y with
  | Some a, Some b => if Qeq_bool b 0 then None else Some (a / b)%Q
  | _, _ => None
  end.

Definition ltb (x y : number) : bool :=
  match x, y with
  | Some a, Some b => negb (Qle_bool b a)
  | _, _ => false
  end.

Definition leb (x y : number) : bool :=
  match x, y with
  | Some a, Some b => Qle_bool a b
  | _, _ => false
  end.

Definition round_nearest (x : number) : option Z :=
  match x with
  | Some a =>
      let r := Qfloor (a + (1 # 2))%Q in
      if in_int32 r then Some r else None
  | None => None
  end.

End Exact.

#[export] Instance exact : Arith Exact.number := {|
  of_int := fun z => Some (inject_Z z);
  fneg := fun x => match x with Some a => Some (- a)%Q | None => None end;
  fadd := Exact.lift2 Qplus;
  fsub := Exact.lift2 Qminus;
  fmul := Exact.lift2 Qmult;
  fdiv := Exact.div;
  fltb := Exact.ltb;
  fleb := Exact.leb;
  RoundToInt := Exact.round_nearest;
  FLT_MAX := Some (inject_Z (16777215 * 2 ^ 104))
|}.

(** [FMath::Min] and [FMath::Max] *)
Definition fmin {F} {A : Arith F} (a b : F) : F := if fleb a b then a else b.
Definition fmax {F} {A : Arith F} (a b : F) : F := if fleb b a then a else b.

(** ** Collaborators outside the file *)

Inductive ERGBFormat := Invalid | RGBA | BGRA | Gray.

Definition ERGBFormat_eqb (a b : ERGBFormat) : bool :=
  match a, b with
  | Invalid, Invalid | RGBA, RGBA | BGRA, BGRA | Gray, Gray => true
  | _, _ => false
  end.

(** What the image wrapper reports once [SetCompressed] has accepted the
    bytes: [GetBitDepth], [GetFormat], [GetWidth], [GetHeight], and the
    buffer of [GetRaw] ([None] when [GetRaw] returns false). *)
Record PngImage := {
  BitDepth : Z;
  Format : ERGBFormat;
  Width : Z;
  Height : Z;
  Raw : option (list Z)
}.

Record FIntPoint := { IntX : Z; IntY : Z }.

(** Modelled from the spec: the collaborators that Elevation.cpp calls
    and does not define, which are the PNG image wrapper of the engine,
    the spatial reference system ([SpatialReferenceSystem.h]) and the tiled
    map ([TiledMap.h]). The spec treats the projection as an opaque
    mapping that may report a point as out of its valid domain, and the
    codec as an opaque decode function. They are parameters of the
    development. *)
Class Engine (F : Type) := {
  (** [CreateImageWrapper] and [SetCompressed]; [None] when the wrapper is
      not valid or rejects the bytes *)
  SetCompressed : list Z -> option PngImage;
  (** a point in EPSG:3857 (a pair of doubles in the source) *)
  WebMercator : Type;
  (** [FSpatialReferenceSystem::ToEPSG3857], for the origin of the street
      map; [None] when it returns false *)
  ToEPSG3857 : F * F -> option WebMercator;
  (** [FTiledMap::GetTileXY]: the tile of a point at a level and the
      pixel location inside that tile. The overload without the pixel
      is taken to be its first component. *)
  GetTileXY : WebMercator -> Z -> FIntPoint * (F * F)
}.

(** [FTiledMap], without the URL template; the members are read as
    [int32] *)
Record FTiledMap := {
  TileWidth : Z;
  TileHeight : Z;
  NumLevels : Z
}.

(** ** FCachedElevationFile *)

Definition MaxNumPendingDownloads : Z := 10.

(** [HttpRequest] holds whether the shared pointer is valid; [StartTime]
    and [TimeSpan] are in whole seconds. *)
Record FCachedElevationFile (F : Type) := {
  WasInitialized : bool;
  WasDownloadSuccessful : bool;
  Failed : bool;
  StartTime : Z;
  TimeSpan : Z;
  HttpRequest : bool;
  Elevation : list F;
  TileX : Z;
  TileY : Z;
  TileZ : Z;
  ElevationMin : F;
  ElevationMax : F
}.

Arguments WasInitialized {F} _.
Arguments WasDownloadSuccessful {F} _.
Arguments Failed {F} _.
Arguments StartTime {F} _.
Arguments TimeSpan {F} _.
Arguments HttpRequest {F} _.
Arguments Elevation {F} _.
Arguments TileX {F} _.
Arguments TileY {F} _.
Arguments TileZ {F} _.
Arguments ElevationMin {F} _.
Arguments ElevationMax {F} _.

(** The constructor; the coordinates are [uint32], [Now] is the clock
    when the object is made. *)
Definition NewCachedElevationFile {F} {A : Arith F} (Now : Z) (X Y Level : Z)
  : FCachedElevationFile F :=
  {| WasInitialized := false;
     WasDownloadSuccessful := false;
     Failed := false;
     StartTime := Now;
     TimeSpan := 0;
     HttpRequest := false;
     Elevation := [];
     TileX := to_uint32 X;
     TileY := to_uint32 Y;
     TileZ := to_uint32 Level;
     ElevationMin := FLT_MAX;
     ElevationMax := fneg FLT_MAX |}.

(** One pixel of the loop of [UnpackElevation]: the value before the
    offset, [Data[0] * 256.0f + Data[1] + Data[2] / 256.0f]. A byte past
    the end of the buffer, which the source would read out of bounds,
    reads as 0. *)
Definition PackedElevation {F} {A : Arith F} (Data : list Z) : F :=
  fadd (fadd (fmul (of_int (nth 0 Data 0)) (of_int 256))
             (of_int (nth 1 Data 0)))
       (fdiv (of_int (nth 2 Data 0)) (of_int 256)).

Definition IsValid {F} {A : Arith F} (ElevationValue : F) : bool :=
  fltb (of_int 0) ElevationValue && fltb ElevationValue (of_int 41768).

(** The value the loop stores for a pixel. *)
Definition UnpackPixel {F} {A : Arith F} (Data : list Z) : F :=
  let ElevationValue := PackedElevation Data in
  if IsValid ElevationValue
  then fsub ElevationValue (of_int 32768)
  else ElevationValue.

(** The [while] loop over [count] pixels; [Data] advances by four bytes
    per pixel. Returns the elevations with the updated minimum and
    maximum. *)
Fixpoint UnpackPixels {F} {A : Arith F} (count : nat) (Data : list Z)
  (Min Max : F) : list F * F * F :=
  match count with
  | O => ([], Min, Max)
  | S count' =>
      let ElevationValue := PackedElevation Data in
      let '(Value, Min', Max') :=
        if IsValid ElevationValue
        then let v := fsub ElevationValue (of_int 32768) in
             (v, fmin Min v, fmax Max v)
        else (ElevationValue, Min, Max) in
      let '(rest, Min'', Max'') := UnpackPixels count' (drop 4 Data) Min' Max' in
      (Value :: rest, Min'', Max'')
  end.

Definition UnpackElevation {F} {A : Arith F} {E : Engine F} (TiledMap : FTiledMap)
  (RawData : list Z) (t : FCachedElevationFile F)
  : bool * FCachedElevationFile F :=
  match SetCompressed RawData with
  | Some Png =>
      if negb (Width Png =? TileWidth TiledMap)
         || negb (Height Png =? TileHeight TiledMap)
      then (false, t)
      else if negb (ERGBFormat_eqb (Format Png) RGBA)
              || negb (BitDepth Png =? 8)
      then (false, t)
      else
        match Raw Png with
        | Some RawPNG =>
            let '(Values, Min, Max) :=
              UnpackPixels (Z.to_nat (to_int32 (Width Png * Height Png)))
                RawPNG (ElevationMin t) (ElevationMax t) in
            (true, {| WasInitialized := WasInitialized t;
                      WasDownloadSuccessful := WasDownloadSuccessful t;
                      Failed := Failed t;
                      StartTime := StartTime t;
                      TimeSpan := TimeSpan t;
                      HttpRequest := HttpRequest t;
                      Elevation := Values;
                      TileX := TileX t;
                      TileY := TileY t;
                      TileZ := TileZ t;
                      ElevationMin := Min;
                      ElevationMax := Max |})
        | None => (true, t)
        end
  | None => (false, t)
  end.

(** Assignments to single members *)
Definition with_flags {F} (t : FCachedElevationFile F)
  (Initialized Successful HasFailed : bool) : FCachedElevationFile F :=
  {| WasInitialized := Initialized;
     WasDownloadSuccessful := Successful;
     Failed := HasFailed;
     StartTime := StartTime t;
     TimeSpan := TimeSpan t;
     HttpRequest := HttpRequest t;
     Elevation := Elevation t;
     TileX := TileX t;
     TileY := TileY t;
     TileZ := TileZ t;
     ElevationMin := ElevationMin t;
     ElevationMax := ElevationMax t |}.

Definition set_WasInitialized {F} (t : FCachedElevationFile F) :=
  with_flags t true (WasDownloadSuccessful t) (Failed t).
Definition set_WasDownloadSuccessful {F} (t : FCachedElevationFile F) :=
  with_flags t (WasInitialized t) true (Failed t).
Definition set_Failed {F} (t : FCachedElevationFile F) :=
  with_flags t (WasInitialized t) (WasDownloadSuccessful t) true.

Definition with_request {F} (t : FCachedElevationFile F)
  (Start Span : Z) (Request : bool) : FCachedElevationFile F :=
  {| WasInitialized := WasInitialized t;
     WasDownloadSuccessful := WasDownloadSuccessful t;
     Failed := Failed t;
     StartTime := Start;
     TimeSpan := Span;
     HttpRequest := Request;
     Elevation := Elevation t;
     TileX := TileX t;
     TileY := TileY t;
     TileZ := TileZ t;
     ElevationMin := ElevationMin t;
     ElevationMax := ElevationMax t |}.

Definition set_StartTime {F} (t : FCachedElevationFile F) (Start : Z) :=
  with_request t Start (TimeSpan t) (HttpRequest t).
Definition set_TimeSpan {F} (t : FCachedElevationFile F) (Span : Z) :=
  with_request t (StartTime t) Span (HttpRequest t).
Definition set_HttpRequest {F} (t : FCachedElevationFile F) :=
  with_request t (StartTime t) (TimeSpan t) true.

(** [EHttpRequestStatus] *)
Inductive EHttpRequestStatus :=
| Status_NotStarted
| Status_Processing
| Status_Failed
| Status_Failed_ConnectionError
| Status_Succeeded.

(** What one call of [Tick] on one tile can observe of the outside: the
    cache file ([LoadFileToArray], [None] when it cannot be read), the
    result of [ProcessRequest], the clock in seconds, and the status and
    the response of the tile's request ([None]: the response pointer is
    not valid). *)
Record World := {
  LoadFileToArray : option (list Z);
  ProcessRequest : bool;
  UtcNow : Z;
  GetStatus : EHttpRequestStatus;
  GetResponse : option (list Z)
}.

(** [FTimespan::GetSeconds]: the seconds component of the span *)
Definition GetSeconds (Span : Z) : Z := Z.rem Span 60.

(** The member functions act on the tile and on the static counter
    [NumPendingDownloads]. The write of a downloaded file to the cache
    leaves both as they are and is left out. *)
Definition TileState (F : Type) : Type := FCachedElevationFile F * Z.

Definition OnDownloadSucceeded {F} {A : Arith F} {E : Engine F} (TiledMap : FTiledMap)
  (w : World) (st : TileState F) : TileState F :=
  let '(t, NumPendingDownloads) := st in
  let NumPendingDownloads := to_int32 (NumPendingDownloads - 1) in
  match GetResponse w with
  | Some Content =>
      let '(ok, t) := UnpackElevation TiledMap Content t in
      if negb ok then (set_Failed t, NumPendingDownloads)
      else (set_WasDownloadSuccessful t, NumPendingDownloads)
  | None => (set_WasDownloadSuccessful t, NumPendingDownloads)
  end.

Definition DownloadFile {F} (w : World) (st : TileState F) : TileState F :=
  let '(t, NumPendingDownloads) := st in
  let t := set_HttpRequest t in
  if ProcessRequest w
  then (t, to_int32 (NumPendingDownloads + 1))
  else (set_Failed t, NumPendingDownloads).

Definition Initialize {F} {A : Arith F} {E : Engine F} (TiledMap : FTiledMap)
  (w : World) (st : TileState F) : TileState F :=
  let '(t, NumPendingDownloads) := st in
  let t := set_StartTime (set_WasInitialized t) (UtcNow w) in
  match LoadFileToArray w with
  | Some RawData =>
      let '(ok, t) := UnpackElevation TiledMap RawData t in
      if ok then (set_WasDownloadSuccessful t, NumPendingDownloads)
      else DownloadFile w (t, NumPendingDownloads)
  | None => DownloadFile w (t, NumPendingDownloads)
  end.

Definition HasFinished {F} (t : FCachedElevationFile F) : bool :=
  WasDownloadSuccessful t || Failed t.

Definition Succeeded {F} (t : FCachedElevationFile F) : bool :=
  WasDownloadSuccessful t.

Definition CancelRequest {F} (st : TileState F) : TileState F :=
  let '(t, NumPendingDownloads) := st in
  let t := set_Failed t in
  if HttpRequest t then (t, to_int32 (NumPendingDownloads - 1))
  else (t, NumPendingDownloads).

(** [Tick] after its first [if]: the tile is initialised. *)
Definition TickInitialized {F} {A : Arith F} {E : Engine F} (TiledMap : FTiledMap)
  (w : World) (st : TileState F) : TileState F :=
  let '(t, NumPendingDownloads) := st in
  if WasDownloadSuccessful t || Failed t then st
  else if 10 <? GetSeconds (TimeSpan t)
  then (set_Failed t, to_int32 (NumPendingDownloads - 1))
  else
    let t := set_TimeSpan t (UtcNow w - StartTime t) in
    match GetStatus w with
    | Status_Failed | Status_Failed_ConnectionError =>
        (set_Failed t, to_int32 (NumPendingDownloads - 1))
    | Status_Succeeded => OnDownloadSucceeded TiledMap w (t, NumPendingDownloads)
    | Status_NotStarted | Status_Processing => (t, NumPendingDownloads)
    end.

Definition Tick {F} {A : Arith F} {E : Engine F} (TiledMap : FTiledMap)
  (w : World) (st : TileState F) : TileState F :=
  let '(t, NumPendingDownloads) := st in
  if negb (WasInitialized t)
  then if MaxNumPendingDownloads <=? NumPendingDownloads then st
       else TickInitialized TiledMap w (Initialize TiledMap w st)
  else TickInitialized TiledMap w st.

(** ** FElevationModel::LoadElevationData *)

(** The calls the loop makes on tiles, recorded in order. The source has
    no such record; it is kept to state which tiles a round reaches. *)
Inductive Call := CallTick (id : nat) | CallCancelRequest (id : nat).

(** The tiles are shared objects: [Files] holds them, and the arrays
    [FilesToDownload] and [FilesDownloaded] hold indices into [Files] in
    place of the shared pointers. [NumPendingDownloads] is the static
    counter of [FCachedElevationFile]; [ModelElevationMin] and
    [ModelElevationMax] are the members of [FElevationModel]. *)
Record LoadState (F : Type) := {
  Files : list (FCachedElevationFile F);
  FilesToDownload : list nat;
  FilesDownloaded : list nat;
  NumPendingDownloads : Z;
  ModelElevationMin : F;
  ModelElevationMax : F;
  Calls : list Call
}.

Arguments Files {F} _.
Arguments FilesToDownload {F} _.
Arguments FilesDownloaded {F} _.
Arguments NumPendingDownloads {F} _.
Arguments ModelElevationMin {F} _.
Arguments ModelElevationMax {F} _.
Arguments Calls {F} _.

(** What one pass of the [while] loop observes: the cancel flag of the
    user and, for each tile, the outside as its [Tick] sees it. *)
Record Round := {
  ReceivedUserCancel : bool;
  Worlds : nat -> World
}.

(** [TArray::Remove]: every entry equal to the item goes. *)
Definition Remove (id : nat) (l : list nat) : list nat :=
  filter (fun j => j <> id) l.

(** The loop that cancels the rest after a failure. *)
Fixpoint CancelFiles {F} (ToCancel : list nat) (s : LoadState F) : LoadState F :=
  match ToCancel with
  | [] => s
  | id :: rest =>
      match Files s !! id with
      | Some t =>
          let '(t', n') := CancelRequest (t, NumPendingDownloads s) in
          CancelFiles rest
            {| Files := <[id := t']> (Files s);
               FilesToDownload := FilesToDownload s;
               FilesDownloaded := FilesDownloaded s;
               NumPendingDownloads := n';
               ModelElevationMin := ModelElevationMin s;
               ModelElevationMax := ModelElevationMax s;
               Calls := Calls s ++ [CallCancelRequest id] |}
      | None => CancelFiles rest s
      end
  end.

(** The body of the range-based [for] once the ticked tile [id], now
    [t'], has finished: it leaves [FilesToDownload]; a success is added to
    [FilesDownloaded] and widens the range, a failure cancels the rest
    and empties [FilesToDownload]. *)
Definition FileFinished {F} {A : Arith F} (id : nat) (t' : FCachedElevationFile F)
  (s : LoadState F) : LoadState F :=
  let Remaining := Remove id (FilesToDownload s) in
  if Succeeded t'
  then {| Files := Files s;
          FilesToDownload := Remaining;
          FilesDownloaded := FilesDownloaded s ++ [id];
          NumPendingDownloads := NumPendingDownloads s;
          ModelElevationMin := fmin (ModelElevationMin s) (ElevationMin t');
          ModelElevationMax := fmax (ModelElevationMax s) (ElevationMax t');
          Calls := Calls s |}
  else
    let s' := CancelFiles Remaining s in
    {| Files := Files s';
       FilesToDownload := [];
       FilesDownloaded := FilesDownloaded s';
       NumPendingDownloads := NumPendingDownloads s';
       ModelElevationMin := ModelElevationMin s';
       ModelElevationMax := ModelElevationMax s';
       Calls := Calls s' |}.

(** The range-based [for] over [FilesToDownload]: [todo] is what is left
    of the array to iterate. The loop ends with [break] at the first tile
    that has finished after its tick; the result names that tile, as it
    is after the tick, and is [None] when the loop runs to its end
    ([Progress] is then still 0). *)
Fixpoint TickFiles {F} {A : Arith F} {E : Engine F} (TiledMap : FTiledMap)
  (r : Round) (todo : list nat) (s : LoadState F)
  : LoadState F * option (nat * FCachedElevationFile F) :=
  match todo with
  | [] => (s, None)
  | id :: rest =>
      match Files s !! id with
      | Some t =>
          let '(t', n') := Tick TiledMap (Worlds r id) (t, NumPendingDownloads s) in
          let s1 := {| Files := <[id := t']> (Files s);
                       FilesToDownload := FilesToDownload s;
                       FilesDownloaded := FilesDownloaded s;
                       NumPendingDownloads := n';
                       ModelElevationMin := ModelElevationMin s;
                       ModelElevationMax := ModelElevationMax s;
                       Calls := Calls s ++ [CallTick id] |} in
          if HasFinished t' then (FileFinished id t' s1, Some (id, t'))
          else TickFiles TiledMap r rest s1
      | None => TickFiles TiledMap r rest s
      end
  end.

(** One pass of the [while] loop when the user has not cancelled. *)
Definition DownloadRound {F} {A : Arith F} {E : Engine F} (TiledMap : FTiledMap)
  (r : Round) (s : LoadState F) : LoadState F :=
  fst (TickFiles TiledMap r (FilesToDownload s) s).

(** The [while] loop, driven by what each pass observes. [None]: the
    loop is still running when the observations end. *)
Fixpoint DownloadLoop {F} {A : Arith F} {E : Engine F} (TiledMap : FTiledMap)
  (rounds : list Round) (s : LoadState F) : option (LoadState F) :=
  match FilesToDownload s with
  | [] => Some s
  | _ :: _ =>
      match rounds with
      | [] => None
      | r :: rounds' =>
          if ReceivedUserCancel r then Some s
          else DownloadLoop TiledMap rounds' (DownloadRound TiledMap r s)
      end
  end.

(** The state after the passes [rounds] when the loop runs through all
    of them: [None] when it has ended before. *)
Fixpoint RunRounds {F} {A : Arith F} {E : Engine F} (TiledMap : FTiledMap)
  (rounds : list Round) (s : LoadState F) : option (LoadState F) :=
  match rounds with
  | [] => Some s
  | r :: rounds' =>
      match FilesToDownload s with
      | [] => None
      | _ :: _ =>
          if ReceivedUserCancel r then None
          else RunRounds TiledMap rounds' (DownloadRound TiledMap r s)
      end
  end.

(** [for (Y = MinY; Y <= MaxY; Y++) for (X = MinX; X <= MaxX; X++)] *)
Definition GridCells (MinX MaxX MinY MaxY : Z) : list (Z * Z) :=
  Y ← seqZ MinY (MaxY - MinY + 1);
  X ← seqZ MinX (MaxX - MinX + 1);
  [(X, Y)].

Definition LevelIndex (TiledMap : FTiledMap) : Z :=
  to_uint32 (NumLevels TiledMap - 1).

(** The corners of the landscape in local coordinates;
    [NumVerticesForRadius] is the result of [GetNumVerticesForRadius]. *)
Definition FinalRadius {F} {A : Arith F} (QuadSize : F) (NumVerticesForRadius : Z) : F :=
  fmul (of_int NumVerticesForRadius) QuadSize.

Definition SouthWest {F} {A : Arith F} (QuadSize : F) (NumVerticesForRadius : Z)
  : F * F :=
  (fneg (FinalRadius QuadSize NumVerticesForRadius),
   FinalRadius QuadSize NumVerticesForRadius).

Definition NorthEast {F} {A : Arith F} (QuadSize : F) (NumVerticesForRadius : Z)
  : F * F :=
  (FinalRadius QuadSize NumVerticesForRadius,
   fneg (FinalRadius QuadSize NumVerticesForRadius)).

(** Step 1 of [LoadElevationData]: the tiles to download, or [None] when
    a corner of the landscape does not project. *)
Definition CollectTiles {F} {A : Arith F} {E : Engine F} (TiledMap : FTiledMap)
  (Now : Z) (QuadSize : F) (NumVerticesForRadius : Z)
  : option (list (FCachedElevationFile F)) :=
  match ToEPSG3857 (SouthWest QuadSize NumVerticesForRadius),
        ToEPSG3857 (NorthEast QuadSize NumVerticesForRadius) with
  | Some WestSouth, Some EastNorth =>
      let Level := LevelIndex TiledMap in
      let NumTiles := to_int32 (Z.shiftl 1 Level) in
      let SouthWestTileXY := fst (GetTileXY WestSouth Level) in
      let NorthEastTileXY := fst (GetTileXY EastNorth Level) in
      let MinX := Z.max (to_int32 (Z.min (IntX SouthWestTileXY) (IntX NorthEastTileXY) - 1)) 0 in
      let MinY := Z.max (to_int32 (Z.min (IntY SouthWestTileXY) (IntY NorthEastTileXY) - 1)) 0 in
      let MaxX := Z.min (to_int32 (Z.max (IntX SouthWestTileXY) (IntX NorthEastTileXY) + 1))
                        (to_int32 (NumTiles - 1)) in
      let MaxY := Z.min (to_int32 (Z.max (IntY SouthWestTileXY) (IntY NorthEastTileXY) + 1))
                        (to_int32 (NumTiles - 1)) in
      Some (map (fun XY => NewCachedElevationFile Now (fst XY) (snd XY) Level)
                (GridCells MinX MaxX MinY MaxY))
  | _, _ => None
  end.

(** The state when the [while] loop starts, for a fresh [FElevationModel]
    and [NumPendingDownloads] as the static counter stands. *)
Definition StartDownload {F} {A : Arith F} (tiles : list (FCachedElevationFile F))
  (Pending : Z) : LoadState F :=
  {| Files := tiles;
     FilesToDownload := seq 0 (length tiles);
     FilesDownloaded := [];
     NumPendingDownloads := Pending;
     ModelElevationMin := FLT_MAX;
     ModelElevationMax := fneg FLT_MAX;
     Calls := [] |}.

(** The value [LoadElevationData] returns after the loop. *)
Definition AllDownloaded {F} (NumFilesToDownload : nat) (s : LoadState F) : bool :=
  negb (length (FilesDownloaded s) <? NumFilesToDownload)%nat.

(** [LoadElevationData]: [None] while the loop has not ended, else the
    returned boolean with the state of the model. *)
Definition LoadElevationData {F} {A : Arith F} {E : Engine F} (TiledMap : FTiledMap)
  (Now Pending : Z) (QuadSize : F) (NumVerticesForRadius : Z)
  (rounds : list Round) : option (bool * LoadState F) :=
  match CollectTiles TiledMap Now QuadSize NumVerticesForRadius with
  | None => Some (false, StartDownload [] Pending)
  | Some tiles =>
      match DownloadLoop TiledMap rounds (StartDownload tiles Pending) with
      | Some s => Some (AllDownloaded (length tiles) s, s)
      | None => None
      end
  end.

(** ** FElevationModel::ReprojectData *)

(** [SampleElevationLanczos] (with [EvalLanczos]) needs the engine's sine
    and square root; it is a parameter, and no statement below depends on
    the value it returns. Its arguments are the elevation array of the
    tile, the tile width and height and the pixel location. *)
Class Sampler (F : Type) := {
  SampleElevationLanczos : list F -> Z -> Z -> F * F -> F
}.

(** [GetTile]: the first downloaded tile with the coordinates and the
    level, [None] for [nullptr]. *)
Fixpoint FindTile {F} (AllFiles : list (FCachedElevationFile F))
  (Downloaded : list nat) (XY : FIntPoint) (Level : Z)
  : option (FCachedElevationFile F) :=
  match Downloaded with
  | [] => None
  | id :: rest =>
      match AllFiles !! id with
      | Some Tile =>
          if (TileX Tile =? to_uint32 (IntX XY))
             && (TileY Tile =? to_uint32 (IntY XY))
             && (TileZ Tile =? Level)
          then Some Tile
          else FindTile AllFiles rest XY Level
      | None => FindTile AllFiles rest XY Level
      end
  end.

Definition GetTile {F} (s : LoadState F) (XY : FIntPoint) (Level : Z)
  : option (FCachedElevationFile F) :=
  FindTile (Files s) (FilesDownloaded s) XY Level.

(** What [ReprojectData] does for one vertex: it writes a [uint16], or
    reads through the null pointer [GetTile] returned, or converts to an
    integer a float that has none. *)
Inductive CellValue :=
| Written (QuantizedElevation : Z)
| NullTile
| NoInteger.

Definition ElevationScale {F} {A : Arith F} (Min Max : F) : F :=
  let ElevationRange := fsub Max Min in
  fdiv (of_int 65535) ElevationRange.

(** [(uint16)FMath::RoundToInt((ElevationValue - ElevationMin) * ElevationScale)] *)
Definition QuantizeElevation {F} {A : Arith F} (Min Max ElevationValue : F)
  : CellValue :=
  let ScaledElevationValue :=
    fmul (fsub ElevationValue Min) (ElevationScale Min Max) in
  match RoundToInt ScaledElevationValue with
  | Some z => Written (to_uint16 z)
  | None => NoInteger
  end.

(** The check before sampling: the pixel is at least 2 pixels from the
    low edges and more than 3 from the high edges of the tile. *)
Definition InsideTile {F} {A : Arith F} (TiledMap : FTiledMap) (PixelXY : F * F)
  : bool :=
  fleb (of_int 2) (fst PixelXY)
  && fleb (of_int 2) (snd PixelXY)
  && fltb (fst PixelXY) (of_int (to_int32 (TileWidth TiledMap - 3)))
  && fltb (snd PixelXY) (of_int (to_int32 (TileHeight TiledMap - 3))).

Definition VertexLocation {F} {A : Arith F} (QuadSize : F) (X Y : Z) : F * F :=
  (fmul (of_int X) QuadSize, fmul (of_int Y) QuadSize).

(** The body of the two loops of [ReprojectData] for the vertex (X, Y) *)
Definition ReprojectCell {F} {A : Arith F} {E : Engine F} {S : Sampler F}
  (TiledMap : FTiledMap) (QuadSize : F) (s : LoadState F) (X Y : Z)
  : CellValue :=
  match ToEPSG3857 (VertexLocation QuadSize X Y) with
  | Some Mercator =>
      let '(TileXY, PixelXY) := GetTileXY Mercator (LevelIndex TiledMap) in
      match GetTile s TileXY (LevelIndex TiledMap) with
      | None => NullTile
      | Some Tile =>
          if InsideTile TiledMap PixelXY
          then
            let ElevationValue :=
              SampleElevationLanczos (Elevation Tile) (TileWidth TiledMap)
                (TileHeight TiledMap) PixelXY in
            QuantizeElevation (ModelElevationMin s) (ModelElevationMax s)
              ElevationValue
          else Written 32768
      end
  | None => Written 32768
  end.

(** The rows from [Rows]; [Cancel Y] is the cancel flag of the user after
    row [Y]. [None]: [ReprojectData] returns false. *)
Fixpoint ReprojectRows {F} {A : Arith F} {E : Engine F} {S : Sampler F}
  (TiledMap : FTiledMap) (QuadSize : F) (s : LoadState F)
  (NumVerticesForRadius : Z) (Cancel : Z -> bool) (Rows : list Z)
  : option (list CellValue) :=
  match Rows with
  | [] => Some []
  | Y :: Rows' =>
      let Row := map (fun X => ReprojectCell TiledMap QuadSize s X Y)
                     (seqZ (- NumVerticesForRadius) (2 * NumVerticesForRadius)) in
      if Cancel Y then None
      else rest ← ReprojectRows TiledMap QuadSize s NumVerticesForRadius Cancel Rows';
           Some (Row ++ rest)
  end.

(** The scale of the transform: [ScaleXY] and [ScaleZ] *)
Definition LandscapeScale {F} {A : Arith F} (QuadSize : F) (s : LoadState F) : F * F :=
  let ElevationRange := fsub (ModelElevationMax s) (ModelElevationMin s) in
  let LandscapeInternalScaleZ := fdiv (of_int 512) (of_int 100) in
  (fdiv (fmul (of_int 100) QuadSize) (of_int 128),
   fdiv (fdiv ElevationRange (of_int 256)) LandscapeInternalScaleZ).

Definition ReprojectData {F} {A : Arith F} {E : Engine F} {S : Sampler F}
  (TiledMap : FTiledMap) (QuadSize : F) (s : LoadState F)
  (NumVerticesForRadius : Z) (Cancel : Z -> bool)
  : option (list CellValue * (F * F)) :=
  cells ← ReprojectRows TiledMap QuadSize s NumVerticesForRadius Cancel
            (seqZ (- NumVerticesForRadius) (2 * NumVerticesForRadius));
  Some (cells, LandscapeScale QuadSize s).

(** ** CreateLandscape: the blend weights of the import layers *)

(** [EStreetMapMiscWayType] *)
Inductive EStreetMapMiscWayType := Unknown | Leisure | Natural | LandUse.

Definition EStreetMapMiscWayType_eqb (a b : EStreetMapMiscWayType) : bool :=
  match a, b with
  | Unknown, Unknown | Leisure, Leisure | Natural, Natural
  | LandUse, LandUse => true
  | _, _ => false
  end.

(** A way of the street map as the rasterisation reads it. The geometry
    lies outside the file ([FTransform], [FPolygon2DView]); a way carries
    what it yields for the job at hand:
    - [FloorMinX], [FloorMinY], [CeilMaxX], [CeilMaxY]: [FloorToInt] and
      [CeilToInt] of the transformed bounds, widened by half the gauge;
    - [Coverage X Y]: for the vertex (X, Y), [None] when it is neither
      inside nor closer than half the gauge, else
      [FMath::RoundToInt(255.0f * Lerp)];
    - [CancelAfter]: the cancel flag of the user once the way is done. *)
Record FStreetMapMiscWay := {
  WayType : EStreetMapMiscWayType;
  Category : string;
  bIsClosed : bool;
  FloorMinX : Z;
  FloorMinY : Z;
  CeilMaxX : Z;
  CeilMaxY : Z;
  Coverage : Z -> Z -> option Z;
  CancelAfter : bool
}.

(** [FName] and [FString] ignore the case of letters when they are
    compared ([FName::operator==] through the comparison index,
    [FString::operator==] through [Stricmp]): both sides are compared
    after [ToLower], which maps the letters A to Z to a to z and leaves
    every other character as it is. *)
Definition ToLower (c : Ascii.ascii) : Ascii.ascii :=
  let n := Ascii.nat_of_ascii c in
  if Nat.leb 65 n && Nat.leb n 90 then Ascii.ascii_of_nat (n + 32) else c.

Fixpoint ToLowerString (s : string) : string :=
  match s with
  | EmptyString => EmptyString
  | String c s' => String (ToLower c) (ToLowerString s')
  end.

(** [FString::operator==], and [operator==] of two [FName]s made from
    strings *)
Definition FString_eqb (LHS RHS : string) : bool :=
  String.eqb (ToLowerString LHS) (ToLowerString RHS).

Definition FName_eqb (LHS RHS : string) : bool :=
  String.eqb (ToLowerString LHS) (ToLowerString RHS).

(** A way type with a category; [operator==] compares the types and,
    ignoring case, the categories. *)
Definition FWayMatch : Type := EStreetMapMiscWayType * string.

Definition FWayMatch_eqb (LHS RHS : FWayMatch) : bool :=
  EStreetMapMiscWayType_eqb (fst LHS) (fst RHS)
  && FString_eqb (snd LHS) (snd RHS).

Definition GrassWays : list FWayMatch :=
  [(LandUse, "grass"); (LandUse, "village_green"); (LandUse, "meadow");
   (LandUse, "farmland"); (Leisure, "park")]%string.

Definition WoodWays : list FWayMatch :=
  [(LandUse, "forest"); (Natural, "wood"); (Natural, "nature_reserve")]%string.

(** [LayerWayMapping.Find(LayerName)]: the keys of the map are the
    [FName]s Grass and Wood. *)
Definition LayerWayMapping (LayerName : string) : option (list FWayMatch) :=
  if FName_eqb LayerName "Grass" then Some GrassWays
  else if FName_eqb LayerName "Wood" then Some WoodWays
  else None.

Definition GetPolygonWaysForLayer (LayerName : string)
  (MiscWays : list FStreetMapMiscWay) : list FStreetMapMiscWay :=
  match LayerWayMapping LayerName with
  | None => []
  | Some WayMatches =>
      filter (fun MiscWay =>
                Is_true (bIsClosed MiscWay
                         && existsb (FWayMatch_eqb (WayType MiscWay, Category MiscWay))
                                    WayMatches))
             MiscWays
  end.

(** [FLandscapeImportLayerInfo]: the name and the weights, one [uint8]
    per vertex *)
Record FLandscapeImportLayerInfo := {
  LayerName : string;
  LayerData : list Z
}.

(** [(255.0f - Weight) / 255.0f] for the weight just stored *)
Definition AvailableBlendWeight {F} {A : Arith F} (Weight : Z) : F :=
  fdiv (fsub (of_int 255) (of_int Weight)) (of_int 255).

(** [FMath::RoundToInt(AvailableBlendWeight * Previous)] stored in a
    [uint8]. The product is finite for bytes, so the conversion has a
    value (see [RampDown_byte]); the other branch is never taken. *)
Definition RampDown {F} {A : Arith F} (Weight Previous : Z) : Z :=
  match RoundToInt (fmul (AvailableBlendWeight Weight) (of_int Previous)) with
  | Some z => to_uint8 z
  | None => 0
  end.

(** For [Available = AvailableBlendWeight Weight]: the conversion has a
    value, the value is a byte, and 255 times the value is within 127 of
    [(255 - Weight) * Previous], so that the value is the nearest integer
    of [(255 - Weight) * Previous / 255]. *)
Definition RampDownCheck {F} {A : Arith F} (Available : F) (Weight Previous : Z)
  : bool :=
  match RoundToInt (fmul Available (of_int Previous)) with
  | Some z =>
      (0 <=? z) && (z <=? 255)
      && (Z.abs (255 * z - (255 - Weight) * Previous) <=? 127)
  | None => false
  end.

(** The check for every pair of bytes *)
Definition RampDownTable {F} {A : Arith F} : bool :=
  forallb (fun Weight =>
             let Available := AvailableBlendWeight Weight in
             forallb (RampDownCheck Available Weight) (seqZ 0 256))
          (seqZ 0 256).

Definition PixelIndex (NumVerticesForRadius X Y : Z) : nat :=
  let Size := to_int32 (NumVerticesForRadius * 2) in
  Z.to_nat (to_int32 ((Y + NumVerticesForRadius) * Size + X + NumVerticesForRadius)).

(** The weights while a layer is filled: [WeightData] of the layer and
    the layers added before it. *)
Definition Weights : Type := list Z * list FLandscapeImportLayerInfo.

(** The weight stored for a rounded value: capped at 255, as a [uint8] *)
Definition StoredWeight (Rounded : Z) : Z := to_uint8 (Z.min 255 Rounded).

(** A covered vertex: the weight [Rounded = RoundToInt(255.0f * Lerp)] is
    capped and stored, the earlier layers are ramped down. *)
Definition PaintPixel {F} {A : Arith F} (Index : nat) (Rounded : Z) (w : Weights)
  : Weights :=
  let Weight := StoredWeight Rounded in
  (<[Index := Weight]> (fst w),
   map (fun PreviousImportLayer =>
          {| LayerName := LayerName PreviousImportLayer;
             LayerData :=
               <[Index := RampDown Weight (nth Index (LayerData PreviousImportLayer) 0)]>
                 (LayerData PreviousImportLayer) |})
       (snd w)).

(** The vertices a way covers, in the order of the two loops, each with
    its pixel index and rounded weight. *)
Definition CoveredPixels (NumVerticesForRadius : Z) (Polygon : FStreetMapMiscWay)
  : list (nat * Z) :=
  let MinX := Z.max (- NumVerticesForRadius) (FloorMinX Polygon) in
  let MinY := Z.max (- NumVerticesForRadius) (FloorMinY Polygon) in
  let MaxX := Z.min (NumVerticesForRadius - 1) (CeilMaxX Polygon) in
  let MaxY := Z.min (NumVerticesForRadius - 1) (CeilMaxY Polygon) in
  XY ← GridCells MinX MaxX MinY MaxY;
  match Coverage Polygon (fst XY) (snd XY) with
  | Some Rounded => [(PixelIndex NumVerticesForRadius (fst XY) (snd XY), Rounded)]
  | None => []
  end.

Definition RasterizePolygon {F} {A : Arith F} (NumVerticesForRadius : Z)
  (Polygon : FStreetMapMiscWay) (w : Weights) : Weights :=
  fold_left (fun w p => PaintPixel (fst p) (snd p) w)
            (CoveredPixels NumVerticesForRadius Polygon) w.

(** The loop over the polygons of a layer; [None]: the user cancelled and
    [CreateLandscape] returns [nullptr]. *)
Fixpoint RasterizePolygons {F} {A : Arith F} (NumVerticesForRadius : Z)
  (Polygons : list FStreetMapMiscWay) (w : Weights) : option Weights :=
  match Polygons with
  | [] => Some w
  | Polygon :: rest =>
      let w' := RasterizePolygon NumVerticesForRadius Polygon w in
      if CancelAfter Polygon then None
      else RasterizePolygons NumVerticesForRadius rest w'
  end.

Definition NumPixels (NumVerticesForRadius : Z) : nat :=
  let Size := to_int32 (NumVerticesForRadius * 2) in
  Z.to_nat (to_int32 (Size * Size)).

(** The body of the loop over [BuildSettings.Layers] for one layer *)
Definition AddImportLayer {F} {A : Arith F} (NumVerticesForRadius : Z)
  (MiscWays : list FStreetMapMiscWay) (Name : string)
  (ImportLayers : list FLandscapeImportLayerInfo)
  : option (list FLandscapeImportLayerInfo) :=
  match ImportLayers with
  | [] =>
      Some [{| LayerName := Name;
               LayerData := replicate (NumPixels NumVerticesForRadius) 255 |}]
  | _ :: _ =>
      let Polygons := GetPolygonWaysForLayer Name MiscWays in
      let WeightData := replicate (NumPixels NumVerticesForRadius) 0 in
      match Polygons with
      | _ :: _ =>
          w ← RasterizePolygons NumVerticesForRadius Polygons (WeightData, ImportLayers);
          Some (snd w ++ [{| LayerName := Name; LayerData := fst w |}])
      | [] =>
          Some (ImportLayers
                ++ [{| LayerName := Name; LayerData := <[0%nat := 1]> WeightData |}])
      end
  end.

(** The import layers of [CreateLandscape] for the layers named in the
    build settings, in their order *)
Fixpoint AddImportLayers {F} {A : Arith F} (NumVerticesForRadius : Z)
  (MiscWays : list FStreetMapMiscWay) (Names : list string)
  (ImportLayers : list FLandscapeImportLayerInfo)
  : option (list FLandscapeImportLayerInfo) :=
  match Names with
  | [] => Some ImportLayers
  | Name :: rest =>
      ImportLayers' ← AddImportLayer NumVerticesForRadius MiscWays Name ImportLayers;
      AddImportLayers NumVerticesForRadius MiscWays rest ImportLayers'
  end.

Definition CreateLandscape {F} {A : Arith F} (NumVerticesForRadius : Z)
  (MiscWays : list FStreetMapMiscWay) (Layers : list string)
  : option (list FLandscapeImportLayerInfo) :=
  AddImportLayers NumVerticesForRadius MiscWays Layers [].


(** The weight of a layer at a pixel and the sum over the layers *)
Definition WeightAt (Index : nat) (Layer : FLandscapeImportLayerInfo) : Z :=
  nth Index (LayerData Layer) 0.

Definition WeightSum (Index : nat) (ImportLayers : list FLandscapeImportLayerInfo) : Z :=
  foldr (fun Layer acc => WeightAt Index Layer + acc) 0 ImportLayers.

(** ** BuildLandscape *)

(** What [CreateLandscape] is given: the heights, the scale and the
    import layers. *)
Record Landscape (F : Type) := {
  ElevationData : list CellValue;
  Scale : F * F;
  ImportLayers : list FLandscapeImportLayerInfo
}.

Arguments ElevationData {F} _.
Arguments Scale {F} _.
Arguments ImportLayers {F} _.

(** [BuildLandscape]: the outer [None] while the download loop has not
    ended, the inner [None] for [nullptr]. *)
Definition BuildLandscape {F} {A : Arith F} {E : Engine F} {S : Sampler F}
  (TiledMap : FTiledMap) (Now Pending : Z) (QuadSize : F)
  (NumVerticesForRadius : Z) (rounds : list Round) (Cancel : Z -> bool)
  (MiscWays : list FStreetMapMiscWay) (Layers : list string)
  : option (option (Landscape F)) :=
  match LoadElevationData TiledMap Now Pending QuadSize NumVerticesForRadius rounds with
  | None => None
  | Some (false, _) => Some None
  | Some (true, s) =>
      match ReprojectData TiledMap QuadSize s NumVerticesForRadius Cancel with
      | None => Some None
      | Some (cells, scale) =>
          match CreateLandscape NumVerticesForRadius MiscWays Layers with
          | None => Some None
          | Some layers =>
              Some (Some {| ElevationData := cells;
                            Scale := scale;
                            ImportLayers := layers |})
          end
      end
  end.

(** ** Collaborators and data for worked examples *)

(** A stand-in for the image wrapper: the bytes are the bit depth, a
    code for the format (1 is RGBA), the width, the height and then the
    raw pixels. *)
Definition HeaderCodec (bytes : list Z) : option PngImage :=
  match bytes with
  | depth :: format :: width :: height :: raw =>
      Some {| BitDepth := depth;
              Format := if format =? 1 then RGBA
                        else if format =? 2 then BGRA
                        else if format =? 3 then Gray else Invalid;
              Width := width;
              Height := height;
              Raw := Some raw |}
  | _ => None
  end.

(** A map of one tile: a local point is its own projection and its own
    pixel location; points with x of a million or more do not project. *)
Definition OneTileEngine {F} {A : Arith F} : Engine F :=
  {| SetCompressed := HeaderCodec;
     WebMercator := F * F;
     ToEPSG3857 := fun p => if fleb (of_int 1000000) (fst p) then None else Some p;
     GetTileXY := fun p _ => ({| IntX := 0; IntY := 0 |}, p) |}.

(** A projection that is not monotone: the points with x between -1 and
    1 lie in tile (0, 0), all others in tile (8, 8). *)
Definition FoldedEngine {F} {A : Arith F} : Engine F :=
  {| SetCompressed := HeaderCodec;
     WebMercator := F * F;
     ToEPSG3857 := fun p => Some p;
     GetTileXY := fun p _ =>
       if fleb (of_int (-1)) (fst p) && fleb (fst p) (of_int 1)
       then ({| IntX := 0; IntY := 0 |}, p)
       else ({| IntX := 8; IntY := 8 |}, p) |}.

(** A sampler that returns the first elevation of the tile. *)
Definition FirstSampleSampler {F} {A : Arith F} : Sampler F :=
  {| SampleElevationLanczos := fun data _ _ _ => nth 0 data (of_int 0) |}.

(** Tiles of one pixel, five levels: 16 by 16 tiles at the last level. *)
Definition SmallMap : FTiledMap :=
  {| TileWidth := 1; TileHeight := 1; NumLevels := 5 |}.

(** Tiles of 256 by 256 pixels at a single level. *)
Definition OneTileMap : FTiledMap :=
  {| TileWidth := 256; TileHeight := 256; NumLevels := 1 |}.

(** A file of one RGBA pixel with R = 128, G = 5, B = 0 *)
Definition OnePixelFile : list Z := [8; 1; 1; 1; 128; 5; 0; 255].

(** A file whose width is 2 where [SmallMap] expects 1 *)
Definition WideFile : list Z := [8; 1; 2; 1; 128; 5; 0; 255; 128; 6; 0; 255].

(** The tile is in the cache. *)
Definition CachedWorld : World :=
  {| LoadFileToArray := Some OnePixelFile;
     ProcessRequest := true;
     UtcNow := 0;
     GetStatus := Status_Processing;
     GetResponse := None |}.

(** The tile is not in the cache and there is no connection. *)
Definition OfflineWorld : World :=
  {| LoadFileToArray := None;
     ProcessRequest := false;
     UtcNow := 2;
     GetStatus := Status_Failed_ConnectionError;
     GetResponse := None |}.

(** The tile is not in the cache and its request is under way. *)
Definition WaitingWorld : World :=
  {| LoadFileToArray := None;
     ProcessRequest := true;
     UtcNow := 1;
     GetStatus := Status_Processing;
     GetResponse := None |}.

Definition CachedRound : Round :=
  {| ReceivedUserCancel := false; Worlds := fun _ => CachedWorld |}.

Definition WaitingRound : Round :=
  {| ReceivedUserCancel := false; Worlds := fun _ => WaitingWorld |}.

(** Tile 1 cannot be fetched; the others are waiting. *)
Definition FailingRound : Round :=
  {| ReceivedUserCancel := false;
     Worlds := fun id => if Nat.eqb id 1 then OfflineWorld else WaitingWorld |}.

(** Tiles of 6 by 6 pixels at a single level, and a file for it in which
    every pixel is R = 128, G = 0, B = 0: a flat area of elevation 0, as
    over open water. *)
Definition FlatMap : FTiledMap :=
  {| TileWidth := 6; TileHeight := 6; NumLevels := 1 |}.

Definition FlatFile : list Z :=
  [8; 1; 6; 6] ++ mjoin (replicate 36 [128; 0; 0; 255]).

Definition FlatRound : Round :=
  {| ReceivedUserCancel := false;
     Worlds := fun _ =>
       {| LoadFileToArray := Some FlatFile;
          ProcessRequest := true;
          UtcNow := 0;
          GetStatus := Status_Processing;
          GetResponse := None |} |}.

(** A model that holds the one tile (0, 0) of level 0, without
    elevations, and the elevation range from 0 to 100. *)
Definition OneTileState {F} {A : Arith F} : LoadState F :=
  {| Files := [set_WasDownloadSuccessful (NewCachedElevationFile 0 0 0 0)];
     FilesToDownload := [];
     FilesDownloaded := [0%nat];
     NumPendingDownloads := 0;
     ModelElevationMin := of_int 0;
     ModelElevationMax := of_int 100;
     Calls := [CallTick 0] |}.

(** The nine tiles around tile (8, 8) of level 4 *)
Definition NineTiles : list (FCachedElevationFile Binary32.float) :=
  map (fun XY => NewCachedElevationFile 0 (fst XY) (snd XY) 4) (GridCells 7 9 7 9).

(** A closed way that covers the vertex (0, 0) alone, with the rounded
    weight [Rounded] *)
Definition VertexWay (Type_ : EStreetMapMiscWayType) (Category_ : string)
  (Rounded : Z) : FStreetMapMiscWay :=
  {| WayType := Type_;
     Category := Category_;
     bIsClosed := true;
     FloorMinX := -1;
     FloorMinY := -1;
     CeilMaxX := 1;
     CeilMaxY := 1;
     Coverage := fun X Y => if (X =? 0) && (Y =? 0) then Some Rounded else None;
     CancelAfter := false |}.

(** The vertex is covered half: the rounded weight is 128. *)
Definition HalfWay (Type_ : EStreetMapMiscWayType) (Category_ : string)
  : FStreetMapMiscWay :=
  VertexWay Type_ Category_ 128.

(** A closed way that covers every vertex of the row Y = 0; deep inside
    the rounded weight is above 255. *)
Definition RowWay (Type_ : EStreetMapMiscWayType) (Category_ : string)
  : FStreetMapMiscWay :=
  {| WayType := Type_;
     Category := Category_;
     bIsClosed := true;
     FloorMinX := -8;
     FloorMinY := 0;
     CeilMaxX := 8;
     CeilMaxY := 0;
     Coverage := fun X Y => if X =? 0 then Some 300 else Some 77;
     CancelAfter := false |}.

(** The ticked tiles of a record of calls, in order *)
Definition TickedFiles (calls : list Call) : list nat :=
  omap (fun c => match c with CallTick id => Some id | CallCancelRequest _ => None end)
       calls.

(** ** Well-formed states of the download loop *)

Definition SameTile {F} (t t' : FCachedElevationFile F) : Prop :=
  TileX t' = TileX t /\ TileY t' = TileY t /\ TileZ t' = TileZ t.

(** The state holds the tiles of [tiles], each at its index and with its
    coordinates, and no tile is listed twice in the two arrays. *)
Record WellFormed {F} (tiles : list (FCachedElevationFile F)) (s : LoadState F)
  : Prop := {
  wf_length : length (Files s) = length tiles;
  wf_tiles : forall i t0 t,
      tiles !! i = Some t0 -> Files s !! i = Some t -> SameTile t0 t;
  wf_NoDup : NoDup (FilesDownloaded s ++ FilesToDownload s);
  wf_bound : forall i,
      i ∈ FilesDownloaded s ++ FilesToDownload s -> (i < length tiles)%nat
}.



(** Success and failure exclude each other. *)
Definition Exclusive {F} (t : FCachedElevationFile F) : Prop :=
  WasDownloadSuccessful t = true -> Failed t = true -> False.

(** No tile that is still to download has finished. *)
Definition PendingUnfinished {F} (s : LoadState F) : Prop :=
  forall i t,
    i ∈ FilesToDownload s -> Files s !! i = Some t -> HasFinished t = false.

(** ** Partitions of the weight *)






(** ** Requests under way *)

(** 1 when the request of the tile is under way: the request exists and
    the tile has not finished. *)
Definition InFlight {F} (t : FCachedElevationFile F) : Z :=
  if HttpRequest t && negb (HasFinished t) then 1 else 0.

(** While a tile has not finished, it has a request exactly when it is
    initialised. *)
Definition RequestMatchesInit {F} (t : FCachedElevationFile F) : Prop :=
  HasFinished t = false -> HttpRequest t = WasInitialized t.

(** The requests under way among the tiles listed *)
Definition InFlightCount {F} (AllFiles : list (FCachedElevationFile F))
  (ids : list nat) : Z :=
  foldr (fun id acc =>
           match AllFiles !! id with
           | Some t => InFlight t + acc
           | None => acc
           end) 0 ids.


(** The counter stands at [Pending] plus the requests under way among
    the tiles still to download, no tile is listed twice among them, and
    each of them is unfinished and has a request exactly when it is
    initialised. *)
Definition Accounted {F} (Pending : Z) (s : LoadState F) : Prop :=
  NoDup (FilesToDownload s)
  /\ (forall id t, id ∈ FilesToDownload s -> Files s !! id = Some t ->
                   HasFinished t = false /\ RequestMatchesInit t)
  /\ NumPendingDownloads s = Pending + InFlightCount (Files s) (FilesToDownload s)
  /\ NumPendingDownloads s <= Z.max Pending MaxNumPendingDownloads.

(** Every tile listed as downloaded has succeeded and has not failed. *)
Definition DownloadedSucceeded {F} (s : LoadState F) : Prop :=
  forall i t,
    i ∈ FilesDownloaded s -> Files s !! i = Some t ->
    Succeeded t = true /\ Failed t = false.

(** ** Samples of a tile *)

(** The tile holds one elevation for every pixel of a tile of the map. *)
Definition HasSamples {F} (TiledMap : FTiledMap) (t : FCachedElevationFile F) : Prop :=
  Z.of_nat (length (Elevation t)) = TileWidth TiledMap * TileHeight TiledMap.

(** Whenever the image wrapper accepts the bytes, [GetRaw] delivers the
    pixels. *)
Definition CodecDeliversRaw {F} {E : Engine F} : Prop :=
  forall (RawData : list Z) (Png : PngImage),
    SetCompressed RawData = Some Png -> Raw Png <> None.

(** Every request that succeeds has a valid response: whenever the
    status of a request is [Succeeded], [GetResponse] is valid. Nothing is
    asked of a request that is under way or has failed. *)
Definition ResponsesValid (rounds : list Round) : Prop :=
  forall r id,
    r ∈ rounds ->
    GetStatus (Worlds r id) = Status_Succeeded ->
    GetResponse (Worlds r id) <> None.

(** The request is not in the cache, has been sent and has succeeded
    with the file of one pixel as its content. *)
Definition DeliveredWorld : World :=
  {| LoadFileToArray := None;
     ProcessRequest := true;
     UtcNow := 1;
     GetStatus := Status_Succeeded;
     GetResponse := Some OnePixelFile |}.

Definition DeliveredRound : Round :=
  {| ReceivedUserCancel := false; Worlds := fun _ => DeliveredWorld |}.

(** The request has succeeded and its response is not valid. *)
Definition EmptyResponseWorld : World :=
  {| LoadFileToArray := None;
     ProcessRequest := true;
     UtcNow := 1;
     GetStatus := Status_Succeeded;
     GetResponse := None |}.

(** ** SampleElevationLanczos: the samples it reads *)

(** The conversion [(int32)x] of a float: the integer part, towards
    zero. It has no value on NaN, on an infinity and outside the range of
    [int32]. *)
Class Cast (F : Type) := {
  FloatToInt : F -> option Z
}.

#[export] Instance binary32_cast : Cast Binary32.float := {|
  FloatToInt := fun x =>
    match x with
    | S754_zero _ => Some 0
    | S754_finite s m e =>
        let n := if s then Z.neg m else Z.pos m in
        let r := if 0 <=? e then n * 2 ^ e else Z.quot n (2 ^ (- e)) in
        if in_int32 r then Some r else None
    | S754_infinity _ | S754_nan => None
    end
|}.

#[export] Instance exact_cast : Cast Exact.number := {|
  FloatToInt := fun x =>
    match x with
    | Some a =>
        let r := if Qle_bool 0 a then Qfloor a else Qceiling a in
        if in_int32 r then Some r else None
    | None => None
    end
|}.

(** The 13 taps: the 5 by 5 footprint without its corners *)
Definition Taps : list FIntPoint :=
  [ {| IntX := 0; IntY := -2 |};
    {| IntX := -1; IntY := -1 |}; {| IntX := 0; IntY := -1 |};
    {| IntX := 1; IntY := -1 |};
    {| IntX := -2; IntY := 0 |}; {| IntX := -1; IntY := 0 |};
    {| IntX := 0; IntY := 0 |}; {| IntX := 1; IntY := 0 |};
    {| IntX := 2; IntY := 0 |};
    {| IntX := -1; IntY := 1 |}; {| IntX := 0; IntY := 1 |};
    {| IntX := 1; IntY := 1 |};
    {| IntX := 0; IntY := 2 |} ].

(** [DataWidth * (ElevationY + Tap->Y) + ElevationX + Tap->X], computed in
    [uint32] as [DataWidth] is one *)
Definition TapIndex (DataWidth ElevationX ElevationY : Z) (Tap : FIntPoint) : Z :=
  to_uint32 (DataWidth * (ElevationY + IntY Tap) + ElevationX + IntX Tap).

(** The indices into [ElevationData] that [SampleElevationLanczos] reads
    for a pixel location, in the order of the taps; [None] when a
    coordinate has no integer part. *)
Definition TapIndices {F} {C : Cast F} (DataWidth : Z) (PixelXY : F * F)
  : option (list Z) :=
  match FloatToInt (fst PixelXY), FloatToInt (snd PixelXY) with
  | Some ElevationX, Some ElevationY =>
      Some (map (TapIndex DataWidth ElevationX ElevationY) Taps)
  | _, _ => None
  end.

(** The tile of [FlatMap] unpacked from [FlatFile] *)
Definition FlatTile {F} {A : Arith F} : FCachedElevationFile F :=
  snd (UnpackElevation (E := OneTileEngine) FlatMap FlatFile
         (NewCachedElevationFile 0 0 0 0)).

(** ** Layers of bytes *)

(** The layer holds [n] weights and each of them is a byte. *)
Definition ByteLayer (n : nat) (Layer : FLandscapeImportLayerInfo) : Prop :=
  length (LayerData Layer) = n
  /\ Forall (fun Weight => 0 <= Weight <= 255) (LayerData Layer).

(** The layer [Layer'] is the layer [Layer] with no weight raised. *)
Definition Lowered (Layer Layer' : FLandscapeImportLayerInfo) : Prop :=
  LayerName Layer' = LayerName Layer
  /\ length (LayerData Layer') = length (LayerData Layer)
  /\ forall Index, 0 <= WeightAt Index Layer' <= WeightAt Index Layer.

(** ** The cache file of a tile *)

(** [FString::AppendInt]: the decimal digits of an [int32], after a
    minus sign when it is negative. *)
Definition AppendInt (FilePath : string) (InNum : Z) : string :=
  String.append FilePath
    (DecimalString.NilZero.string_of_int (Z.to_int (to_int32 InNum))).

(** [GetCachedFilePath] for the cache directory [ElevationCacheDir]; the
    coordinates are [uint32] and are given to [AppendInt] as [int32]. *)
Definition GetCachedFilePath (ElevationCacheDir : string) (X Y Level : Z) : string :=
  let FilePath := ElevationCacheDir in
  let FilePath := String.append FilePath "elevation_" in
  let FilePath := AppendInt FilePath Level in
  let FilePath := String.append FilePath "_" in
  let FilePath := AppendInt FilePath X in
  let FilePath := String.append FilePath "_" in
  let FilePath := AppendInt FilePath Y in
  let FilePath := String.append FilePath ".png" in
  FilePath.

(** The characters that stand between and after the numbers of the
    path: the underscore and the full stop *)
Definition Underscore : Ascii.ascii := Ascii.ascii_of_nat 95.
Definition FullStop : Ascii.ascii := Ascii.ascii_of_nat 46.

(** No character of the string is an underscore or a full stop. *)
Fixpoint NoSeparator (s : string) : bool :=
  match s with
  | EmptyString => true
  | String c s' =>
      negb (Ascii.eqb c Underscore) && negb (Ascii.eqb c FullStop) && NoSeparator s'
  end.

(** ** The range of the model *)

(** The minimum and the maximum of the tile are numbers. *)
Definition HasRange (t : FCachedElevationFile Exact.number) : Prop :=
  is_Some (ElevationMin t) /\ is_Some (ElevationMax t).

(** The range of the model holds the range of every tile listed as
    downloaded. *)
Definition RangeCovers (s : LoadState Exact.number) : Prop :=
  exists globalMin globalMax : Q,
    ModelElevationMin s = Some globalMin
    /\ ModelElevationMax s = Some globalMax
    /\ forall (i : nat) (t : FCachedElevationFile Exact.number),
         i ∈ FilesDownloaded s -> Files s !! i = Some t ->
         exists mn mx : Q,
           ElevationMin t = Some mn /\ ElevationMax t = Some mx
           /\ (globalMin <= mn)%Q /\ (mx <= globalMax)%Q.

(** ** GetNumVerticesForRadius *)

(** [FMath::RoundUpToPowerOfTwo] (on [uint32]) and
    [FMath::DivideAndRoundUp] (on [int32]) belong to the engine and are
    parameters; what is assumed of them is stated where it is used.
    [DivideAndRoundUp] is [None] where the engine divides by zero. *)
Class FMath := {
  RoundUpToPowerOfTwo : Z -> Z;
  DivideAndRoundUp : Z -> Z -> option Z
}.

(** The number of vertices for the radius with the subsection size
    [OutSubsectionSizeQuads]; [None] when the ratio has no integer or the
    division has no value. The subtraction is done in [uint32] and its
    result is stored in an [int32]. *)
Definition GetNumVerticesForRadius {F} {A : Arith F} {M : FMath} (Radius QuadSize : F)
  : option (Z * Z) :=
  match RoundToInt (fdiv Radius QuadSize) with
  | Some Size =>
      let OutSubsectionSizeQuads :=
        to_int32 (to_uint32 (RoundUpToPowerOfTwo (to_uint32 Size) / 16 - 1)) in
      match DivideAndRoundUp Size OutSubsectionSizeQuads with
      | Some Quotient =>
          Some (to_int32 (Quotient * OutSubsectionSizeQuads), OutSubsectionSizeQuads)
      | None => None
      end
  | None => None
  end.

(** The two functions as the engine defines them: the least power of
    two that is not below the argument, and the quotient of
    [Dividend + Divisor - 1] by [Divisor]. *)
Definition EngineMath : FMath :=
  {| RoundUpToPowerOfTwo := fun Arg =>
       if Arg <=? 1 then 1 else to_uint32 (2 ^ Z.log2_up Arg);
     DivideAndRoundUp := fun Dividend Divisor =>
       if Divisor =? 0 then None
       else Some (to_int32 (Z.quot (to_int32 (Dividend + Divisor - 1)) Divisor)) |}.

(** ** Proof steps for the flags of a tile *)

Ltac flags :=
  unfold InFlight, RequestMatchesInit, HasFinished, MaxNumPendingDownloads in *;
  cbn [WasInitialized WasDownloadSuccessful Failed HttpRequest TimeSpan StartTime
       set_Failed set_WasDownloadSuccessful set_WasInitialized set_StartTime
       set_TimeSpan set_HttpRequest with_flags with_request fst snd negb] in *.

Ltac bools :=
  repeat match goal with
         | |- context [WasInitialized ?t] => destruct (WasInitialized t) eqn:?
         | |- context [WasDownloadSuccessful ?t] =>
             destruct (WasDownloadSuccessful t) eqn:?
         | |- context [Failed ?t] => destruct (Failed t) eqn:?
         | |- context [HttpRequest ?t] => destruct (HttpRequest t) eqn:?
         end.

(** * Properties *)

(** ** Decoding a tile *)

(** The loop stores the value of [UnpackPixel] for each pixel in turn. *)
Lemma UnpackPixels_values {F} {A : Arith F} (count : nat) :
  forall (Data : list Z) (Min Max : F),
    fst (fst (UnpackPixels (S count) Data Min Max))
    = UnpackPixel Data
      :: fst (fst (UnpackPixels count (drop 4 Data)
                     (snd (fst (UnpackPixels 1 Data Min Max)))
                     (snd (UnpackPixels 1 Data Min Max)))).
Proof.
  intros Data Min Max. cbn [UnpackPixels]. unfold UnpackPixel.
  destruct (IsValid (PackedElevation Data)); cbn [fst snd];
    destruct (UnpackPixels count (drop 4 Data) _ _) as [[rest Min'] Max'];
    reflexivity.
Qed.

(** C5. The pixel R = 128, G = 0, B = 0 decodes to the stored elevation
    128 * 256 + 0 + 0 / 256 - 32768 = 0, whatever its alpha byte; the
    stored elevation -256 belongs to R = 127, G = 0, B = 0. Both values
    are valid samples, and a tile of that one pixel has the elevation 0
    as its only sample, its minimum and its maximum. *)
Theorem UnpackPixel_128_0_0 (Alpha : Z) :
  UnpackPixel (F := Binary32.float) [128; 0; 0; Alpha] = of_int 0
  /\ UnpackPixel (F := Binary32.float) [127; 0; 0; Alpha] = of_int (-256)
  /\ UnpackPixel (F := Binary32.float) [128; 0; 0; Alpha]
     = fsub (PackedElevation [128; 0; 0; Alpha]) (of_int 32768)
  /\ UnpackPixels (F := Binary32.float) 1 [128; 0; 0; Alpha] FLT_MAX (fneg FLT_MAX)
     = ([of_int 0], of_int 0, of_int 0)
  /\ Elevation (snd (UnpackElevation (F := Binary32.float) (E := OneTileEngine)
                       SmallMap [8; 1; 1; 1; 128; 0; 0; Alpha]
                       (NewCachedElevationFile 0 0 0 4)))
     = [of_int 0].
Proof. repeat split; vm_compute; reflexivity. Qed.

(** C5, as the claim has it: the pixel (128, 0, 0) does not decode
    to -256. *)
Lemma UnpackPixel_128_0_0_not_minus_256 :
  UnpackPixel (F := Binary32.float) [128; 0; 0; 255] <> of_int (-256).
Proof. vm_compute. discriminate. Qed.

(** The exact arithmetic gives the same two elevations. *)
Example UnpackPixel_exact :
  UnpackPixel (F := Exact.number) [128; 0; 0; 255] = Some (0 # 256)%Q
  /\ UnpackPixel (F := Exact.number) [127; 0; 0; 255] = Some (- 65536 # 256)%Q.
Proof. split; vm_compute; reflexivity. Qed.

Lemma ERGBFormat_eqb_eq (a b : ERGBFormat) :
  ERGBFormat_eqb a b = true <-> a = b.
Proof. destruct a, b; simpl; split; congruence. Qed.

(** C6. When the decoded raster differs from the tile source in width
    or height, or is not 8-bit RGBA, [UnpackElevation] returns false and
    leaves the tile as it was: an empty elevation array stays empty. When
    the raster is the response of the download, the tile ends failed and
    its elevation array is untouched. *)
Theorem UnpackElevation_mismatch {F} {A : Arith F} {E : Engine F}
  (TiledMap : FTiledMap) (RawData : list Z) (Png : PngImage)
  (t : FCachedElevationFile F) (w : World) (NumPending : Z) :
  SetCompressed RawData = Some Png ->
  (Width Png <> TileWidth TiledMap
   \/ Height Png <> TileHeight TiledMap
   \/ Format Png <> RGBA
   \/ BitDepth Png <> 8) ->
  UnpackElevation TiledMap RawData t = (false, t)
  /\ (Elevation t = [] ->
      Elevation (snd (UnpackElevation TiledMap RawData t)) = [])
  /\ (GetResponse w = Some RawData ->
      Failed (fst (OnDownloadSucceeded TiledMap w (t, NumPending))) = true
      /\ WasDownloadSuccessful (fst (OnDownloadSucceeded TiledMap w (t, NumPending)))
         = WasDownloadSuccessful t
      /\ Elevation (fst (OnDownloadSucceeded TiledMap w (t, NumPending)))
         = Elevation t).
Proof.
  intros Hpng Hbad.
  assert (Hfalse : UnpackElevation TiledMap RawData t = (false, t)).
  { unfold UnpackElevation. rewrite Hpng.
    destruct (Z.eqb_spec (Width Png) (TileWidth TiledMap)) as [Hw | Hw];
      [ | reflexivity ].
    destruct (Z.eqb_spec (Height Png) (TileHeight TiledMap)) as [Hh | Hh];
      [ | reflexivity ].
    simpl.
    destruct (ERGBFormat_eqb (Format Png) RGBA) eqn:Hf; [ | reflexivity ].
    apply ERGBFormat_eqb_eq in Hf.
    destruct (Z.eqb_spec (BitDepth Png) 8) as [Hb | Hb]; [ | reflexivity ].
    exfalso. destruct Hbad as [? | [? | [? | ?]]]; contradiction. }
  split; [ exact Hfalse | split ].
  - intros Hempty. rewrite Hfalse. exact Hempty.
  - intros Hresp. unfold OnDownloadSucceeded. rewrite Hresp, Hfalse.
    simpl. auto.
Qed.

Lemma UnpackElevation_mismatch_witness :
  SetCompressed (Engine := OneTileEngine (F := Binary32.float)) WideFile
  = Some {| BitDepth := 8; Format := RGBA; Width := 2; Height := 1;
            Raw := Some [128; 5; 0; 255; 128; 6; 0; 255] |}
  /\ UnpackElevation (E := OneTileEngine) SmallMap WideFile
       (NewCachedElevationFile (F := Binary32.float) 0 0 0 4)
     = (false, NewCachedElevationFile 0 0 0 4).
Proof.
  split; [ reflexivity | ].
  apply (UnpackElevation_mismatch (E := OneTileEngine) SmallMap WideFile
           {| BitDepth := 8; Format := RGBA; Width := 2; Height := 1;
              Raw := Some [128; 5; 0; 255; 128; 6; 0; 255] |}
           (NewCachedElevationFile 0 0 0 4) CachedWorld 0).
  - reflexivity.
  - left. simpl. lia.
Defined.

(** ** Quantisation *)

Lemma to_int32_small (z : Z) : - 2 ^ 31 <= z < 2 ^ 31 -> to_int32 z = z.
Proof.
  intros Hz. unfold to_int32.
  rewrite Z.mod_small by lia. lia.
Qed.





(** Single precision gives the same values at sample ranges, among them
    ranges whose scale is rounded. *)
Example QuantizeElevation_binary32 :
  QuantizeElevation (F := Binary32.float) (of_int (-100)) (of_int 7) (of_int (-100))
  = Written 0
  /\ QuantizeElevation (F := Binary32.float) (of_int (-100)) (of_int 7) (of_int 7)
     = Written 65535
  /\ QuantizeElevation (F := Binary32.float) (of_int 5) (of_int 8848) (of_int 8848)
     = Written 65535
  /\ QuantizeElevation (F := Binary32.float)
       (fdiv (of_int 1) (of_int 256)) (fdiv (of_int 3) (of_int 256))
       (fdiv (of_int 3) (of_int 256))
     = Written 65535.
Proof. repeat split; vm_compute; reflexivity. Qed.

(** In single precision a sample equal to the minimum is written as 0
    whenever the scale is a number: the difference is +0 and stays 0. *)
Lemma Binary32_QuantizeElevation_min (globalMin globalMax : Binary32.float) :
  (exists s m e, globalMin = S754_finite s m e) ->
  (exists s m e, ElevationScale globalMin globalMax = S754_finite s m e) ->
  QuantizeElevation globalMin globalMax globalMin = Written 0.
Proof.
  intros (s & m & e & ->) (s' & m' & e' & Hscale).
  unfold QuantizeElevation. rewrite Hscale.
  cbn [fsub fmul RoundToInt binary32].
  assert (Hzero : SFsub Binary32.prec Binary32.emax
                    (S754_finite s m e) (S754_finite s m e) = S754_zero false).
  { unfold SFsub. rewrite Z.sub_diag. reflexivity. }
  rewrite Hzero. reflexivity.
Qed.

(** C3. With globalMax = globalMin the scale is 65535 divided by zero:
    an infinity in single precision, no number in the exact arithmetic.
    The scaled value of a sample is then not a number that converts to an
    integer, and no fallback value is written. This is what the code
    does for a flat area: one tile whose pixels all hold elevation 0
    gives the range from 0 to 0, and a vertex inside the tile gets no
    value. *)
Theorem QuantizeElevation_degenerate_range :
  ElevationScale (F := Binary32.float) (of_int 5) (of_int 5) = S754_infinity false
  /\ fmul (fsub (of_int 5) (of_int 5))
          (ElevationScale (F := Binary32.float) (of_int 5) (of_int 5)) = S754_nan
  /\ QuantizeElevation (F := Binary32.float) (of_int 5) (of_int 5) (of_int 5)
     = NoInteger
  /\ (forall m v : Q,
        ElevationScale (Some m) (Some m) = None
        /\ QuantizeElevation (Some m) (Some m) (Some v) = NoInteger)
  /\ (exists s,
        LoadElevationData (F := Binary32.float) (E := OneTileEngine)
          FlatMap 0 0 (of_int 1) 3 [FlatRound] = Some (true, s)
        /\ ModelElevationMin s = of_int 0
        /\ ModelElevationMax s = of_int 0
        /\ ReprojectCell (E := OneTileEngine) (S := FirstSampleSampler)
             FlatMap (of_int 1) s 2 2 = NoInteger).
Proof.
  split; [ vm_compute; reflexivity | ].
  split; [ vm_compute; reflexivity | ].
  split; [ vm_compute; reflexivity | ].
  split.
  - intros m v.
    assert (Hscale : ElevationScale (Some m) (Some m) = None).
    { unfold ElevationScale. cbn [fsub fdiv of_int exact Exact.lift2 Exact.div].
      replace (Qeq_bool (m - m) 0) with true; [ reflexivity | ].
      symmetry. apply Qeq_bool_iff. ring. }
    split; [ exact Hscale | ].
    unfold QuantizeElevation. rewrite Hscale. reflexivity.
  - eexists. split; [ vm_compute; reflexivity | ].
    repeat split; vm_compute; reflexivity.
Qed.

(** ** Reprojection of one vertex *)

(** A vertex that does not project gets 32768, in any arithmetic. *)
Lemma ReprojectCell_out_of_domain {F} {A : Arith F} {E : Engine F} {S : Sampler F}
  (TiledMap : FTiledMap) (QuadSize : F) (s : LoadState F) (X Y : Z) :
  ToEPSG3857 (VertexLocation QuadSize X Y) = None ->
  ReprojectCell TiledMap QuadSize s X Y = Written 32768.
Proof. intros Hnone. unfold ReprojectCell. rewrite Hnone. reflexivity. Qed.

(** A vertex whose pixel fails the check before sampling gets 32768. *)
Lemma ReprojectCell_outside {F} {A : Arith F} {E : Engine F} {S : Sampler F}
  (TiledMap : FTiledMap) (QuadSize : F) (s : LoadState F) (X Y : Z)
  (Mercator : WebMercator) (TileXY : FIntPoint) (PixelXY : F * F)
  (Tile : FCachedElevationFile F) :
  ToEPSG3857 (VertexLocation QuadSize X Y) = Some Mercator ->
  GetTileXY Mercator (LevelIndex TiledMap) = (TileXY, PixelXY) ->
  GetTile s TileXY (LevelIndex TiledMap) = Some Tile ->
  InsideTile TiledMap PixelXY = false ->
  ReprojectCell TiledMap QuadSize s X Y = Written 32768.
Proof.
  intros Hsome Htile Hget Hout. unfold ReprojectCell.
  rewrite Hsome, Htile, Hget, Hout. reflexivity.
Qed.

(** The check fails on the two outermost pixel rows and columns. *)
Lemma Exact_InsideTile_near_edge (TiledMap : FTiledMap) (px py : Q) :
  3 <= TileWidth TiledMap < 2 ^ 31 ->
  3 <= TileHeight TiledMap < 2 ^ 31 ->
  (px < 2 \/ py < 2
   \/ inject_Z (TileWidth TiledMap) - 2 <= px
   \/ inject_Z (TileHeight TiledMap) - 2 <= py)%Q ->
  InsideTile TiledMap (Some px, Some py) = false.
Proof.
  intros Hw Hh Hnear. unfold InsideTile.
  rewrite !to_int32_small by lia.
  cbn [fst snd fleb fltb of_int exact Exact.leb Exact.ltb].
  assert (Hhigh : forall (n : Z) (p : Q),
            (inject_Z n - 2 <= p)%Q -> Qle_bool (inject_Z (n - 3)) p = true).
  { intros n p Hp. apply Qle_bool_iff.
    eapply Qle_trans; [ | exact Hp ].
    unfold Z.sub. rewrite inject_Z_plus.
    apply Qplus_le_r. discriminate. }
  assert (Hlow : forall p : Q, (p < 2)%Q -> Qle_bool (inject_Z 2) p = false).
  { intros p Hp. destruct (Qle_bool (inject_Z 2) p) eqn:Hle; [ | reflexivity ].
    apply Qle_bool_iff in Hle. exfalso.
    apply (Qlt_irrefl p). eapply Qlt_le_trans; [ exact Hp | exact Hle ]. }
  destruct Hnear as [Hx | [Hy | [Hx | Hy]]].
  - rewrite (Hlow _ Hx). reflexivity.
  - rewrite (Hlow _ Hy). rewrite andb_false_r. reflexivity.
  - rewrite (Hhigh _ _ Hx). cbn [negb]. rewrite andb_false_r. reflexivity.
  - rewrite (Hhigh _ _ Hy). cbn [negb]. rewrite andb_false_r. reflexivity.
Qed.

(** C7. A vertex gets the value 32768 when its location does not
    project, and when it projects to a pixel location within 2 pixels of
    an edge of its tile: below 2 or from the tile size minus 2 on, in x or
    in y. Pixel locations are those of the exact arithmetic, and a tile
    is at least 3 pixels wide and high. *)
Theorem ReprojectCell_sentinel {E : Engine Exact.number} {S : Sampler Exact.number}
  (TiledMap : FTiledMap) (QuadSize : Exact.number) (s : LoadState Exact.number)
  (X Y : Z) :
  3 <= TileWidth TiledMap < 2 ^ 31 ->
  3 <= TileHeight TiledMap < 2 ^ 31 ->
  (ToEPSG3857 (VertexLocation QuadSize X Y) = None ->
   ReprojectCell TiledMap QuadSize s X Y = Written 32768)
  /\ (forall (Mercator : WebMercator) (TileXY : FIntPoint) (px py : Q)
             (Tile : FCachedElevationFile Exact.number),
        ToEPSG3857 (VertexLocation QuadSize X Y) = Some Mercator ->
        GetTileXY Mercator (LevelIndex TiledMap) = (TileXY, (Some px, Some py)) ->
        GetTile s TileXY (LevelIndex TiledMap) = Some Tile ->
        (px < 2 \/ py < 2
         \/ inject_Z (TileWidth TiledMap) - 2 <= px
         \/ inject_Z (TileHeight TiledMap) - 2 <= py)%Q ->
        ReprojectCell TiledMap QuadSize s X Y = Written 32768).
Proof.
  intros Hw Hh. split.
  - apply ReprojectCell_out_of_domain.
  - intros Mercator TileXY px py Tile Hsome Htile Hget Hnear.
    eapply ReprojectCell_outside; eauto.
    apply Exact_InsideTile_near_edge; assumption.
Qed.

Lemma ReprojectCell_sentinel_witness :
  (inject_Z 1 * 1 < 2)%Q
  /\ ReprojectCell (E := OneTileEngine) (S := FirstSampleSampler)
       OneTileMap (Some 1%Q) OneTileState 1 1 = Written 32768
  /\ ReprojectCell (E := OneTileEngine) (S := FirstSampleSampler)
       OneTileMap (Some (inject_Z 1000000)) OneTileState 1 1 = Written 32768.
Proof.
  assert (H256 : 3 <= 256 < 2 ^ 31) by lia.
  split; [ reflexivity | split ].
  - apply (proj2 (ReprojectCell_sentinel (E := OneTileEngine)
                    (S := FirstSampleSampler)
                    OneTileMap (Some 1%Q) OneTileState 1 1 H256 H256)
             (Some (inject_Z 1 * 1)%Q, Some (inject_Z 1 * 1)%Q)
             {| IntX := 0; IntY := 0 |}
             (inject_Z 1 * 1)%Q (inject_Z 1 * 1)%Q
             (set_WasDownloadSuccessful (NewCachedElevationFile 0 0 0 0))).
    + reflexivity.
    + reflexivity.
    + reflexivity.
    + left. reflexivity.
  - apply (proj1 (ReprojectCell_sentinel (E := OneTileEngine)
                    (S := FirstSampleSampler)
                    OneTileMap (Some (inject_Z 1000000)) OneTileState 1 1
                    H256 H256)).
    reflexivity.
Defined.

(** In single precision the two outermost pixels of a tile of 256 pixels
    fail the check, and the third pixel from the low edge passes it. *)
Example Binary32_InsideTile :
  InsideTile (F := Binary32.float) OneTileMap
    (fdiv (of_int 3) (of_int 2), of_int 100) = false
  /\ InsideTile (F := Binary32.float) OneTileMap (of_int 100, of_int 254) = false
  /\ InsideTile (F := Binary32.float) OneTileMap (of_int 253, of_int 100) = false
  /\ InsideTile (F := Binary32.float) OneTileMap (of_int 2, of_int 2) = true.
Proof. repeat split; vm_compute; reflexivity. Qed.

(** ** The tile state machine *)

Lemma SameTile_refl {F} (t : FCachedElevationFile F) : SameTile t t.
Proof. repeat split. Qed.

Lemma SameTile_trans {F} (t1 t2 t3 : FCachedElevationFile F) :
  SameTile t1 t2 -> SameTile t2 t3 -> SameTile t1 t3.
Proof. unfold SameTile. intros (? & ? & ?) (? & ? & ?). repeat split; congruence. Qed.

Lemma UnpackElevation_SameTile {F} {A : Arith F} {E : Engine F}
  (TiledMap : FTiledMap) (RawData : list Z) (t : FCachedElevationFile F) :
  SameTile t (snd (UnpackElevation TiledMap RawData t)).
Proof.
  unfold UnpackElevation.
  destruct (SetCompressed RawData) as [Png | ]; [ | apply SameTile_refl ].
  destruct (negb (Width Png =? TileWidth TiledMap)
            || negb (Height Png =? TileHeight TiledMap));
    [ apply SameTile_refl | ].
  destruct (negb (ERGBFormat_eqb (Format Png) RGBA) || negb (BitDepth Png =? 8));
    [ apply SameTile_refl | ].
  destruct (Raw Png) as [RawPNG | ]; [ | apply SameTile_refl ].
  destruct (UnpackPixels _ RawPNG _ _) as [[Values Min] Max].
  repeat split.
Qed.

Lemma OnDownloadSucceeded_SameTile {F} {A : Arith F} {E : Engine F}
  (TiledMap : FTiledMap) (w : World) (t : FCachedElevationFile F) (n : Z) :
  SameTile t (fst (OnDownloadSucceeded TiledMap w (t, n))).
Proof.
  unfold OnDownloadSucceeded.
  destruct (GetResponse w) as [Content | ]; [ | repeat split ].
  pose proof (UnpackElevation_SameTile TiledMap Content t) as Hsame.
  destruct (UnpackElevation TiledMap Content t) as [ok t1].
  destruct ok; exact Hsame.
Qed.

Lemma DownloadFile_SameTile {F} (w : World) (t : FCachedElevationFile F) (n : Z) :
  SameTile t (fst (DownloadFile w (t, n))).
Proof. unfold DownloadFile. destruct (ProcessRequest w); repeat split. Qed.

Lemma Initialize_SameTile {F} {A : Arith F} {E : Engine F}
  (TiledMap : FTiledMap) (w : World) (t : FCachedElevationFile F) (n : Z) :
  SameTile t (fst (Initialize TiledMap w (t, n))).
Proof.
  unfold Initialize.
  set (t0 := set_StartTime (set_WasInitialized t) (UtcNow w)).
  assert (H0 : SameTile t t0) by repeat split.
  destruct (LoadFileToArray w) as [RawData | ].
  - pose proof (UnpackElevation_SameTile TiledMap RawData t0) as Hsame.
    destruct (UnpackElevation TiledMap RawData t0) as [ok t1].
    destruct ok.
    + eapply SameTile_trans; [ exact H0 | exact Hsame ].
    + eapply SameTile_trans; [ exact H0 | ].
      eapply SameTile_trans; [ exact Hsame | apply DownloadFile_SameTile ].
  - eapply SameTile_trans; [ exact H0 | apply DownloadFile_SameTile ].
Qed.

Lemma TickInitialized_SameTile {F} {A : Arith F} {E : Engine F}
  (TiledMap : FTiledMap) (w : World) (t : FCachedElevationFile F) (n : Z) :
  SameTile t (fst (TickInitialized TiledMap w (t, n))).
Proof.
  unfold TickInitialized.
  destruct (WasDownloadSuccessful t || Failed t); [ repeat split | ].
  destruct (10 <? GetSeconds (TimeSpan t)); [ repeat split | ].
  destruct (GetStatus w); try (solve [ repeat split ]).
  eapply SameTile_trans;
    [ | exact (OnDownloadSucceeded_SameTile TiledMap w
                 (set_TimeSpan t (UtcNow w - StartTime t)) n) ].
  repeat split.
Qed.

Lemma Tick_SameTile {F} {A : Arith F} {E : Engine F}
  (TiledMap : FTiledMap) (w : World) (t : FCachedElevationFile F) (n : Z) :
  SameTile t (fst (Tick TiledMap w (t, n))).
Proof.
  unfold Tick.
  destruct (negb (WasInitialized t)); [ | apply TickInitialized_SameTile ].
  destruct (MaxNumPendingDownloads <=? n); [ repeat split | ].
  pose proof (Initialize_SameTile TiledMap w t n) as Hinit.
  destruct (Initialize TiledMap w (t, n)) as [t1 n1].
  eapply SameTile_trans; [ exact Hinit | apply TickInitialized_SameTile ].
Qed.

Lemma CancelRequest_Failed {F} (t : FCachedElevationFile F) (n : Z) :
  Failed (fst (CancelRequest (t, n))) = true
  /\ SameTile t (fst (CancelRequest (t, n))).
Proof. unfold CancelRequest. destruct (HttpRequest (set_Failed t)); repeat split. Qed.

(** ** The download loop *)

Lemma CancelFiles_spec {F} (ToCancel : list nat) :
  forall s : LoadState F,
    (forall i, i ∈ ToCancel -> (i < length (Files s))%nat) ->
    length (Files (CancelFiles ToCancel s)) = length (Files s)
    /\ FilesToDownload (CancelFiles ToCancel s) = FilesToDownload s
    /\ FilesDownloaded (CancelFiles ToCancel s) = FilesDownloaded s
    /\ Calls (CancelFiles ToCancel s) = Calls s ++ map CallCancelRequest ToCancel
    /\ (forall i t,
          Files s !! i = Some t ->
          exists t',
            Files (CancelFiles ToCancel s) !! i = Some t'
            /\ SameTile t t'
            /\ (Failed t = true \/ i ∈ ToCancel -> Failed t' = true)).
Proof.
  induction ToCancel as [ | id rest IH ]; intros s Hbound.
  - cbn [CancelFiles map]. rewrite app_nil_r. repeat split.
    intros i t Hi. exists t. repeat split; try exact Hi.
    intros [Hf | Hin]; [ exact Hf | inversion Hin ].
  - cbn [CancelFiles].
    destruct (lookup_lt_is_Some_2 (Files s) id) as [t0 Ht0];
      [ apply Hbound; left | ].
    rewrite Ht0.
    destruct (CancelRequest_Failed t0 (NumPendingDownloads s)) as [Hfailed Hsame].
    destruct (CancelRequest (t0, NumPendingDownloads s)) as [t0' n'].
    cbn [fst] in Hfailed, Hsame.
    match goal with
    | |- context [CancelFiles rest ?x] => set (s1 := x)
    end.
    destruct (IH s1) as (Hlen & Htodo & Hdone & Hcalls & Hfiles).
    { intros i Hi. cbn [s1 Files]. rewrite length_insert. apply Hbound. right. exact Hi. }
    cbn [s1 Files FilesToDownload FilesDownloaded Calls] in Hlen, Htodo, Hdone, Hcalls.
    rewrite length_insert in Hlen.
    split; [ exact Hlen | ].
    split; [ exact Htodo | ].
    split; [ exact Hdone | ].
    split; [ rewrite Hcalls, <- app_assoc; reflexivity | ].
    intros i t Hi.
    destruct (decide (i = id)) as [-> | Hne].
    + assert (t = t0) as -> by congruence.
      destruct (Hfiles id t0') as (t' & Hlook & Hsame' & Hfail').
      { cbn [s1 Files]. apply list_lookup_insert_eq. eapply lookup_lt_Some; eauto. }
      exists t'. split; [ exact Hlook | ].
      split; [ eapply SameTile_trans; eauto | ].
      intros _. apply Hfail'. left. exact Hfailed.
    + destruct (Hfiles i t) as (t' & Hlook & Hsame' & Hfail').
      { cbn [s1 Files]. rewrite list_lookup_insert_ne by congruence. exact Hi. }
      exists t'. split; [ exact Hlook | ]. split; [ exact Hsame' | ].
      intros [Hf | Hin]; apply Hfail'; [ left; exact Hf | right ].
      apply elem_of_cons in Hin as [? | ?]; [ contradiction | assumption ].
Qed.

Lemma Remove_elem_of (id j : nat) (l : list nat) :
  j ∈ Remove id l <-> j <> id /\ j ∈ l.
Proof. unfold Remove. exact (list_elem_of_filter (fun j => j <> id) l j). Qed.

(** What the range-based [for] does, from any point of its iteration. *)
Lemma TickFiles_spec {F} {A : Arith F} {E : Engine F} (TiledMap : FTiledMap)
  (r : Round) (todo : list nat) :
  forall (s s' : LoadState F) fin,
    (forall i, i ∈ todo -> (i < length (Files s))%nat) ->
    (forall i, i ∈ FilesToDownload s -> (i < length (Files s))%nat) ->
    TickFiles TiledMap r todo s = (s', fin) ->
    length (Files s') = length (Files s)
    /\ (forall i t, Files s !! i = Some t ->
                    exists t', Files s' !! i = Some t' /\ SameTile t t')
    /\ match fin with
       | None =>
           Calls s' = Calls s ++ map CallTick todo
           /\ FilesToDownload s' = FilesToDownload s
           /\ FilesDownloaded s' = FilesDownloaded s
       | Some (id, t') =>
           exists before skipped,
             todo = before ++ id :: skipped
             /\ HasFinished t' = true
             /\ if Succeeded t'
                then Calls s' = Calls s ++ map CallTick (before ++ [id])
                     /\ FilesToDownload s' = Remove id (FilesToDownload s)
                     /\ FilesDownloaded s' = FilesDownloaded s ++ [id]
                else Calls s' = Calls s ++ map CallTick (before ++ [id])
                                ++ map CallCancelRequest (Remove id (FilesToDownload s))
                     /\ FilesToDownload s' = []
                     /\ FilesDownloaded s' = FilesDownloaded s
                     /\ (forall j, j ∈ Remove id (FilesToDownload s) ->
                                   exists tj, Files s' !! j = Some tj
                                              /\ Failed tj = true)
       end.
Proof.
  induction todo as [ | id rest IH ]; intros s s' fin Htodo Hpending Hrun.
  - cbn [TickFiles] in Hrun. inversion Hrun; subst.
    split; [ reflexivity | ].
    split; [ intros i t Hi; exists t; split; [ exact Hi | apply SameTile_refl ] | ].
    cbn [map]. rewrite app_nil_r. repeat split.
  - cbn [TickFiles] in Hrun.
    destruct (lookup_lt_is_Some_2 (Files s) id) as [t Ht];
      [ apply Htodo; left | ].
    rewrite Ht in Hrun.
    pose proof (Tick_SameTile TiledMap (Worlds r id) t (NumPendingDownloads s)) as Hsame.
    destruct (Tick TiledMap (Worlds r id) (t, NumPendingDownloads s)) as [t' n'].
    cbn [fst] in Hsame.
    match type of Hrun with
    | context [FileFinished id t' ?x] => set (s1 := x) in Hrun
    end.
    assert (Hlen1 : length (Files s1) = length (Files s))
      by (cbn [s1 Files]; apply length_insert).
    assert (Hfiles1 : forall i u, Files s !! i = Some u ->
                                  exists u', Files s1 !! i = Some u' /\ SameTile u u').
    { intros i u Hi. cbn [s1 Files].
      destruct (decide (i = id)) as [-> | Hne].
      - exists t'. split.
        + apply list_lookup_insert_eq. eapply lookup_lt_Some; eauto.
        + assert (u = t) as -> by congruence. exact Hsame.
      - exists u. rewrite list_lookup_insert_ne by congruence.
        split; [ exact Hi | apply SameTile_refl ]. }
    destruct (HasFinished t') eqn:Hfin.
    + inversion Hrun; subst s' fin. clear Hrun.
      unfold FileFinished.
      destruct (Succeeded t') eqn:Hsucc.
      * cbn [Files FilesToDownload FilesDownloaded Calls].
        split; [ exact Hlen1 | ]. split; [ exact Hfiles1 | ].
        exists [], rest. repeat split. exact Hfin.
      * destruct (CancelFiles_spec (Remove id (FilesToDownload s1)) s1)
          as (Hlen & _ & Hdone & Hcalls & Hfiles).
        { intros i Hi. apply Remove_elem_of in Hi as [_ Hi].
          rewrite Hlen1. apply Hpending. exact Hi. }
        cbn [Files FilesToDownload FilesDownloaded Calls].
        split; [ congruence | ].
        split.
        { intros i u Hi. destruct (Hfiles1 i u Hi) as (u1 & Hu1 & Hsame1).
          destruct (Hfiles i u1 Hu1) as (u2 & Hu2 & Hsame2 & _).
          exists u2. split; [ exact Hu2 | eapply SameTile_trans; eauto ]. }
        exists [], rest.
        split; [ reflexivity | ]. split; [ exact Hfin | ].
        split; [ rewrite Hcalls; cbn [s1 Calls FilesToDownload];
                 rewrite <- app_assoc; reflexivity | ].
        split; [ reflexivity | ]. split; [ exact Hdone | ].
        intros j Hj.
        assert (Hjlt : (j < length (Files s1))%nat).
        { rewrite Hlen1. apply Hpending.
          apply Remove_elem_of in Hj as [_ Hj]. exact Hj. }
        destruct (lookup_lt_is_Some_2 _ _ Hjlt) as [u1 Hu1].
        destruct (Hfiles j u1 Hu1) as (u2 & Hu2 & _ & Hfail).
        exists u2. split; [ exact Hu2 | ]. apply Hfail. right. exact Hj.
    + destruct (IH s1 s' fin) as (Hlen & Hfiles & Hfinal).
      { intros i Hi. rewrite Hlen1. apply Htodo. right. exact Hi. }
      { intros i Hi. rewrite Hlen1. apply Hpending. exact Hi. }
      { exact Hrun. }
      split; [ congruence | ].
      split.
      { intros i u Hi. destruct (Hfiles1 i u Hi) as (u1 & Hu1 & Hsame1).
        destruct (Hfiles i u1 Hu1) as (u2 & Hu2 & Hsame2).
        exists u2. split; [ exact Hu2 | eapply SameTile_trans; eauto ]. }
      destruct fin as [[id' t''] | ].
      * destruct Hfinal as (before & skipped & Heq & Hfin' & Hrest).
        exists (id :: before), skipped.
        split; [ rewrite Heq; reflexivity | ].
        split; [ exact Hfin' | ].
        cbn [s1 Calls FilesToDownload FilesDownloaded] in Hrest.
        destruct (Succeeded t'').
        -- destruct Hrest as (Hc & Hp & Hd).
           split; [ rewrite Hc, <- app_assoc; reflexivity | ]. split; assumption.
        -- destruct Hrest as (Hc & Hp & Hd & Hf).
           split; [ rewrite Hc, <- app_assoc; reflexivity | ].
           repeat split; assumption.
      * cbn [s1 Calls FilesToDownload FilesDownloaded] in Hfinal.
        destruct Hfinal as (Hc & Hp & Hd).
        split; [ rewrite Hc, <- app_assoc; reflexivity | ]. split; assumption.
Qed.

Lemma WellFormed_StartDownload {F} {A : Arith F}
  (tiles : list (FCachedElevationFile F)) (Pending : Z) :
  WellFormed tiles (StartDownload tiles Pending).
Proof.
  split; cbn [StartDownload Files FilesToDownload FilesDownloaded app].
  - reflexivity.
  - intros i t0 t H0 H1. assert (t0 = t) as -> by congruence. apply SameTile_refl.
  - apply NoDup_seq.
  - intros i Hi. apply elem_of_seq in Hi. lia.
Qed.

Lemma WellFormed_pending {F} (tiles : list (FCachedElevationFile F))
  (s : LoadState F) (i : nat) :
  WellFormed tiles s -> i ∈ FilesToDownload s -> (i < length (Files s))%nat.
Proof.
  intros Hwf Hi. rewrite (wf_length _ _ Hwf).
  apply (wf_bound _ _ Hwf). apply elem_of_app. right. exact Hi.
Qed.

(** At most as many tiles are listed as there are: a new success leaves
    fewer to download. *)
Lemma WellFormed_count {F} (tiles : list (FCachedElevationFile F))
  (s : LoadState F) :
  WellFormed tiles s ->
  (length (FilesDownloaded s) + length (FilesToDownload s) <= length tiles)%nat.
Proof.
  intros Hwf. rewrite <- length_app.
  assert (Hle : (length (FilesDownloaded s ++ FilesToDownload s)
                 <= length (seq 0 (length tiles)))%nat).
  { apply submseteq_length, NoDup_submseteq; [ exact (wf_NoDup _ _ Hwf) | ].
    intros i Hi. apply elem_of_seq. pose proof (wf_bound _ _ Hwf i Hi). lia. }
  rewrite length_seq in Hle. exact Hle.
Qed.

Lemma TickFiles_WellFormed {F} {A : Arith F} {E : Engine F} (TiledMap : FTiledMap)
  (tiles : list (FCachedElevationFile F)) (r : Round) (s s' : LoadState F) fin :
  WellFormed tiles s ->
  TickFiles TiledMap r (FilesToDownload s) s = (s', fin) ->
  WellFormed tiles s'.
Proof.
  intros Hwf Hrun.
  destruct (TickFiles_spec TiledMap r (FilesToDownload s) s s' fin)
    as (Hlen & Hfiles & Hfin); try exact Hrun;
    try (intros i Hi; eapply WellFormed_pending; eauto).
  pose proof (wf_NoDup _ _ Hwf) as Hnd.
  apply NoDup_app in Hnd as (HndD & Hdisj & HndP).
  assert (Hlists :
    NoDup (FilesDownloaded s' ++ FilesToDownload s')
    /\ forall i, i ∈ FilesDownloaded s' ++ FilesToDownload s' ->
                 i ∈ FilesDownloaded s ++ FilesToDownload s).
  { destruct fin as [[id t'] | ].
    - destruct Hfin as (before & skipped & Heq & _ & Hrest).
      assert (Hid : id ∈ FilesToDownload s)
        by (rewrite Heq; apply elem_of_app; right; left).
      destruct (Succeeded t').
      + destruct Hrest as (_ & -> & ->). split.
        * apply NoDup_app. split; [ | split ].
          -- apply NoDup_app. split; [ exact HndD | split ].
             ++ intros x Hx Hx'. apply list_elem_of_singleton in Hx'. subst x.
                exact (Hdisj id Hx Hid).
             ++ apply NoDup_singleton.
          -- intros x Hx Hx'. apply Remove_elem_of in Hx' as [Hne Hx'].
             apply elem_of_app in Hx as [Hx | Hx].
             ++ exact (Hdisj x Hx Hx').
             ++ apply list_elem_of_singleton in Hx. contradiction.
          -- apply NoDup_filter. exact HndP.
        * intros i Hi. apply elem_of_app.
          apply elem_of_app in Hi as [Hi | Hi].
          -- apply elem_of_app in Hi as [Hi | Hi]; [ left; exact Hi | right ].
             apply list_elem_of_singleton in Hi. subst i. exact Hid.
          -- right. apply Remove_elem_of in Hi as [_ Hi]. exact Hi.
      + destruct Hrest as (_ & -> & -> & _). rewrite app_nil_r. split.
        * exact HndD.
        * intros i Hi. apply elem_of_app. left. exact Hi.
    - destruct Hfin as (_ & -> & ->). split.
      + exact (wf_NoDup _ _ Hwf).
      + auto. }
  destruct Hlists as [Hnd' Hsub].
  split.
  - rewrite Hlen. exact (wf_length _ _ Hwf).
  - intros i t0 t H0 H1.
    destruct (lookup_lt_is_Some_2 (Files s) i) as [u Hu].
    { rewrite (wf_length _ _ Hwf). eapply lookup_lt_Some; eauto. }
    destruct (Hfiles i u Hu) as (t' & Ht' & Hsame).
    assert (t' = t) as -> by congruence.
    eapply SameTile_trans; [ exact (wf_tiles _ _ Hwf i t0 u H0 Hu) | exact Hsame ].
  - exact Hnd'.
  - intros i Hi. apply (wf_bound _ _ Hwf). apply Hsub. exact Hi.
Qed.

Lemma DownloadRound_WellFormed {F} {A : Arith F} {E : Engine F}
  (TiledMap : FTiledMap) (tiles : list (FCachedElevationFile F)) (r : Round)
  (s : LoadState F) :
  WellFormed tiles s -> WellFormed tiles (DownloadRound TiledMap r s).
Proof.
  intros Hwf. unfold DownloadRound.
  destruct (TickFiles TiledMap r (FilesToDownload s) s) as [s' fin] eqn:Hrun.
  eapply TickFiles_WellFormed; eauto.
Qed.

Lemma RunRounds_WellFormed {F} {A : Arith F} {E : Engine F}
  (TiledMap : FTiledMap) (tiles : list (FCachedElevationFile F))
  (rounds : list Round) :
  forall s s' : LoadState F,
    WellFormed tiles s ->
    RunRounds TiledMap rounds s = Some s' ->
    WellFormed tiles s'.
Proof.
  induction rounds as [ | r rounds IH ]; intros s s' Hwf Hrun; cbn [RunRounds] in Hrun.
  - congruence.
  - destruct (FilesToDownload s); [ discriminate | ].
    destruct (ReceivedUserCancel r); [ discriminate | ].
    eapply IH; [ | exact Hrun ]. apply DownloadRound_WellFormed. exact Hwf.
Qed.

Lemma DownloadLoop_WellFormed {F} {A : Arith F} {E : Engine F}
  (TiledMap : FTiledMap) (tiles : list (FCachedElevationFile F))
  (rounds : list Round) :
  forall s s' : LoadState F,
    WellFormed tiles s ->
    DownloadLoop TiledMap rounds s = Some s' ->
    WellFormed tiles s'.
Proof.
  induction rounds as [ | r rounds IH ]; intros s s' Hwf Hrun; cbn [DownloadLoop] in Hrun.
  - destruct (FilesToDownload s); congruence.
  - destruct (FilesToDownload s) eqn:Hp; [ congruence | ].
    destruct (ReceivedUserCancel r); [ congruence | ].
    eapply IH; [ | exact Hrun ]. apply DownloadRound_WellFormed. exact Hwf.
Qed.

(** The loop goes on from where the passes before have brought it. *)
Lemma DownloadLoop_RunRounds {F} {A : Arith F} {E : Engine F}
  (TiledMap : FTiledMap) (before rest : list Round) :
  forall s0 s : LoadState F,
    RunRounds TiledMap before s0 = Some s ->
    DownloadLoop TiledMap (before ++ rest) s0 = DownloadLoop TiledMap rest s.
Proof.
  induction before as [ | r before IH ]; intros s0 s Hrun; cbn [RunRounds] in Hrun.
  - inversion Hrun. reflexivity.
  - cbn [app DownloadLoop].
    destruct (FilesToDownload s0); [ discriminate | ].
    destruct (ReceivedUserCancel r); [ discriminate | ].
    apply IH. exact Hrun.
Qed.

(** The loop ends as soon as nothing is left to download. *)
Lemma DownloadLoop_done {F} {A : Arith F} {E : Engine F}
  (TiledMap : FTiledMap) (rounds : list Round) (s : LoadState F) :
  FilesToDownload s = [] -> DownloadLoop TiledMap rounds s = Some s.
Proof. intros Hp. destruct rounds; cbn [DownloadLoop]; rewrite Hp; reflexivity. Qed.

(** *** A tile never both succeeds and fails *)

Lemma UnpackElevation_flags {F} {A : Arith F} {E : Engine F}
  (TiledMap : FTiledMap) (RawData : list Z) (t : FCachedElevationFile F) :
  WasDownloadSuccessful (snd (UnpackElevation TiledMap RawData t))
  = WasDownloadSuccessful t
  /\ Failed (snd (UnpackElevation TiledMap RawData t)) = Failed t.
Proof.
  unfold UnpackElevation.
  destruct (SetCompressed RawData) as [Png | ]; [ | split; reflexivity ].
  destruct (negb (Width Png =? TileWidth TiledMap)
            || negb (Height Png =? TileHeight TiledMap));
    [ split; reflexivity | ].
  destruct (negb (ERGBFormat_eqb (Format Png) RGBA) || negb (BitDepth Png =? 8));
    [ split; reflexivity | ].
  destruct (Raw Png) as [RawPNG | ]; [ | split; reflexivity ].
  destruct (UnpackPixels _ RawPNG _ _) as [[Values Min] Max].
  split; reflexivity.
Qed.

Lemma OnDownloadSucceeded_Exclusive {F} {A : Arith F} {E : Engine F}
  (TiledMap : FTiledMap) (w : World) (t : FCachedElevationFile F) (n : Z) :
  HasFinished t = false ->
  Exclusive (fst (OnDownloadSucceeded TiledMap w (t, n))).
Proof.
  unfold HasFinished. intros Hun. apply orb_false_iff in Hun as [Hs Hf].
  unfold OnDownloadSucceeded.
  destruct (GetResponse w) as [Content | ].
  - destruct (UnpackElevation_flags TiledMap Content t) as [Hs' Hf'].
    destruct (UnpackElevation TiledMap Content t) as [ok t1].
    cbn [snd] in Hs', Hf'.
    destruct ok; cbn [negb fst]; unfold Exclusive; cbn; congruence.
  - unfold Exclusive. cbn. congruence.
Qed.

Lemma DownloadFile_Exclusive {F} (w : World) (t : FCachedElevationFile F) (n : Z) :
  HasFinished t = false ->
  Exclusive (fst (DownloadFile w (t, n))).
Proof.
  unfold HasFinished. intros Hun. apply orb_false_iff in Hun as [Hs Hf].
  unfold DownloadFile.
  destruct (ProcessRequest w); unfold Exclusive; cbn; congruence.
Qed.

Lemma Initialize_Exclusive {F} {A : Arith F} {E : Engine F}
  (TiledMap : FTiledMap) (w : World) (t : FCachedElevationFile F) (n : Z) :
  HasFinished t = false ->
  Exclusive (fst (Initialize TiledMap w (t, n))).
Proof.
  intros Hun. unfold Initialize.
  set (t0 := set_StartTime (set_WasInitialized t) (UtcNow w)).
  assert (H0 : HasFinished t0 = false) by exact Hun.
  destruct (LoadFileToArray w) as [RawData | ];
    [ | apply DownloadFile_Exclusive; exact H0 ].
  destruct (UnpackElevation_flags TiledMap RawData t0) as [Hs' Hf'].
  destruct (UnpackElevation TiledMap RawData t0) as [ok t1].
  cbn [snd] in Hs', Hf'.
  assert (H1 : HasFinished t1 = false)
    by (unfold HasFinished in *; rewrite Hs', Hf'; exact H0).
  destruct ok; [ | apply DownloadFile_Exclusive; exact H1 ].
  unfold HasFinished in H1. apply orb_false_iff in H1 as [_ Hf].
  unfold Exclusive. cbn. congruence.
Qed.

Lemma TickInitialized_Exclusive {F} {A : Arith F} {E : Engine F}
  (TiledMap : FTiledMap) (w : World) (t : FCachedElevationFile F) (n : Z) :
  Exclusive t ->
  Exclusive (fst (TickInitialized TiledMap w (t, n))).
Proof.
  intros Hex. unfold TickInitialized.
  destruct (WasDownloadSuccessful t || Failed t) eqn:Hfin; [ exact Hex | ].
  pose proof Hfin as Hun. apply orb_false_iff in Hfin as [Hs Hf].
  destruct (10 <? GetSeconds (TimeSpan t));
    [ unfold Exclusive; cbn; congruence | ].
  destruct (GetStatus w); try (unfold Exclusive; cbn; congruence).
  apply OnDownloadSucceeded_Exclusive. exact Hun.
Qed.

Lemma Tick_Exclusive {F} {A : Arith F} {E : Engine F}
  (TiledMap : FTiledMap) (w : World) (t : FCachedElevationFile F) (n : Z) :
  HasFinished t = false ->
  Exclusive (fst (Tick TiledMap w (t, n))).
Proof.
  intros Hun.
  assert (Hex : Exclusive t).
  { unfold HasFinished in Hun. apply orb_false_iff in Hun as [Hs Hf].
    unfold Exclusive. congruence. }
  unfold Tick.
  destruct (negb (WasInitialized t)); [ | apply TickInitialized_Exclusive; exact Hex ].
  destruct (MaxNumPendingDownloads <=? n); [ exact Hex | ].
  pose proof (Initialize_Exclusive TiledMap w t n Hun) as Hinit.
  destruct (Initialize TiledMap w (t, n)) as [t1 n1].
  apply TickInitialized_Exclusive. exact Hinit.
Qed.

(** The pass keeps the pending tiles unfinished, and the tile at which it
    ends has either succeeded or failed, not both. *)
Lemma TickFiles_PendingUnfinished {F} {A : Arith F} {E : Engine F}
  (TiledMap : FTiledMap) (r : Round) (todo : list nat) :
  forall (s s' : LoadState F) fin,
    (forall i, i ∈ todo -> i ∈ FilesToDownload s) ->
    PendingUnfinished s ->
    TickFiles TiledMap r todo s = (s', fin) ->
    PendingUnfinished s'
    /\ (forall id t', fin = Some (id, t') -> Exclusive t').
Proof.
  induction todo as [ | id rest IH ]; intros s s' fin Hsub Hun Hrun.
  - cbn [TickFiles] in Hrun. inversion Hrun; subst.
    split; [ exact Hun | discriminate ].
  - cbn [TickFiles] in Hrun.
    destruct (Files s !! id) as [t | ] eqn:Ht.
    + assert (Htun : HasFinished t = false).
      { apply (Hun id t); [ apply Hsub; left | exact Ht ]. }
      pose proof (Tick_Exclusive TiledMap (Worlds r id) t (NumPendingDownloads s) Htun)
        as Hex.
      destruct (Tick TiledMap (Worlds r id) (t, NumPendingDownloads s)) as [t' n'].
      cbn [fst] in Hex.
      match type of Hrun with
      | context [FileFinished id t' ?x] => set (s1 := x) in Hrun
      end.
      destruct (HasFinished t') eqn:Hfin.
      * inversion Hrun; subst s' fin. split.
        -- unfold FileFinished. destruct (Succeeded t').
           ++ intros i u Hi Hu. cbn [s1 Files FilesToDownload] in Hi, Hu.
              apply Remove_elem_of in Hi as [Hne Hi].
              rewrite list_lookup_insert_ne in Hu by congruence.
              exact (Hun i u Hi Hu).
           ++ intros i u Hi. cbn [FilesToDownload] in Hi. inversion Hi.
        -- intros id0 t0 Heq. inversion Heq; subst. exact Hex.
      * apply (IH s1 s' fin); [ | | exact Hrun ].
        -- intros i Hi. cbn [s1 FilesToDownload]. apply Hsub. right. exact Hi.
        -- intros i u Hi Hu. cbn [s1 Files FilesToDownload] in Hi, Hu.
           destruct (decide (i = id)) as [-> | Hne].
           ++ rewrite list_lookup_insert_eq in Hu
                by (eapply lookup_lt_Some; eauto).
              inversion Hu; subst. exact Hfin.
           ++ rewrite list_lookup_insert_ne in Hu by congruence.
              exact (Hun i u Hi Hu).
    + apply (IH s s' fin); [ | exact Hun | exact Hrun ].
      intros i Hi. apply Hsub. right. exact Hi.
Qed.

Lemma PendingUnfinished_CollectTiles {F} {A : Arith F} {E : Engine F}
  (TiledMap : FTiledMap) (Now Pending : Z) (QuadSize : F)
  (NumVerticesForRadius : Z) (tiles : list (FCachedElevationFile F)) :
  CollectTiles TiledMap Now QuadSize NumVerticesForRadius = Some tiles ->
  PendingUnfinished (StartDownload tiles Pending).
Proof.
  intros Htiles i t _ Ht. cbn [StartDownload Files] in Ht.
  unfold CollectTiles in Htiles.
  destruct (ToEPSG3857 (SouthWest QuadSize NumVerticesForRadius));
    [ | discriminate ].
  destruct (ToEPSG3857 (NorthEast QuadSize NumVerticesForRadius));
    [ | discriminate ].
  inversion Htiles as [Heq]. rewrite <- Heq in Ht.
  apply list_elem_of_lookup_2, list_elem_of_In, in_map_iff in Ht
    as (XY & <- & _).
  reflexivity.
Qed.

Lemma RunRounds_PendingUnfinished {F} {A : Arith F} {E : Engine F}
  (TiledMap : FTiledMap) (rounds : list Round) :
  forall s s' : LoadState F,
    PendingUnfinished s ->
    RunRounds TiledMap rounds s = Some s' ->
    PendingUnfinished s'.
Proof.
  induction rounds as [ | r rounds IH ]; intros s s' Hun Hrun; cbn [RunRounds] in Hrun.
  - inversion Hrun; subst. exact Hun.
  - destruct (FilesToDownload s) eqn:Hp; [ discriminate | ].
    destruct (ReceivedUserCancel r); [ discriminate | ].
    eapply IH; [ | exact Hrun ].
    unfold DownloadRound.
    destruct (TickFiles TiledMap r (FilesToDownload s) s) as [s1 fin] eqn:Htick.
    cbn [fst].
    destruct (TickFiles_PendingUnfinished TiledMap r (FilesToDownload s) s s1 fin)
      as [Hun' _]; auto.
Qed.

(** C9. One pass of the loop ticks the pending tiles in insertion order,
    one call each, up to and including a tile that has finished after its
    tick. There the pass ends: the tiles behind it are not ticked, the
    finished tile leaves the pending set at once, and after a failure the
    others are cancelled and the set is emptied. When no tile finishes,
    every pending tile is ticked exactly once, in insertion order, and
    the pending set stays as it is. *)
Theorem DownloadRound_ticks {F} {A : Arith F} {E : Engine F}
  (TiledMap : FTiledMap) (r : Round) (s : LoadState F) :
  (forall i, i ∈ FilesToDownload s -> (i < length (Files s))%nat) ->
  (snd (TickFiles TiledMap r (FilesToDownload s) s) = None ->
   Calls (DownloadRound TiledMap r s) = Calls s ++ map CallTick (FilesToDownload s)
   /\ FilesToDownload (DownloadRound TiledMap r s) = FilesToDownload s)
  /\ (forall id t',
        snd (TickFiles TiledMap r (FilesToDownload s) s) = Some (id, t') ->
        exists before skipped,
          FilesToDownload s = before ++ id :: skipped
          /\ HasFinished t' = true
          /\ Calls (DownloadRound TiledMap r s)
             = Calls s ++ map CallTick (before ++ [id])
               ++ map CallCancelRequest
                    (if Succeeded t' then [] else Remove id (FilesToDownload s))
          /\ FilesToDownload (DownloadRound TiledMap r s)
             = if Succeeded t' then Remove id (FilesToDownload s) else []).
Proof.
  intros Hvalid. unfold DownloadRound.
  destruct (TickFiles TiledMap r (FilesToDownload s) s) as [s' fin] eqn:Hrun.
  destruct (TickFiles_spec TiledMap r (FilesToDownload s) s s' fin Hvalid Hvalid Hrun)
    as (_ & _ & Hfin).
  cbn [fst snd]. split.
  - intros ->. destruct Hfin as (Hc & Hp & _). split; assumption.
  - intros id t' ->. destruct Hfin as (before & skipped & Heq & Hdone & Hrest).
    exists before, skipped. split; [ exact Heq | ]. split; [ exact Hdone | ].
    destruct (Succeeded t').
    + destruct Hrest as (Hc & Hp & _). cbn [map]. rewrite app_nil_r.
      split; assumption.
    + destruct Hrest as (Hc & Hp & _). split; assumption.
Qed.

Lemma DownloadRound_ticks_witness :
  exists t',
    snd (TickFiles (E := FoldedEngine) SmallMap CachedRound
           (FilesToDownload (StartDownload NineTiles 0))
           (StartDownload NineTiles 0)) = Some (0%nat, t')
    /\ exists before skipped,
         FilesToDownload (StartDownload NineTiles 0) = before ++ 0%nat :: skipped
         /\ HasFinished t' = true
         /\ Calls (DownloadRound (E := FoldedEngine) SmallMap CachedRound
                     (StartDownload NineTiles 0))
            = Calls (StartDownload NineTiles 0) ++ map CallTick (before ++ [0%nat])
              ++ map CallCancelRequest
                   (if Succeeded t' then []
                    else Remove 0 (FilesToDownload (StartDownload NineTiles 0)))
         /\ FilesToDownload (DownloadRound (E := FoldedEngine) SmallMap CachedRound
                               (StartDownload NineTiles 0))
            = if Succeeded t'
              then Remove 0 (FilesToDownload (StartDownload NineTiles 0))
              else [].
Proof.
  eexists. split; [ vm_compute; reflexivity | ].
  apply (proj2 (DownloadRound_ticks (E := FoldedEngine) SmallMap CachedRound
                  (StartDownload NineTiles 0)
                  ltac:(intros i Hi; apply elem_of_seq in Hi; exact (proj2 Hi)))).
  vm_compute. reflexivity.
Defined.

(** C9, as the claim has it: nine tiles are pending, the first is in the
    cache, and the pass ticks that tile alone; the other eight stay
    pending without a tick. *)
Lemma DownloadRound_skips_pending_tiles :
  CollectTiles (E := FoldedEngine) SmallMap 0 (of_int 4) 2 = Some NineTiles
  /\ FilesToDownload (StartDownload NineTiles 0)
     = [0; 1; 2; 3; 4; 5; 6; 7; 8]%nat
  /\ TickedFiles (Calls (DownloadRound (E := FoldedEngine) SmallMap CachedRound
                           (StartDownload NineTiles 0)))
     = [0%nat]
  /\ FilesToDownload (DownloadRound (E := FoldedEngine) SmallMap CachedRound
                        (StartDownload NineTiles 0))
     = [1; 2; 3; 4; 5; 6; 7; 8]%nat
  /\ TickedFiles (Calls (DownloadRound (E := FoldedEngine) SmallMap CachedRound
                           (StartDownload NineTiles 0)))
     <> FilesToDownload (StartDownload NineTiles 0).
Proof.
  split; [ vm_compute; reflexivity | ].
  split; [ vm_compute; reflexivity | ].
  split; [ vm_compute; reflexivity | ].
  split; [ vm_compute; reflexivity | ].
  vm_compute. discriminate.
Qed.

(** C1. When a tile has failed after its tick, which ends the pass of
    the loop, every other tile that was still pending gets a call of
    [CancelRequest], is marked failed and is not among the downloaded
    tiles; the failed tile has not succeeded, the pending set is empty,
    the loop ends there whatever would have followed,
    [LoadElevationData] returns false and [BuildLandscape] returns
    [nullptr] without reprojecting. *)
Theorem LoadElevationData_fail_fast {F} {A : Arith F} {E : Engine F} {S : Sampler F}
  (TiledMap : FTiledMap) (Now Pending : Z) (QuadSize : F)
  (NumVerticesForRadius : Z) (tiles : list (FCachedElevationFile F))
  (before after : list Round) (r : Round) (s : LoadState F)
  (id : nat) (t' : FCachedElevationFile F)
  (Cancel : Z -> bool) (MiscWays : list FStreetMapMiscWay) (Layers : list string) :
  CollectTiles TiledMap Now QuadSize NumVerticesForRadius = Some tiles ->
  RunRounds TiledMap before (StartDownload tiles Pending) = Some s ->
  ReceivedUserCancel r = false ->
  snd (TickFiles TiledMap r (FilesToDownload s) s) = Some (id, t') ->
  Failed t' = true ->
  Succeeded t' = false
  /\ FilesToDownload (DownloadRound TiledMap r s) = []
  /\ (forall j, j ∈ FilesToDownload s -> j <> id ->
        CallCancelRequest j ∈ Calls (DownloadRound TiledMap r s)
        /\ (j ∉ FilesDownloaded (DownloadRound TiledMap r s))
        /\ exists tj, Files (DownloadRound TiledMap r s) !! j = Some tj
                      /\ Failed tj = true)
  /\ LoadElevationData TiledMap Now Pending QuadSize NumVerticesForRadius
       (before ++ r :: after)
     = Some (false, DownloadRound TiledMap r s)
  /\ BuildLandscape TiledMap Now Pending QuadSize NumVerticesForRadius
       (before ++ r :: after) Cancel MiscWays Layers
     = Some None.
Proof.
  intros Htiles Hbefore Hcancel Hfin Hfailed'.
  assert (Hwf : WellFormed tiles s).
  { eapply RunRounds_WellFormed; [ apply WellFormed_StartDownload | exact Hbefore ]. }
  assert (Hun : PendingUnfinished s).
  { eapply RunRounds_PendingUnfinished; [ | exact Hbefore ].
    eapply PendingUnfinished_CollectTiles; exact Htiles. }
  assert (Hvalid : forall i, i ∈ FilesToDownload s -> (i < length (Files s))%nat)
    by (intros i Hi; eapply WellFormed_pending; eauto).
  unfold DownloadRound.
  destruct (TickFiles TiledMap r (FilesToDownload s) s) as [s' fin] eqn:Hrun.
  cbn [snd] in Hfin. subst fin. cbn [fst].
  assert (Hsucc : Succeeded t' = false).
  { destruct (TickFiles_PendingUnfinished TiledMap r (FilesToDownload s) s s' _
                ltac:(auto) Hun Hrun) as [_ Hex].
    unfold Succeeded. destruct (WasDownloadSuccessful t') eqn:Hs; [ | reflexivity ].
    exfalso. exact (Hex id t' eq_refl Hs Hfailed'). }
  destruct (TickFiles_spec TiledMap r (FilesToDownload s) s s' _ Hvalid Hvalid Hrun)
    as (_ & _ & before' & skipped & Heq & Hdone & Hrest).
  rewrite Hsucc in Hrest. destruct Hrest as (Hcalls & Hpending & Hdownloaded & Hfailed).
  assert (Hid : id ∈ FilesToDownload s)
    by (rewrite Heq; apply elem_of_app; right; left).
  assert (Hload : LoadElevationData TiledMap Now Pending QuadSize NumVerticesForRadius
                    (before ++ r :: after) = Some (false, s')).
  { unfold LoadElevationData. rewrite Htiles.
    rewrite (DownloadLoop_RunRounds TiledMap before (r :: after) _ s Hbefore).
    cbn [DownloadLoop].
    destruct (FilesToDownload s) as [ | p ps ] eqn:Hp; [ inversion Hid | ].
    rewrite Hcancel. unfold DownloadRound. rewrite Hp, Hrun. cbn [fst].
    rewrite (DownloadLoop_done TiledMap after s' Hpending).
    f_equal. f_equal. unfold AllDownloaded. rewrite Hdownloaded.
    pose proof (WellFormed_count tiles s Hwf) as Hcount.
    rewrite Hp in Hcount. cbn [length] in Hcount.
    apply negb_false_iff, Nat.ltb_lt. lia. }
  split; [ exact Hsucc | ].
  split; [ exact Hpending | ].
  split.
  { intros j Hj Hne.
    assert (Hrem : j ∈ Remove id (FilesToDownload s))
      by (apply Remove_elem_of; split; assumption).
    split; [ | split ].
    - rewrite Hcalls. apply elem_of_app. right. apply elem_of_app. right.
      apply (list_elem_of_fmap_2 CallCancelRequest). exact Hrem.
    - rewrite Hdownloaded. intros Hin.
      pose proof (wf_NoDup _ _ Hwf) as Hnd.
      apply NoDup_app in Hnd as (_ & Hdisj & _).
      exact (Hdisj j Hin Hj).
    - apply Hfailed. exact Hrem. }
  split; [ exact Hload | ].
  unfold BuildLandscape. rewrite Hload. reflexivity.
Qed.

Lemma LoadElevationData_fail_fast_witness :
  exists s t',
    RunRounds (E := FoldedEngine) SmallMap [CachedRound; WaitingRound]
      (StartDownload NineTiles 0) = Some s
    /\ snd (TickFiles (E := FoldedEngine) SmallMap FailingRound
              (FilesToDownload s) s) = Some (1%nat, t')
    /\ Failed t' = true
    /\ Succeeded t' = false
    /\ FilesToDownload (DownloadRound (E := FoldedEngine) SmallMap FailingRound s) = []
    /\ LoadElevationData (E := FoldedEngine) SmallMap 0 0 (of_int 4) 2
         ([CachedRound; WaitingRound] ++ FailingRound :: [CachedRound])
       = Some (false, DownloadRound (E := FoldedEngine) SmallMap FailingRound s)
    /\ BuildLandscape (F := Binary32.float) (E := FoldedEngine)
         (S := FirstSampleSampler) SmallMap 0 0 (of_int 4) 2
         ([CachedRound; WaitingRound] ++ FailingRound :: [CachedRound])
         (fun _ => false) [] ["Ground"%string]
       = Some None.
Proof.
  eexists. eexists.
  split; [ vm_compute; reflexivity | ].
  split; [ vm_compute; reflexivity | ].
  split; [ reflexivity | ].
  match goal with
  | |- Succeeded ?t = false /\ FilesToDownload (DownloadRound _ _ ?s) = [] /\ _ =>
      destruct (LoadElevationData_fail_fast (E := FoldedEngine)
                  (S := FirstSampleSampler) SmallMap 0 0 (of_int 4) 2
                  NineTiles [CachedRound; WaitingRound] [CachedRound]
                  FailingRound s 1%nat t (fun _ => false) [] ["Ground"%string])
        as (H1 & H2 & _ & H4 & H5)
  end.
  - vm_compute. reflexivity.
  - vm_compute. reflexivity.
  - reflexivity.
  - vm_compute. reflexivity.
  - reflexivity.
  - split; [ exact H1 | ]. split; [ exact H2 | ]. split; [ exact H4 | exact H5 ].
Defined.

(** ** The downloaded tiles and [GetTile] *)



(** When as many tiles are downloaded as were to download, every tile is
    among them. *)
Lemma AllDownloaded_elem {F} (tiles : list (FCachedElevationFile F))
  (s : LoadState F) (i : nat) :
  WellFormed tiles s ->
  AllDownloaded (length tiles) s = true ->
  (i < length tiles)%nat ->
  i ∈ FilesDownloaded s.
Proof.
  intros Hwf Hall Hi.
  unfold AllDownloaded in Hall. apply negb_true_iff, Nat.ltb_ge in Hall.
  pose proof (wf_NoDup _ _ Hwf) as Hnd. apply NoDup_app in Hnd as (HndD & _ & _).
  assert (Hsub : FilesDownloaded s ⊆+ seq 0 (length tiles)).
  { apply NoDup_submseteq; [ exact HndD | ].
    intros j Hj. apply elem_of_seq.
    pose proof (wf_bound _ _ Hwf j) as Hb.
    assert ((j < length tiles)%nat) by (apply Hb, elem_of_app; left; exact Hj).
    lia. }
  assert (Hperm : FilesDownloaded s ≡ₚ seq 0 (length tiles)).
  { apply submseteq_length_Permutation; [ exact Hsub | ].
    rewrite length_seq. exact Hall. }
  rewrite Hperm. apply elem_of_seq. lia.
Qed.





(** ** Blend weights *)

Lemma Binary32_RampDownTable : RampDownTable (F := Binary32.float) = true.
Proof. vm_compute. reflexivity. Qed.

Lemma to_uint8_byte (z : Z) : 0 <= to_uint8 z <= 255.
Proof. unfold to_uint8. pose proof (Z.mod_pos_bound z (2 ^ 8)). lia. Qed.

Lemma StoredWeight_byte (Rounded : Z) : 0 <= StoredWeight Rounded <= 255.
Proof. apply to_uint8_byte. Qed.

(** For bytes the ramp-down is the value of the conversion, a byte that
    is the nearest integer of [(255 - Weight) * Previous / 255]. *)
Lemma RampDown_byte {F} {A : Arith F} (Weight Previous : Z) :
  RampDownTable (F := F) = true ->
  0 <= Weight <= 255 ->
  0 <= Previous <= 255 ->
  RoundToInt (fmul (AvailableBlendWeight Weight) (of_int Previous))
  = Some (RampDown Weight Previous)
  /\ 0 <= RampDown Weight Previous <= 255
  /\ Z.abs (255 * RampDown Weight Previous - (255 - Weight) * Previous) <= 127.
Proof.
  intros Htable HW HP. unfold RampDownTable in Htable.
  rewrite forallb_forall in Htable.
  assert (Hrow := Htable Weight).
  cbv zeta in Hrow. rewrite forallb_forall in Hrow.
  assert (Hcheck : RampDownCheck (AvailableBlendWeight Weight) Weight Previous = true).
  { apply Hrow.
    - apply list_elem_of_In, elem_of_seqZ. lia.
    - apply list_elem_of_In, elem_of_seqZ. lia. }
  unfold RampDownCheck in Hcheck. unfold RampDown.
  destruct (RoundToInt (fmul (AvailableBlendWeight Weight) (of_int Previous)))
    as [z | ]; [ | discriminate ].
  apply andb_true_iff in Hcheck as [Hrange Hnear].
  apply andb_true_iff in Hrange as [H0 H255].
  apply Z.leb_le in H0, H255, Hnear.
  assert (Hz : to_uint8 z = z) by (unfold to_uint8; apply Z.mod_small; lia).
  rewrite Hz. repeat split; assumption || lia.
Qed.




Lemma nth_insert (l : list Z) (i j : nat) (x : Z) :
  nth j (<[i := x]> l) 0
  = if decide (i = j /\ (i < length l)%nat) then x else nth j l 0.
Proof.
  rewrite !nth_lookup.
  destruct (decide (i = j /\ (i < length l)%nat)) as [[-> Hlt] | Hno].
  - rewrite list_lookup_insert_eq by exact Hlt. reflexivity.
  - destruct (decide (i = j)) as [-> | Hne].
    + rewrite list_insert_ge by lia. reflexivity.
    + rewrite list_lookup_insert_ne by exact Hne. reflexivity.
Qed.








Lemma AddImportLayers_without_polygons {F} {A : Arith F} (NumVerticesForRadius : Z)
  (MiscWays : list FStreetMapMiscWay) (Names : list string) :
  Forall (fun Name => GetPolygonWaysForLayer Name MiscWays = []) Names ->
  forall Previous : list FLandscapeImportLayerInfo,
    Previous <> [] ->
    AddImportLayers NumVerticesForRadius MiscWays Names Previous
    = Some (Previous
            ++ map (fun Name =>
                      {| LayerName := Name;
                         LayerData :=
                           <[0%nat := 1]>
                             (replicate (NumPixels NumVerticesForRadius) 0) |})
                   Names).
Proof.
  induction 1 as [ | Name Names HName _ IH ]; intros Previous Hne.
  - cbn [AddImportLayers map]. rewrite app_nil_r. reflexivity.
  - cbn [AddImportLayers]. unfold AddImportLayer at 1.
    destruct Previous as [ | P0 Ps ]; [ contradiction | ].
    rewrite HName. cbn [mbind option_bind].
    rewrite IH by (destruct Ps; discriminate).
    rewrite <- app_assoc. reflexivity.
Qed.














(** A vertex that two polygons of one layer cover, each with weight 128:
    the base layer is ramped down twice, to 127 and then to 63, and the
    sum is 191. *)
Example WeightSum_vertex_covered_twice :
  exists Result,
    CreateLandscape (F := Binary32.float) 1
      [HalfWay LandUse "meadow"; HalfWay Leisure "park"]
      ["Ground"; "Grass"]%string = Some Result
    /\ map (WeightAt 3) Result = [63; 128]
    /\ WeightSum 3 Result = 191.
Proof. eexists. repeat split; vm_compute; reflexivity. Qed.

(** The same for two ways whose categories differ in case only: both
    are polygons of the layer. *)
Example WeightSum_categories_ignore_case :
  exists Result,
    CreateLandscape (F := Binary32.float) 1
      [HalfWay LandUse "meadow"; HalfWay LandUse "MEADOW"]
      ["Ground"; "Grass"]%string = Some Result
    /\ map (WeightAt 3) Result = [63; 128]
    /\ WeightSum 3 Result = 191.
Proof. eexists. repeat split; vm_compute; reflexivity. Qed.

(** With four layers after the base layer the roundings add up: the
    vertex is covered with weight 2 by the grass layers and with weight
    62 by the wood layers, and the sum is 257. *)
Example WeightSum_five_layers :
  exists Result,
    CreateLandscape (F := Binary32.float) 1
      [VertexWay LandUse "meadow" 2; VertexWay Natural "wood" 62]
      ["Ground"; "Grass"; "Wood"; "Grass"; "Wood"]%string = Some Result
    /\ map (WeightAt 3) Result = [144; 2; 47; 2; 62]
    /\ WeightSum 3 Result = 257.
Proof. eexists. repeat split; vm_compute; reflexivity. Qed.

(** C8. When no layer after the first has a polygon, the first layer has
    weight 255 at every vertex, and every other layer has weight 0 at
    every vertex but the first of the grid, where it has the marker 1. *)
Theorem CreateLandscape_without_polygons {F} {A : Arith F}
  (NumVerticesForRadius : Z) (MiscWays : list FStreetMapMiscWay)
  (Base : string) (Others : list string) :
  Forall (fun Name => GetPolygonWaysForLayer Name MiscWays = []) Others ->
  exists Result,
    CreateLandscape NumVerticesForRadius MiscWays (Base :: Others) = Some Result
    /\ length Result = S (length Others)
    /\ forall j, (j < NumPixels NumVerticesForRadius)%nat ->
         (forall Layer, Result !! 0%nat = Some Layer -> WeightAt j Layer = 255)
         /\ (forall k Layer, Result !! S k = Some Layer ->
                             WeightAt j Layer = if decide (j = 0%nat) then 1 else 0).
Proof.
  intros Hnone. eexists. split.
  - unfold CreateLandscape. cbn [AddImportLayers]. unfold AddImportLayer at 1.
    cbn [mbind option_bind].
    apply AddImportLayers_without_polygons; [ exact Hnone | discriminate ].
  - split; [ cbn [app length]; rewrite length_map; reflexivity | ].
    intros j Hj. split.
    + intros Layer HLayer. cbn in HLayer. inversion HLayer; subst.
      unfold WeightAt. cbn [LayerData].
      rewrite nth_lookup, lookup_replicate_2 by exact Hj. reflexivity.
    + intros k Layer HLayer. cbn [app lookup list_lookup] in HLayer.
      change ((map (fun Name =>
                      {| LayerName := Name;
                         LayerData :=
                           <[0%nat := 1]>
                             (replicate (NumPixels NumVerticesForRadius) 0) |})
                   Others) !! k = Some Layer) in HLayer.
      apply list_elem_of_lookup_2, list_elem_of_In, in_map_iff in HLayer
        as (Name & <- & _).
      unfold WeightAt. cbn [LayerData]. rewrite nth_insert.
      rewrite length_replicate.
      destruct (decide (j = 0%nat)) as [-> | Hne].
      * destruct (decide _) as [_ | Hno]; [ reflexivity | ].
        exfalso. apply Hno. split; [ reflexivity | exact Hj ].
      * destruct (decide _) as [[Heq _] | _]; [ congruence | ].
        rewrite nth_lookup, lookup_replicate_2 by exact Hj. reflexivity.
Qed.

Lemma CreateLandscape_without_polygons_witness :
  exists Result,
    CreateLandscape (F := Binary32.float) 1 [HalfWay Unknown "pond"]
      ["Ground"; "Grass"; "Rock"]%string = Some Result
    /\ length Result = 3%nat
    /\ forall j, (j < NumPixels 1)%nat ->
         (forall Layer, Result !! 0%nat = Some Layer -> WeightAt j Layer = 255)
         /\ (forall k Layer, Result !! S k = Some Layer ->
                             WeightAt j Layer = if decide (j = 0%nat) then 1 else 0).
Proof.
  apply (CreateLandscape_without_polygons (F := Binary32.float) 1
           [HalfWay Unknown "pond"] "Ground"%string ["Grass"; "Rock"]%string).
  repeat constructor.
Defined.

(** C8, as the claim has it: a layer without polygons has weight 1, not
    0, at the first vertex of the grid. *)
Lemma CreateLandscape_marker_is_not_zero :
  exists Result Rock,
    GetPolygonWaysForLayer "Rock" [] = []
    /\ CreateLandscape (F := Binary32.float) 1 [] ["Ground"; "Rock"]%string
       = Some Result
    /\ Result !! 1%nat = Some Rock
    /\ WeightAt 0 Rock = 1
    /\ WeightAt 0 Rock <> 0.
Proof.
  eexists. eexists.
  split; [ reflexivity | ].
  split; [ vm_compute; reflexivity | ].
  split; [ reflexivity | ].
  split; [ reflexivity | vm_compute; discriminate ].
Qed.

(** A layer named grass with a way of category Grass has a polygon: the
    names and the categories are compared without regard to case, and the
    base layer is ramped down where the polygon lies. *)
Example CreateLandscape_ignores_case :
  exists Result,
    GetPolygonWaysForLayer "grass" [HalfWay LandUse "Grass"]
    = [HalfWay LandUse "Grass"]
    /\ CreateLandscape (F := Binary32.float) 1 [HalfWay LandUse "Grass"]
         ["Ground"; "grass"]%string = Some Result
    /\ map (WeightAt 3) Result = [127; 128].
Proof. eexists. repeat split; vm_compute; reflexivity. Qed.

(** * Further properties *)

(** ** The counter of requests under way *)

Lemma UnpackElevation_request {F} {A : Arith F} {E : Engine F}
  (TiledMap : FTiledMap) (RawData : list Z) (t : FCachedElevationFile F) :
  WasInitialized (snd (UnpackElevation TiledMap RawData t)) = WasInitialized t
  /\ HttpRequest (snd (UnpackElevation TiledMap RawData t)) = HttpRequest t
  /\ TimeSpan (snd (UnpackElevation TiledMap RawData t)) = TimeSpan t
  /\ StartTime (snd (UnpackElevation TiledMap RawData t)) = StartTime t.
Proof.
  unfold UnpackElevation.
  destruct (SetCompressed RawData) as [Png | ]; [ | repeat split ].
  destruct (negb (Width Png =? TileWidth TiledMap)
            || negb (Height Png =? TileHeight TiledMap)); [ repeat split | ].
  destruct (negb (ERGBFormat_eqb (Format Png) RGBA) || negb (BitDepth Png =? 8));
    [ repeat split | ].
  destruct (Raw Png) as [RawPNG | ]; [ | repeat split ].
  destruct (UnpackPixels _ RawPNG _ _) as [[Values Min] Max].
  repeat split.
Qed.

(** A download that ends, well or badly, gives its slot back. *)
Lemma OnDownloadSucceeded_accounting {F} {A : Arith F} {E : Engine F}
  (TiledMap : FTiledMap) (w : World) (t : FCachedElevationFile F) (n : Z) :
  HasFinished t = false ->
  HttpRequest t = true ->
  - 2 ^ 31 <= n - 1 -> n < 2 ^ 31 ->
  HasFinished (fst (OnDownloadSucceeded TiledMap w (t, n))) = true
  /\ snd (OnDownloadSucceeded TiledMap w (t, n)) = n - 1.
Proof.
  intros Hun Hreq Hlo Hhi. unfold OnDownloadSucceeded.
  rewrite (to_int32_small (n - 1)) by lia.
  destruct (GetResponse w) as [Content | ].
  - destruct (UnpackElevation TiledMap Content t) as [ok t1].
    destruct ok; flags; split; try reflexivity; bools; reflexivity.
  - flags. split; reflexivity.
Qed.

Lemma DownloadFile_accounting {F} (w : World) (t : FCachedElevationFile F) (n : Z) :
  HasFinished t = false ->
  - 2 ^ 31 <= n -> n < MaxNumPendingDownloads ->
  snd (DownloadFile w (t, n)) - InFlight (fst (DownloadFile w (t, n))) = n
  /\ HttpRequest (fst (DownloadFile w (t, n))) = true
  /\ WasInitialized (fst (DownloadFile w (t, n))) = WasInitialized t
  /\ snd (DownloadFile w (t, n)) <= MaxNumPendingDownloads
  /\ (HasFinished (fst (DownloadFile w (t, n))) = false ->
      snd (DownloadFile w (t, n)) = n + 1).
Proof.
  intros Hun Hlo Hhi. unfold DownloadFile.
  destruct (ProcessRequest w); flags.
  - rewrite (to_int32_small (n + 1)) by lia. rewrite Hun. cbn. repeat split; lia.
  - rewrite orb_true_r. cbn. repeat split; lia.
Qed.

Lemma Initialize_accounting {F} {A : Arith F} {E : Engine F}
  (TiledMap : FTiledMap) (w : World) (t : FCachedElevationFile F) (n : Z) :
  HasFinished t = false ->
  - 2 ^ 31 <= n -> n < MaxNumPendingDownloads ->
  snd (Initialize TiledMap w (t, n)) - InFlight (fst (Initialize TiledMap w (t, n))) = n
  /\ WasInitialized (fst (Initialize TiledMap w (t, n))) = true
  /\ RequestMatchesInit (fst (Initialize TiledMap w (t, n)))
  /\ snd (Initialize TiledMap w (t, n)) <= MaxNumPendingDownloads.
Proof.
  intros Hun Hlo Hhi. unfold Initialize.
  set (t0 := set_StartTime (set_WasInitialized t) (UtcNow w)).
  assert (H0 : HasFinished t0 = false) by exact Hun.
  assert (Hi0 : WasInitialized t0 = true) by reflexivity.
  assert (Hdown : forall t1 : FCachedElevationFile F,
            HasFinished t1 = false -> WasInitialized t1 = true ->
            snd (DownloadFile w (t1, n)) - InFlight (fst (DownloadFile w (t1, n))) = n
            /\ WasInitialized (fst (DownloadFile w (t1, n))) = true
            /\ RequestMatchesInit (fst (DownloadFile w (t1, n)))
            /\ snd (DownloadFile w (t1, n)) <= MaxNumPendingDownloads).
  { intros t1 H1 Hi1.
    destruct (DownloadFile_accounting w t1 n H1 Hlo Hhi) as (Hc & Hr & Hi & Hm & _).
    split; [ exact Hc | ]. split; [ congruence | ]. split; [ | exact Hm ].
    intros _. congruence. }
  destruct (LoadFileToArray w) as [RawData | ]; [ | apply Hdown; assumption ].
  destruct (UnpackElevation_flags TiledMap RawData t0) as [Hs Hf].
  destruct (UnpackElevation_request TiledMap RawData t0) as (Hi & Hr & _).
  destruct (UnpackElevation TiledMap RawData t0) as [ok t1].
  cbn [snd] in Hs, Hf, Hi, Hr.
  assert (H1 : HasFinished t1 = false)
    by (unfold HasFinished in *; rewrite Hs, Hf; exact H0).
  destruct ok; [ | apply Hdown; [ exact H1 | congruence ] ].
  flags. rewrite orb_true_l, andb_false_r.
  split; [ lia | ]. split; [ congruence | ]. split; [ discriminate | lia ].
Qed.

Lemma TickInitialized_accounting {F} {A : Arith F} {E : Engine F}
  (TiledMap : FTiledMap) (w : World) (t : FCachedElevationFile F) (n : Z) :
  WasInitialized t = true ->
  RequestMatchesInit t ->
  - 2 ^ 31 <= n - InFlight t -> n < 2 ^ 31 ->
  snd (TickInitialized TiledMap w (t, n))
  - InFlight (fst (TickInitialized TiledMap w (t, n)))
  = n - InFlight t
  /\ WasInitialized (fst (TickInitialized TiledMap w (t, n))) = true
  /\ RequestMatchesInit (fst (TickInitialized TiledMap w (t, n)))
  /\ snd (TickInitialized TiledMap w (t, n)) <= n.
Proof.
  intros Hinit Hmatch Hlo Hhi. unfold TickInitialized.
  destruct (WasDownloadSuccessful t || Failed t) eqn:Hfin.
  { cbn [fst snd]. repeat split; try assumption; lia. }
  assert (Hun : HasFinished t = false) by exact Hfin.
  assert (Hreq : HttpRequest t = true) by (rewrite (Hmatch Hun); exact Hinit).
  assert (Hflight : InFlight t = 1)
    by (unfold InFlight; rewrite Hreq, Hun; reflexivity).
  rewrite Hflight in *.
  assert (Hfail : forall t1 : FCachedElevationFile F,
            WasInitialized t1 = true ->
            to_int32 (n - 1) - InFlight (set_Failed t1) = n - 1
            /\ WasInitialized (set_Failed t1) = true
            /\ RequestMatchesInit (set_Failed t1)
            /\ to_int32 (n - 1) <= n).
  { intros t1 H1. rewrite to_int32_small by lia. flags.
    rewrite orb_true_r, andb_false_r.
    split; [ lia | ]. split; [ exact H1 | ]. split; [ discriminate | lia ]. }
  destruct (10 <? GetSeconds (TimeSpan t)); [ apply Hfail; exact Hinit | ].
  set (t2 := set_TimeSpan t (UtcNow w - StartTime t)).
  assert (H2 : HasFinished t2 = false) by exact Hun.
  assert (Hr2 : HttpRequest t2 = true) by exact Hreq.
  assert (Hi2 : WasInitialized t2 = true) by exact Hinit.
  destruct (GetStatus w); try (apply Hfail; exact Hi2).
  - cbn [fst snd]. unfold InFlight. rewrite Hr2, H2. cbn.
    split; [ lia | ]. split; [ exact Hi2 | ]. split; [ | lia ].
    intros _. congruence.
  - cbn [fst snd]. unfold InFlight. rewrite Hr2, H2. cbn.
    split; [ lia | ]. split; [ exact Hi2 | ]. split; [ | lia ].
    intros _. congruence.
  - destruct (OnDownloadSucceeded_accounting TiledMap w t2 n H2 Hr2) as [Hdone Hn];
      try lia.
    pose proof (OnDownloadSucceeded_SameTile TiledMap w t2 n) as _.
    assert (Hi3 : WasInitialized (fst (OnDownloadSucceeded TiledMap w (t2, n))) = true).
    { unfold OnDownloadSucceeded.
      destruct (GetResponse w) as [Content | ]; [ | exact Hi2 ].
      destruct (UnpackElevation_request TiledMap Content t2) as (Hi & _).
      destruct (UnpackElevation TiledMap Content t2) as [ok t3].
      cbn [snd] in Hi. destruct ok; cbn; congruence. }
    rewrite Hn. unfold InFlight. rewrite Hdone, andb_false_r.
    split; [ lia | ]. split; [ exact Hi3 | ]. split; [ | lia ].
    unfold RequestMatchesInit. rewrite Hdone. discriminate.
Qed.

Lemma Tick_counter {F} {A : Arith F} {E : Engine F}
  (TiledMap : FTiledMap) (w : World) (t : FCachedElevationFile F) (n : Z) :
  HasFinished t = false ->
  RequestMatchesInit t ->
  - 2 ^ 31 <= n - InFlight t -> n < 2 ^ 31 ->
  snd (Tick TiledMap w (t, n)) - InFlight (fst (Tick TiledMap w (t, n)))
  = n - InFlight t
  /\ RequestMatchesInit (fst (Tick TiledMap w (t, n)))
  /\ snd (Tick TiledMap w (t, n)) <= Z.max n MaxNumPendingDownloads.
Proof.
  intros Hun Hmatch Hlo Hhi. unfold Tick.
  destruct (WasInitialized t) eqn:Hinit; cbn [negb].
  - destruct (TickInitialized_accounting TiledMap w t n Hinit Hmatch Hlo Hhi)
      as (Hc & _ & Hm & Hle).
    split; [ exact Hc | ]. split; [ exact Hm | lia ].
  - assert (Hreq : HttpRequest t = false) by (rewrite (Hmatch Hun); exact Hinit).
    assert (Hflight : InFlight t = 0) by (unfold InFlight; rewrite Hreq; reflexivity).
    rewrite Hflight in *.
    destruct (Z.leb_spec MaxNumPendingDownloads n) as [Hfull | Hfree].
    + cbn [fst snd]. rewrite Hflight. split; [ reflexivity | ].
      split; [ exact Hmatch | lia ].
    + destruct (Initialize_accounting TiledMap w t n Hun) as (Hc & Hi & Hm & Hmax);
        try lia.
      destruct (Initialize TiledMap w (t, n)) as [t1 n1]. cbn [fst snd] in *.
      assert (Hflight1 : 0 <= InFlight t1 <= 1)
        by (unfold InFlight; destruct (_ && _); lia).
      destruct (TickInitialized_accounting TiledMap w t1 n1 Hi Hm)
        as (Hc' & _ & Hm' & Hle); try (unfold MaxNumPendingDownloads in *; lia).
      split; [ lia | ]. split; [ exact Hm' | lia ].
Qed.

(** X1. One call of [Tick] on a tile that has not finished moves the
    counter by what the request of the tile adds or gives back: the
    counter less the requests under way stays the same, and the counter
    never exceeds the larger of its old value and ten. *)
Theorem Tick_accounting {F} {A : Arith F} {E : Engine F}
  (TiledMap : FTiledMap) (w : World) (t : FCachedElevationFile F) (n : Z) :
  HasFinished t = false ->
  RequestMatchesInit t ->
  - 2 ^ 31 <= n - InFlight t -> n < 2 ^ 31 ->
  snd (Tick TiledMap w (t, n)) - InFlight (fst (Tick TiledMap w (t, n)))
  = n - InFlight t
  /\ RequestMatchesInit (fst (Tick TiledMap w (t, n)))
  /\ snd (Tick TiledMap w (t, n)) <= Z.max n MaxNumPendingDownloads.
Proof. apply Tick_counter. Qed.

Lemma Tick_accounting_witness :
  snd (Tick (F := Binary32.float) (E := FoldedEngine) SmallMap WaitingWorld
         (NewCachedElevationFile 0 7 7 4, 3))
  - InFlight (fst (Tick (F := Binary32.float) (E := FoldedEngine) SmallMap WaitingWorld
                     (NewCachedElevationFile 0 7 7 4, 3)))
  = 3 - InFlight (NewCachedElevationFile (F := Binary32.float) 0 7 7 4)
  /\ RequestMatchesInit
       (fst (Tick (F := Binary32.float) (E := FoldedEngine) SmallMap WaitingWorld
               (NewCachedElevationFile 0 7 7 4, 3)))
  /\ snd (Tick (F := Binary32.float) (E := FoldedEngine) SmallMap WaitingWorld
            (NewCachedElevationFile 0 7 7 4, 3))
     <= Z.max 3 MaxNumPendingDownloads.
Proof.
  apply (Tick_accounting (F := Binary32.float) (E := FoldedEngine) SmallMap
           WaitingWorld (NewCachedElevationFile 0 7 7 4) 3).
  - reflexivity.
  - intros _. reflexivity.
  - cbn. lia.
  - lia.
Defined.

Lemma InFlight_bounds {F} (t : FCachedElevationFile F) : 0 <= InFlight t <= 1.
Proof. unfold InFlight. destruct (_ && _); lia. Qed.

Lemma InFlight_unfinished {F} (t : FCachedElevationFile F) :
  HasFinished t = false -> InFlight t = if HttpRequest t then 1 else 0.
Proof. intros Hun. unfold InFlight. rewrite Hun. destruct (HttpRequest t); reflexivity. Qed.

Lemma InFlight_finished {F} (t : FCachedElevationFile F) :
  HasFinished t = true -> InFlight t = 0.
Proof. intros Hfin. unfold InFlight. rewrite Hfin, andb_false_r. reflexivity. Qed.

Lemma InFlightCount_nonneg {F} (AllFiles : list (FCachedElevationFile F))
  (ids : list nat) : 0 <= InFlightCount AllFiles ids.
Proof.
  induction ids as [ | id ids IH ]; cbn [InFlightCount foldr]; [ lia | ].
  fold (InFlightCount AllFiles ids).
  destruct (AllFiles !! id) as [t | ]; [ | exact IH ].
  pose proof (InFlight_bounds t). lia.
Qed.

Lemma InFlightCount_cons {F} (AllFiles : list (FCachedElevationFile F))
  (id : nat) (ids : list nat) :
  InFlightCount AllFiles (id :: ids)
  = match AllFiles !! id with
    | Some t => InFlight t + InFlightCount AllFiles ids
    | None => InFlightCount AllFiles ids
    end.
Proof. reflexivity. Qed.

Lemma InFlightCount_elem {F} (AllFiles : list (FCachedElevationFile F))
  (ids : list nat) (id : nat) (t : FCachedElevationFile F) :
  id ∈ ids -> AllFiles !! id = Some t -> InFlight t <= InFlightCount AllFiles ids.
Proof.
  intros Hin Ht. induction ids as [ | j ids IH ]; [ inversion Hin | ].
  rewrite InFlightCount_cons.
  pose proof (InFlightCount_nonneg AllFiles ids) as Hpos.
  apply elem_of_cons in Hin as [-> | Hin].
  - rewrite Ht. lia.
  - specialize (IH Hin). destruct (AllFiles !! j) as [tj | ]; [ | exact IH ].
    pose proof (InFlight_bounds tj). lia.
Qed.

Lemma InFlightCount_insert_notin {F} (AllFiles : list (FCachedElevationFile F))
  (ids : list nat) (id : nat) (t' : FCachedElevationFile F) :
  id ∉ ids -> InFlightCount (<[id := t']> AllFiles) ids = InFlightCount AllFiles ids.
Proof.
  intros Hnot. induction ids as [ | j ids IH ]; [ reflexivity | ].
  rewrite !InFlightCount_cons.
  apply not_elem_of_cons in Hnot as [Hne Hnot].
  rewrite list_lookup_insert_ne by exact Hne.
  rewrite (IH Hnot). reflexivity.
Qed.

Lemma InFlightCount_insert {F} (AllFiles : list (FCachedElevationFile F))
  (ids : list nat) (id : nat) (t t' : FCachedElevationFile F) :
  NoDup ids -> id ∈ ids -> AllFiles !! id = Some t ->
  InFlightCount (<[id := t']> AllFiles) ids
  = InFlightCount AllFiles ids - InFlight t + InFlight t'.
Proof.
  intros Hnd Hin Ht. induction ids as [ | j ids IH ]; [ inversion Hin | ].
  rewrite !InFlightCount_cons.
  apply NoDup_cons in Hnd as [Hj Hnd].
  destruct (decide (j = id)) as [-> | Hne].
  - rewrite list_lookup_insert_eq by (apply lookup_lt_Some in Ht; exact Ht).
    rewrite Ht, (InFlightCount_insert_notin _ _ _ _ Hj). lia.
  - apply elem_of_cons in Hin as [-> | Hin]; [ congruence | ].
    rewrite list_lookup_insert_ne by congruence.
    rewrite (IH Hnd Hin). destruct (AllFiles !! j); lia.
Qed.

Lemma Remove_notin (id : nat) (l : list nat) : id ∉ l -> Remove id l = l.
Proof.
  intros Hnot. unfold Remove. induction l as [ | j l IH ]; [ reflexivity | ].
  apply not_elem_of_cons in Hnot as [Hne Hnot].
  rewrite filter_cons_True by congruence. rewrite (IH Hnot). reflexivity.
Qed.

Lemma InFlightCount_Remove {F} (AllFiles : list (FCachedElevationFile F))
  (ids : list nat) (id : nat) (t : FCachedElevationFile F) :
  NoDup ids -> id ∈ ids -> AllFiles !! id = Some t ->
  InFlightCount AllFiles (Remove id ids) = InFlightCount AllFiles ids - InFlight t.
Proof.
  intros Hnd Hin Ht. induction ids as [ | j ids IH ]; [ inversion Hin | ].
  apply NoDup_cons in Hnd as [Hj Hnd].
  destruct (decide (j = id)) as [-> | Hne].
  - unfold Remove. rewrite filter_cons_False by (intros Hc; apply Hc; reflexivity).
    fold (Remove id ids). rewrite (Remove_notin _ _ Hj), InFlightCount_cons, Ht. lia.
  - apply elem_of_cons in Hin as [-> | Hin]; [ congruence | ].
    unfold Remove. rewrite filter_cons_True by exact Hne. fold (Remove id ids).
    rewrite !InFlightCount_cons, (IH Hnd Hin). destruct (AllFiles !! j); lia.
Qed.

Lemma NoDup_Remove (id : nat) (l : list nat) : NoDup l -> NoDup (Remove id l).
Proof. intros Hnd. unfold Remove. apply NoDup_filter. exact Hnd. Qed.

(** Cancelling tiles that have not finished gives back the slot of every
    request under way among them. *)
Lemma CancelFiles_counter {F} (ToCancel : list nat) :
  forall s : LoadState F,
    NoDup ToCancel ->
    (forall id t, id ∈ ToCancel -> Files s !! id = Some t -> HasFinished t = false) ->
    - 2 ^ 31 <= NumPendingDownloads s - InFlightCount (Files s) ToCancel ->
    NumPendingDownloads s < 2 ^ 31 ->
    NumPendingDownloads (CancelFiles ToCancel s)
    = NumPendingDownloads s - InFlightCount (Files s) ToCancel.
Proof.
  induction ToCancel as [ | id rest IH ]; intros s Hnd Hun Hlo Hhi.
  - cbn. lia.
  - apply NoDup_cons in Hnd as [Hid Hnd].
    rewrite InFlightCount_cons in *. cbn [CancelFiles].
    destruct (Files s !! id) as [t | ] eqn:Ht.
    + assert (Ht0 : HasFinished t = false)
        by (apply (Hun id t); [ left | exact Ht ]).
      pose proof (InFlightCount_nonneg (Files s) rest) as Hpos.
      rewrite (InFlight_unfinished t Ht0) in *.
      unfold CancelRequest.
      change (HttpRequest (set_Failed t)) with (HttpRequest t).
      destruct (HttpRequest t).
      * rewrite IH; cbn [Files NumPendingDownloads].
        -- rewrite (InFlightCount_insert_notin _ _ _ _ Hid).
           rewrite to_int32_small by lia. lia.
        -- exact Hnd.
        -- intros j tj Hj Htj.
           rewrite list_lookup_insert_ne in Htj
             by (intros ->; apply Hid; exact Hj).
           apply (Hun j tj); [ right; exact Hj | exact Htj ].
        -- rewrite (InFlightCount_insert_notin _ _ _ _ Hid).
           rewrite to_int32_small by lia. lia.
        -- rewrite to_int32_small by lia. lia.
      * rewrite IH; cbn [Files NumPendingDownloads].
        -- rewrite (InFlightCount_insert_notin _ _ _ _ Hid). lia.
        -- exact Hnd.
        -- intros j tj Hj Htj.
           rewrite list_lookup_insert_ne in Htj
             by (intros ->; apply Hid; exact Hj).
           apply (Hun j tj); [ right; exact Hj | exact Htj ].
        -- rewrite (InFlightCount_insert_notin _ _ _ _ Hid). lia.
        -- lia.
    + apply IH; [ exact Hnd | | exact Hlo | exact Hhi ].
      intros j tj Hj Htj. apply (Hun j tj); [ right; exact Hj | exact Htj ].
Qed.

Lemma CancelFiles_counter_le {F} (ToCancel : list nat) (s : LoadState F) :
  NoDup ToCancel ->
  (forall id t, id ∈ ToCancel -> Files s !! id = Some t -> HasFinished t = false) ->
  - 2 ^ 31 <= NumPendingDownloads s - InFlightCount (Files s) ToCancel ->
  NumPendingDownloads s < 2 ^ 31 ->
  NumPendingDownloads (CancelFiles ToCancel s) <= NumPendingDownloads s.
Proof.
  intros Hnd Hun Hlo Hhi. rewrite CancelFiles_counter by assumption.
  pose proof (InFlightCount_nonneg (Files s) ToCancel). lia.
Qed.

Lemma TickFiles_Accounted {F} {A : Arith F} {E : Engine F} (TiledMap : FTiledMap)
  (Pending : Z) (r : Round) (todo : list nat) :
  - 2 ^ 31 <= Pending < 2 ^ 31 ->
  forall s : LoadState F,
    (forall i, i ∈ todo -> i ∈ FilesToDownload s) ->
    Accounted Pending s ->
    Accounted Pending (fst (TickFiles TiledMap r todo s)).
Proof.
  intros HP. induction todo as [ | id rest IH ]; intros s Hsub Hacc.
  - exact Hacc.
  - cbn [TickFiles].
    assert (Hrest : forall i, i ∈ rest -> i ∈ FilesToDownload s)
      by (intros i Hi; apply Hsub; right; exact Hi).
    destruct (Files s !! id) as [t | ] eqn:Ht; [ | apply IH; assumption ].
    destruct Hacc as (Hnd & Hpend & Hcount & Hmax).
    assert (Hid : id ∈ FilesToDownload s) by (apply Hsub; left).
    destruct (Hpend id t Hid Ht) as [Hun Hmatch].
    pose proof (InFlightCount_elem _ _ _ _ Hid Ht) as Hle.
    pose proof (InFlight_bounds t) as Hb.
    unfold MaxNumPendingDownloads in Hmax.
    destruct (Tick_counter TiledMap (Worlds r id) t (NumPendingDownloads s)
                Hun Hmatch) as (Hc & Hm & Hx); [ lia | lia | ].
    destruct (Tick TiledMap (Worlds r id) (t, NumPendingDownloads s)) as [t' n'].
    cbn [fst snd] in Hc, Hm, Hx. unfold MaxNumPendingDownloads in Hx.
    pose proof (InFlightCount_insert _ _ _ _ t' Hnd Hid Ht) as Hins.
    assert (Hpend' : forall j tj, j ∈ FilesToDownload s -> j <> id ->
                       <[id := t']> (Files s) !! j = Some tj ->
                       HasFinished tj = false /\ RequestMatchesInit tj).
    { intros j tj Hj Hne Htj. rewrite list_lookup_insert_ne in Htj by congruence.
      exact (Hpend j tj Hj Htj). }
    assert (Hlook : <[id := t']> (Files s) !! id = Some t')
      by (apply list_lookup_insert_eq; apply lookup_lt_Some in Ht; exact Ht).
    destruct (HasFinished t') eqn:Hfin.
    + cbn [fst]. unfold FileFinished.
      cbn [FilesToDownload Files NumPendingDownloads FilesDownloaded].
      pose proof (InFlightCount_Remove _ _ _ _ Hnd Hid Hlook) as Hrem.
      rewrite (InFlight_finished t' Hfin) in *.
      destruct (Succeeded t').
      * unfold Accounted.
        cbn [FilesToDownload Files NumPendingDownloads FilesDownloaded].
        split; [ apply NoDup_Remove; exact Hnd | ].
        split; [ | split; unfold MaxNumPendingDownloads; lia ].
        intros j tj Hj Htj. apply Remove_elem_of in Hj as [Hne Hj].
        exact (Hpend' j tj Hj Hne Htj).
      * unfold Accounted.
        cbn [FilesToDownload Files NumPendingDownloads FilesDownloaded].
        split; [ constructor | ].
        split; [ intros j tj Hj; inversion Hj | ].
        set (s1 := {| Files := <[id := t']> (Files s);
                      FilesToDownload := FilesToDownload s;
                      FilesDownloaded := FilesDownloaded s;
                      NumPendingDownloads := n';
                      ModelElevationMin := ModelElevationMin s;
                      ModelElevationMax := ModelElevationMax s;
                      Calls := Calls s ++ [CallTick id] |}).
        pose proof (InFlightCount_nonneg (Files s1) (Remove id (FilesToDownload s)))
          as Hpos.
        rewrite (CancelFiles_counter (Remove id (FilesToDownload s)) s1).
        -- cbn [Files NumPendingDownloads s1 InFlightCount foldr].
           unfold MaxNumPendingDownloads. lia.
        -- apply NoDup_Remove; exact Hnd.
        -- intros j tj Hj Htj. apply Remove_elem_of in Hj as [Hne Hj].
           exact (proj1 (Hpend' j tj Hj Hne Htj)).
        -- cbn [Files NumPendingDownloads s1] in *. lia.
        -- cbn [Files NumPendingDownloads s1]. lia.
    + apply IH; [ exact Hrest | ].
      unfold Accounted.
      cbn [FilesToDownload Files NumPendingDownloads FilesDownloaded].
      split; [ exact Hnd | ].
      split; [ | split; unfold MaxNumPendingDownloads; lia ].
      intros j tj Hj Htj.
      destruct (decide (j = id)) as [-> | Hne].
      * rewrite Hlook in Htj. injection Htj as <-. split; assumption.
      * exact (Hpend' j tj Hj Hne Htj).
Qed.

Lemma DownloadRound_Accounted {F} {A : Arith F} {E : Engine F}
  (TiledMap : FTiledMap) (Pending : Z) (r : Round) (s : LoadState F) :
  - 2 ^ 31 <= Pending < 2 ^ 31 ->
  Accounted Pending s ->
  Accounted Pending (DownloadRound TiledMap r s).
Proof.
  intros HP Hacc. unfold DownloadRound.
  apply TickFiles_Accounted; [ exact HP | intros i Hi; exact Hi | exact Hacc ].
Qed.

Lemma RunRounds_Accounted {F} {A : Arith F} {E : Engine F}
  (TiledMap : FTiledMap) (Pending : Z) (rounds : list Round) :
  - 2 ^ 31 <= Pending < 2 ^ 31 ->
  forall s s' : LoadState F,
    Accounted Pending s ->
    RunRounds TiledMap rounds s = Some s' ->
    Accounted Pending s'.
Proof.
  intros HP. induction rounds as [ | r rounds IH ]; intros s s' Hacc Hrun.
  - injection Hrun as <-. exact Hacc.
  - cbn [RunRounds] in Hrun.
    destruct (FilesToDownload s); [ discriminate | ].
    destruct (ReceivedUserCancel r); [ discriminate | ].
    apply (IH _ _ (DownloadRound_Accounted TiledMap Pending r s HP Hacc) Hrun).
Qed.

Lemma DownloadLoop_Accounted {F} {A : Arith F} {E : Engine F}
  (TiledMap : FTiledMap) (Pending : Z) (rounds : list Round) :
  - 2 ^ 31 <= Pending < 2 ^ 31 ->
  forall s s' : LoadState F,
    Accounted Pending s ->
    DownloadLoop TiledMap rounds s = Some s' ->
    Accounted Pending s'.
Proof.
  intros HP. induction rounds as [ | r rounds IH ]; intros s s' Hacc Hrun.
  - cbn [DownloadLoop] in Hrun.
    destruct (FilesToDownload s); [ | discriminate ].
    injection Hrun as <-. exact Hacc.
  - cbn [DownloadLoop] in Hrun.
    destruct (FilesToDownload s); [ injection Hrun as <-; exact Hacc | ].
    destruct (ReceivedUserCancel r); [ injection Hrun as <-; exact Hacc | ].
    apply (IH _ _ (DownloadRound_Accounted TiledMap Pending r s HP Hacc) Hrun).
Qed.

(** Without a cancel the loop ends only with nothing left to download. *)
Lemma DownloadLoop_not_cancelled {F} {A : Arith F} {E : Engine F}
  (TiledMap : FTiledMap) (rounds : list Round) :
  Forall (fun r => ReceivedUserCancel r = false) rounds ->
  forall s s' : LoadState F,
    DownloadLoop TiledMap rounds s = Some s' ->
    FilesToDownload s' = [].
Proof.
  induction 1 as [ | r rounds Hr _ IH ]; intros s s' Hrun.
  - cbn [DownloadLoop] in Hrun.
    destruct (FilesToDownload s) eqn:Hp; [ | discriminate ].
    injection Hrun as <-. exact Hp.
  - cbn [DownloadLoop] in Hrun. rewrite Hr in Hrun.
    destruct (FilesToDownload s) eqn:Hp; [ injection Hrun as <-; exact Hp | ].
    exact (IH _ _ Hrun).
Qed.

Lemma CollectTiles_fresh {F} {A : Arith F} {E : Engine F} (TiledMap : FTiledMap)
  (Now : Z) (QuadSize : F) (NumVerticesForRadius : Z)
  (tiles : list (FCachedElevationFile F)) :
  CollectTiles TiledMap Now QuadSize NumVerticesForRadius = Some tiles ->
  forall t, t ∈ tiles ->
    WasInitialized t = false /\ HasFinished t = false /\ HttpRequest t = false
    /\ Elevation t = [].
Proof.
  unfold CollectTiles. intros Hc t Ht.
  destruct (ToEPSG3857 (SouthWest QuadSize NumVerticesForRadius)); [ | discriminate ].
  destruct (ToEPSG3857 (NorthEast QuadSize NumVerticesForRadius)); [ | discriminate ].
  injection Hc as <-.
  apply list_elem_of_In, in_map_iff in Ht as (XY & <- & _).
  repeat split.
Qed.

Lemma Accounted_StartDownload {F} {A : Arith F}
  (tiles : list (FCachedElevationFile F)) (Pending : Z) :
  (forall t, t ∈ tiles ->
     WasInitialized t = false /\ HasFinished t = false /\ HttpRequest t = false) ->
  Accounted Pending (StartDownload tiles Pending).
Proof.
  intros Hfresh. unfold Accounted, StartDownload.
  cbn [FilesToDownload Files NumPendingDownloads].
  split; [ apply NoDup_seq | ].
  split.
  - intros id t _ Ht. apply list_elem_of_lookup_2 in Ht.
    destruct (Hfresh t Ht) as (Hi & Hf & Hr).
    split; [ exact Hf | intros _; congruence ].
  - assert (Hzero : forall ids, InFlightCount tiles ids = 0).
    { induction ids as [ | id ids IH ]; [ reflexivity | ].
      rewrite InFlightCount_cons, IH.
      destruct (tiles !! id) as [t | ] eqn:Ht; [ | reflexivity ].
      apply list_elem_of_lookup_2 in Ht.
      destruct (Hfresh t Ht) as (_ & _ & Hr).
      unfold InFlight. rewrite Hr. reflexivity. }
    rewrite Hzero. lia.
Qed.

(** X2. Unless the user cancels, [LoadElevationData] leaves the static
    counter [NumPendingDownloads] as it found it, whether the download
    succeeds or fails: every request it has started has ended or has been
    cancelled. *)
Theorem LoadElevationData_counter_restored {F} {A : Arith F} {E : Engine F}
  (TiledMap : FTiledMap) (Now Pending : Z) (QuadSize : F)
  (NumVerticesForRadius : Z) (rounds : list Round) (ok : bool) (s : LoadState F) :
  - 2 ^ 31 <= Pending < 2 ^ 31 ->
  Forall (fun r => ReceivedUserCancel r = false) rounds ->
  LoadElevationData TiledMap Now Pending QuadSize NumVerticesForRadius rounds
  = Some (ok, s) ->
  NumPendingDownloads s = Pending.
Proof.
  intros HP Hnone Hload. unfold LoadElevationData in Hload.
  destruct (CollectTiles TiledMap Now QuadSize NumVerticesForRadius) as [tiles | ]
    eqn:Htiles; [ | injection Hload as _ <-; reflexivity ].
  destruct (DownloadLoop TiledMap rounds (StartDownload tiles Pending)) as [s' | ]
    eqn:Hloop; [ | discriminate ].
  injection Hload as _ <-.
  assert (Hacc : Accounted Pending s').
  { apply (DownloadLoop_Accounted TiledMap Pending rounds HP _ _
             (Accounted_StartDownload tiles Pending
                ltac:(intros t Ht;
                      destruct (CollectTiles_fresh _ _ _ _ _ Htiles t Ht)
                        as (H1 & H2 & H3 & _); auto))
             Hloop). }
  destruct Hacc as (_ & _ & Hcount & _).
  rewrite (DownloadLoop_not_cancelled TiledMap rounds Hnone _ _ Hloop) in Hcount.
  cbn [InFlightCount foldr] in Hcount. lia.
Qed.

Lemma LoadElevationData_counter_restored_witness :
  exists s,
    LoadElevationData (F := Binary32.float) (E := FoldedEngine) SmallMap 0 0 (of_int 4) 2
      [CachedRound; WaitingRound; FailingRound] = Some (false, s)
    /\ NumPendingDownloads s = 0.
Proof.
  eexists. split; [ vm_compute; reflexivity | ].
  apply (LoadElevationData_counter_restored (F := Binary32.float) (E := FoldedEngine)
           SmallMap 0 0 (of_int 4) 2 [CachedRound; WaitingRound; FailingRound] false).
  - lia.
  - repeat constructor.
  - vm_compute. reflexivity.
Defined.

(** X3. While the loop runs, the counter stands at its value at the start
    plus the requests under way among the tiles still to download, and
    these are at most ten less the value at the start (none when that is
    ten or more). *)
Theorem RunRounds_throttle {F} {A : Arith F} {E : Engine F}
  (TiledMap : FTiledMap) (Now Pending : Z) (QuadSize : F)
  (NumVerticesForRadius : Z) (tiles : list (FCachedElevationFile F))
  (rounds : list Round) (s : LoadState F) :
  - 2 ^ 31 <= Pending < 2 ^ 31 ->
  CollectTiles TiledMap Now QuadSize NumVerticesForRadius = Some tiles ->
  RunRounds TiledMap rounds (StartDownload tiles Pending) = Some s ->
  NumPendingDownloads s = Pending + InFlightCount (Files s) (FilesToDownload s)
  /\ InFlightCount (Files s) (FilesToDownload s)
     <= Z.max 0 (MaxNumPendingDownloads - Pending).
Proof.
  intros HP Htiles Hrun.
  assert (Hacc : Accounted Pending s).
  { apply (RunRounds_Accounted TiledMap Pending rounds HP _ _
             (Accounted_StartDownload tiles Pending
                ltac:(intros t Ht;
                      destruct (CollectTiles_fresh _ _ _ _ _ Htiles t Ht)
                        as (H1 & H2 & H3 & _); auto))
             Hrun). }
  destruct Hacc as (_ & _ & Hcount & Hmax).
  split; [ exact Hcount | lia ].
Qed.

Lemma RunRounds_throttle_witness :
  exists s,
    RunRounds (F := Binary32.float) (E := FoldedEngine) SmallMap
      [CachedRound; WaitingRound] (StartDownload NineTiles 3) = Some s
    /\ NumPendingDownloads s = 3 + InFlightCount (Files s) (FilesToDownload s)
    /\ InFlightCount (Files s) (FilesToDownload s) <= Z.max 0 (MaxNumPendingDownloads - 3).
Proof.
  eexists. split; [ vm_compute; reflexivity | ].
  apply (RunRounds_throttle (F := Binary32.float) (E := FoldedEngine)
           SmallMap 0 3 (of_int 4) 2 NineTiles [CachedRound; WaitingRound]).
  - lia.
  - vm_compute. reflexivity.
  - vm_compute. reflexivity.
Defined.

(** X4. When the user cancels while tiles are still to download,
    [LoadElevationData] returns false and leaves everything as it is: no
    pending tile is cancelled or marked as failed, and the counter stays
    raised by the requests under way. *)
Theorem LoadElevationData_user_cancel {F} {A : Arith F} {E : Engine F}
  (TiledMap : FTiledMap) (Now Pending : Z) (QuadSize : F)
  (NumVerticesForRadius : Z) (tiles : list (FCachedElevationFile F))
  (before rest : list Round) (r : Round) (s : LoadState F) :
  - 2 ^ 31 <= Pending < 2 ^ 31 ->
  CollectTiles TiledMap Now QuadSize NumVerticesForRadius = Some tiles ->
  RunRounds TiledMap before (StartDownload tiles Pending) = Some s ->
  FilesToDownload s <> [] ->
  ReceivedUserCancel r = true ->
  LoadElevationData TiledMap Now Pending QuadSize NumVerticesForRadius
    (before ++ r :: rest) = Some (false, s)
  /\ NumPendingDownloads s = Pending + InFlightCount (Files s) (FilesToDownload s)
  /\ forall id t, id ∈ FilesToDownload s -> Files s !! id = Some t ->
                  Failed t = false /\ InFlight t = if WasInitialized t then 1 else 0.
Proof.
  intros HP Htiles Hrun Hpending Hcancel.
  assert (Hacc : Accounted Pending s).
  { apply (RunRounds_Accounted TiledMap Pending before HP _ _
             (Accounted_StartDownload tiles Pending
                ltac:(intros t Ht;
                      destruct (CollectTiles_fresh _ _ _ _ _ Htiles t Ht)
                        as (H1 & H2 & H3 & _); auto))
             Hrun). }
  pose proof (RunRounds_WellFormed TiledMap tiles before _ _
                (WellFormed_StartDownload tiles Pending) Hrun) as Hwf.
  destruct Hacc as (_ & Hpend & Hcount & _).
  split; [ | split; [ exact Hcount | ] ].
  - unfold LoadElevationData. rewrite Htiles.
    rewrite (DownloadLoop_RunRounds TiledMap before (r :: rest) _ s Hrun).
    cbn [DownloadLoop].
    destruct (FilesToDownload s) as [ | p ps ] eqn:Hp; [ congruence | ].
    rewrite Hcancel. f_equal. f_equal. unfold AllDownloaded.
    pose proof (WellFormed_count tiles s Hwf) as Hc.
    rewrite Hp in Hc. cbn [length] in Hc.
    apply negb_false_iff, Nat.ltb_lt. lia.
  - intros id t Hid Ht. destruct (Hpend id t Hid Ht) as [Hun Hmatch].
    split.
    + unfold HasFinished in Hun. apply orb_false_elim in Hun as [_ Hf]. exact Hf.
    + rewrite (InFlight_unfinished t Hun), (Hmatch Hun). reflexivity.
Qed.

Lemma LoadElevationData_user_cancel_witness :
  exists s,
    RunRounds (F := Binary32.float) (E := FoldedEngine) SmallMap
      [CachedRound; WaitingRound] (StartDownload NineTiles 0) = Some s
    /\ NumPendingDownloads s = 8
    /\ LoadElevationData (E := FoldedEngine) SmallMap 0 0 (of_int 4) 2
         ([CachedRound; WaitingRound]
          ++ {| ReceivedUserCancel := true; Worlds := fun _ => WaitingWorld |}
          :: [CachedRound])
       = Some (false, s)
    /\ NumPendingDownloads s = 0 + InFlightCount (Files s) (FilesToDownload s).
Proof.
  eexists. split; [ vm_compute; reflexivity | ].
  split; [ reflexivity | ].
  match goal with
  | |- LoadElevationData _ _ _ _ _ _ = Some (false, ?s) /\ _ =>
      destruct (LoadElevationData_user_cancel (F := Binary32.float)
                  (E := FoldedEngine) SmallMap 0 0 (of_int 4) 2 NineTiles
                  [CachedRound; WaitingRound] [CachedRound]
                  {| ReceivedUserCancel := true; Worlds := fun _ => WaitingWorld |} s)
        as (H1 & H2 & _)
  end.
  - lia.
  - vm_compute. reflexivity.
  - vm_compute. reflexivity.
  - discriminate.
  - reflexivity.
  - split; [ exact H1 | exact H2 ].
Defined.

(** ** Downloaded tiles *)

Lemma CancelFiles_untouched {F} (ToCancel : list nat) :
  forall (s : LoadState F) (i : nat),
    i ∉ ToCancel -> Files (CancelFiles ToCancel s) !! i = Files s !! i.
Proof.
  induction ToCancel as [ | id rest IH ]; intros s i Hnot; [ reflexivity | ].
  apply not_elem_of_cons in Hnot as [Hne Hnot]. cbn [CancelFiles].
  destruct (Files s !! id) as [t | ]; [ | apply IH; exact Hnot ].
  destruct (CancelRequest (t, NumPendingDownloads s)) as [t' n'].
  rewrite (IH _ i Hnot). cbn [Files].
  apply list_lookup_insert_ne. congruence.
Qed.

Lemma CancelFiles_FilesDownloaded {F} (ToCancel : list nat) :
  forall s : LoadState F,
    FilesDownloaded (CancelFiles ToCancel s) = FilesDownloaded s.
Proof.
  induction ToCancel as [ | id rest IH ]; intros s; [ reflexivity | ].
  cbn [CancelFiles].
  destruct (Files s !! id) as [t | ]; [ | apply IH ].
  destruct (CancelRequest (t, NumPendingDownloads s)) as [t' n'].
  rewrite IH. reflexivity.
Qed.

(** One pass of the loop over the pending tiles leaves every tile that
    is not pending as it is, and what it adds to [FilesDownloaded] is the
    tile that has finished, which has succeeded and has not failed. *)
Lemma TickFiles_downloaded {F} {A : Arith F} {E : Engine F} (TiledMap : FTiledMap)
  (r : Round) (todo : list nat) :
  forall (s s' : LoadState F) fin,
    (forall i, i ∈ todo -> i ∈ FilesToDownload s) ->
    PendingUnfinished s ->
    TickFiles TiledMap r todo s = (s', fin) ->
    (forall i, i ∉ FilesToDownload s -> Files s' !! i = Files s !! i)
    /\ (FilesDownloaded s' = FilesDownloaded s
        \/ exists id t', FilesDownloaded s' = FilesDownloaded s ++ [id]
                         /\ id ∈ FilesToDownload s
                         /\ Files s' !! id = Some t'
                         /\ Succeeded t' = true /\ Failed t' = false
                         /\ exists t n,
                              HasFinished t = false
                              /\ t' = fst (Tick TiledMap (Worlds r id) (t, n))).
Proof.
  induction todo as [ | id rest IH ]; intros s s' fin Hsub Hun Hrun.
  - cbn [TickFiles] in Hrun. inversion Hrun; subst. split; [ reflexivity | left; reflexivity ].
  - cbn [TickFiles] in Hrun.
    assert (Hrest : forall i, i ∈ rest -> i ∈ FilesToDownload s)
      by (intros i Hi; apply Hsub; right; exact Hi).
    destruct (Files s !! id) as [t | ] eqn:Ht;
      [ | apply (IH s s' fin Hrest Hun Hrun) ].
    assert (Hid : id ∈ FilesToDownload s) by (apply Hsub; left).
    assert (Htun : HasFinished t = false) by exact (Hun id t Hid Ht).
    pose proof (Tick_Exclusive TiledMap (Worlds r id) t (NumPendingDownloads s) Htun)
      as Hex.
    assert (Hfrom : exists t0 n,
               HasFinished t0 = false
               /\ fst (Tick TiledMap (Worlds r id) (t, NumPendingDownloads s))
                  = fst (Tick TiledMap (Worlds r id) (t0, n)))
      by (exists t, (NumPendingDownloads s); split; [ exact Htun | reflexivity ]).
    destruct (Tick TiledMap (Worlds r id) (t, NumPendingDownloads s)) as [t' n'].
    cbn [fst] in Hex, Hfrom.
    match type of Hrun with
    | context [FileFinished id t' ?x] => set (s1 := x) in Hrun
    end.
    assert (Hlook : Files s1 !! id = Some t')
      by (apply list_lookup_insert_eq; apply lookup_lt_Some in Ht; exact Ht).
    assert (Hother : forall i, i ∉ FilesToDownload s -> Files s1 !! i = Files s !! i).
    { intros i Hi. cbn [s1 Files]. apply list_lookup_insert_ne.
      intros ->. exact (Hi Hid). }
    destruct (HasFinished t') eqn:Hfin.
    + inversion Hrun; subst s' fin. unfold FileFinished.
      destruct (Succeeded t') eqn:Hsucc.
      * cbn [Files FilesDownloaded]. split; [ exact Hother | ].
        right. exists id, t'.
        split; [ reflexivity | ]. split; [ exact Hid | ].
        split; [ exact Hlook | ]. split; [ exact Hsucc | ].
        split; [ | exact Hfrom ].
        destruct (Failed t') eqn:Hf; [ | reflexivity ].
        exfalso. exact (Hex Hsucc Hf).
      * cbn [Files FilesDownloaded]. split.
        -- intros i Hi. rewrite CancelFiles_untouched; [ exact (Hother i Hi) | ].
           intros Hin. apply Remove_elem_of in Hin as [_ Hin]. exact (Hi Hin).
        -- left. rewrite CancelFiles_FilesDownloaded. reflexivity.
    + destruct (IH s1 s' fin) as [Hkeep Hadd]; [ exact Hrest | | exact Hrun | ].
      * intros i u Hi Hu. cbn [s1 Files FilesToDownload] in Hi, Hu.
        destruct (decide (i = id)) as [-> | Hne].
        -- rewrite list_lookup_insert_eq in Hu by (eapply lookup_lt_Some; eauto).
           inversion Hu; subst. exact Hfin.
        -- rewrite list_lookup_insert_ne in Hu by congruence.
           exact (Hun i u Hi Hu).
      * split.
        -- intros i Hi. rewrite (Hkeep i Hi). exact (Hother i Hi).
        -- exact Hadd.
Qed.

Lemma DownloadRound_DownloadedSucceeded {F} {A : Arith F} {E : Engine F}
  (TiledMap : FTiledMap) (tiles : list (FCachedElevationFile F)) (r : Round)
  (s : LoadState F) :
  WellFormed tiles s -> PendingUnfinished s -> DownloadedSucceeded s ->
  DownloadedSucceeded (DownloadRound TiledMap r s)
  /\ forall i, i ∈ FilesDownloaded s ->
       i ∈ FilesDownloaded (DownloadRound TiledMap r s)
       /\ Files (DownloadRound TiledMap r s) !! i = Files s !! i.
Proof.
  intros Hwf Hun Hdone. unfold DownloadRound.
  destruct (TickFiles TiledMap r (FilesToDownload s) s) as [s' fin] eqn:Hrun.
  cbn [fst].
  destruct (TickFiles_downloaded TiledMap r (FilesToDownload s) s s' fin
              ltac:(auto) Hun Hrun) as [Hkeep Hadd].
  assert (Hdisj : forall i, i ∈ FilesDownloaded s -> i ∉ FilesToDownload s).
  { pose proof (wf_NoDup _ _ Hwf) as Hnd.
    apply NoDup_app in Hnd as (_ & Hdisj & _). exact Hdisj. }
  split.
  - intros i t Hi Ht. destruct Hadd as [Heq | (id & t' & Heq & Hid & Hlook & Hs & Hf & _)].
    + rewrite Heq in Hi. rewrite (Hkeep i (Hdisj i Hi)) in Ht.
      exact (Hdone i t Hi Ht).
    + rewrite Heq in Hi. apply elem_of_app in Hi as [Hi | Hi].
      * rewrite (Hkeep i (Hdisj i Hi)) in Ht. exact (Hdone i t Hi Ht).
      * apply list_elem_of_singleton in Hi as ->.
        rewrite Hlook in Ht. injection Ht as <-. split; assumption.
  - intros i Hi. split; [ | exact (Hkeep i (Hdisj i Hi)) ].
    destruct Hadd as [Heq | (id & t' & Heq & _)]; rewrite Heq;
      [ exact Hi | apply elem_of_app; left; exact Hi ].
Qed.

Lemma DownloadRound_PendingUnfinished {F} {A : Arith F} {E : Engine F}
  (TiledMap : FTiledMap) (r : Round) (s : LoadState F) :
  PendingUnfinished s -> PendingUnfinished (DownloadRound TiledMap r s).
Proof.
  intros Hun. unfold DownloadRound.
  destruct (TickFiles TiledMap r (FilesToDownload s) s) as [s' fin] eqn:Hrun.
  exact (proj1 (TickFiles_PendingUnfinished TiledMap r (FilesToDownload s) s s' fin
                  ltac:(auto) Hun Hrun)).
Qed.

(** The tiles listed as downloaded stay listed and unchanged through the
    rest of the loop, and all of them have succeeded. *)
Lemma DownloadLoop_DownloadedSucceeded {F} {A : Arith F} {E : Engine F}
  (TiledMap : FTiledMap) (tiles : list (FCachedElevationFile F))
  (rounds : list Round) :
  forall s s' : LoadState F,
    WellFormed tiles s -> PendingUnfinished s -> DownloadedSucceeded s ->
    DownloadLoop TiledMap rounds s = Some s' ->
    DownloadedSucceeded s'
    /\ forall i, i ∈ FilesDownloaded s ->
         i ∈ FilesDownloaded s' /\ Files s' !! i = Files s !! i.
Proof.
  induction rounds as [ | r rounds IH ]; intros s s' Hwf Hun Hdone Hrun;
    cbn [DownloadLoop] in Hrun.
  - destruct (FilesToDownload s); [ | discriminate ].
    injection Hrun as <-. split; [ exact Hdone | auto ].
  - destruct (FilesToDownload s) eqn:Hp;
      [ injection Hrun as <-; split; [ exact Hdone | auto ] | ].
    destruct (ReceivedUserCancel r);
      [ injection Hrun as <-; split; [ exact Hdone | auto ] | ].
    destruct (DownloadRound_DownloadedSucceeded TiledMap tiles r s Hwf Hun Hdone)
      as [Hdone1 Hkeep1].
    destruct (IH _ s' (DownloadRound_WellFormed TiledMap tiles r s Hwf)
                (DownloadRound_PendingUnfinished TiledMap r s Hun) Hdone1 Hrun)
      as [Hdone' Hkeep'].
    split; [ exact Hdone' | ].
    intros i Hi. destruct (Hkeep1 i Hi) as [Hi1 Heq1].
    destruct (Hkeep' i Hi1) as [Hi' Heq']. split; [ exact Hi' | congruence ].
Qed.

Lemma RunRounds_DownloadLoop {F} {A : Arith F} {E : Engine F}
  (TiledMap : FTiledMap) (rounds : list Round) :
  forall s s' : LoadState F,
    RunRounds TiledMap rounds s = Some s' ->
    FilesToDownload s' = [] ->
    DownloadLoop TiledMap rounds s = Some s'.
Proof.
  intros s s' Hrun Hp.
  rewrite <- (app_nil_r rounds).
  rewrite (DownloadLoop_RunRounds TiledMap rounds [] s s' Hrun).
  apply DownloadLoop_done. exact Hp.
Qed.

Lemma DownloadedSucceeded_StartDownload {F} {A : Arith F}
  (tiles : list (FCachedElevationFile F)) (Pending : Z) :
  DownloadedSucceeded (StartDownload tiles Pending).
Proof. intros i t Hi. inversion Hi. Qed.

(** X5. When [LoadElevationData] returns true, nothing is left to
    download, [FilesDownloaded] lists every collected tile exactly once,
    and each of them holds its coordinates, has succeeded and has not
    failed. *)
Theorem LoadElevationData_success {F} {A : Arith F} {E : Engine F}
  (TiledMap : FTiledMap) (Now Pending : Z) (QuadSize : F)
  (NumVerticesForRadius : Z) (tiles : list (FCachedElevationFile F))
  (rounds : list Round) (s : LoadState F) :
  CollectTiles TiledMap Now QuadSize NumVerticesForRadius = Some tiles ->
  LoadElevationData TiledMap Now Pending QuadSize NumVerticesForRadius rounds
  = Some (true, s) ->
  FilesToDownload s = []
  /\ NoDup (FilesDownloaded s)
  /\ (forall i, i ∈ FilesDownloaded s <-> (i < length tiles)%nat)
  /\ forall i t0, tiles !! i = Some t0 ->
       exists t, Files s !! i = Some t /\ SameTile t0 t
                 /\ Succeeded t = true /\ Failed t = false.
Proof.
  intros Htiles Hload. unfold LoadElevationData in Hload. rewrite Htiles in Hload.
  destruct (DownloadLoop TiledMap rounds (StartDownload tiles Pending)) as [s' | ]
    eqn:Hloop; [ | discriminate ].
  injection Hload as Hall <-.
  pose proof (DownloadLoop_WellFormed TiledMap tiles rounds _ _
                (WellFormed_StartDownload tiles Pending) Hloop) as Hwf.
  destruct (DownloadLoop_DownloadedSucceeded TiledMap tiles rounds _ _
              (WellFormed_StartDownload tiles Pending)
              (PendingUnfinished_CollectTiles TiledMap Now Pending QuadSize
                 NumVerticesForRadius tiles Htiles)
              (DownloadedSucceeded_StartDownload tiles Pending) Hloop)
    as [Hdone _].
  pose proof (WellFormed_count tiles s' Hwf) as Hcount.
  pose proof (wf_NoDup _ _ Hwf) as Hnd.
  assert (Hlen : (length tiles <= length (FilesDownloaded s'))%nat).
  { unfold AllDownloaded in Hall. apply negb_true_iff, Nat.ltb_ge in Hall. exact Hall. }
  assert (Hp : FilesToDownload s' = []).
  { destruct (FilesToDownload s'); [ reflexivity | cbn [length] in Hcount; lia ]. }
  split; [ exact Hp | ].
  split; [ apply NoDup_app in Hnd as (Hnd & _); exact Hnd | ].
  split.
  - intros i. split.
    + intros Hi. apply (wf_bound _ _ Hwf). apply elem_of_app. left. exact Hi.
    + intros Hi. exact (AllDownloaded_elem tiles s' i Hwf Hall Hi).
  - intros i t0 Ht0.
    assert (Hi : (i < length tiles)%nat) by (eapply lookup_lt_Some; eauto).
    destruct (lookup_lt_is_Some_2 (Files s') i) as [t Ht];
      [ rewrite (wf_length _ _ Hwf); exact Hi | ].
    exists t. split; [ exact Ht | ].
    split; [ exact (wf_tiles _ _ Hwf i t0 t Ht0 Ht) | ].
    exact (Hdone i t (AllDownloaded_elem tiles s' i Hwf Hall Hi) Ht).
Qed.

Lemma LoadElevationData_success_witness :
  exists s,
    LoadElevationData (F := Binary32.float) (E := FoldedEngine) SmallMap 0 0 (of_int 4) 2
      (replicate 9 CachedRound) = Some (true, s)
    /\ FilesToDownload s = []
    /\ forall i, i ∈ FilesDownloaded s <-> (i < length NineTiles)%nat.
Proof.
  eexists. split; [ vm_compute; reflexivity | ].
  match goal with
  | |- FilesToDownload ?s = [] /\ _ =>
      destruct (LoadElevationData_success (F := Binary32.float) (E := FoldedEngine)
                  SmallMap 0 0 (of_int 4) 2 NineTiles (replicate 9 CachedRound) s)
        as (H1 & _ & H3 & _)
  end.
  - vm_compute. reflexivity.
  - vm_compute. reflexivity.
  - split; [ exact H1 | exact H3 ].
Defined.

(** X6. Once a tile is listed in [FilesDownloaded], the later passes of
    the loop neither change it nor take it off the list, whatever happens
    to the other tiles. *)
Theorem DownloadLoop_keeps_downloaded {F} {A : Arith F} {E : Engine F}
  (TiledMap : FTiledMap) (Now Pending : Z) (QuadSize : F)
  (NumVerticesForRadius : Z) (tiles : list (FCachedElevationFile F))
  (before rest : list Round) (s s' : LoadState F) (i : nat) :
  CollectTiles TiledMap Now QuadSize NumVerticesForRadius = Some tiles ->
  RunRounds TiledMap before (StartDownload tiles Pending) = Some s ->
  DownloadLoop TiledMap rest s = Some s' ->
  i ∈ FilesDownloaded s ->
  i ∈ FilesDownloaded s' /\ Files s' !! i = Files s !! i.
Proof.
  intros Htiles Hbefore Hrest Hi.
  pose proof (RunRounds_WellFormed TiledMap tiles before _ _
                (WellFormed_StartDownload tiles Pending) Hbefore) as Hwf.
  pose proof (RunRounds_PendingUnfinished TiledMap before _ _
                (PendingUnfinished_CollectTiles TiledMap Now Pending QuadSize
                   NumVerticesForRadius tiles Htiles) Hbefore) as Hun.
  assert (Hdone : DownloadedSucceeded s).
  { destruct (FilesToDownload s) eqn:Hp.
    - apply (DownloadLoop_DownloadedSucceeded TiledMap tiles before _ s
               (WellFormed_StartDownload tiles Pending)
               (PendingUnfinished_CollectTiles TiledMap Now Pending QuadSize
                  NumVerticesForRadius tiles Htiles)
               (DownloadedSucceeded_StartDownload tiles Pending)).
      apply RunRounds_DownloadLoop; assumption.
    - apply (DownloadLoop_DownloadedSucceeded TiledMap tiles
               (before ++ [{| ReceivedUserCancel := true;
                              Worlds := fun _ => WaitingWorld |}]) _ s
               (WellFormed_StartDownload tiles Pending)
               (PendingUnfinished_CollectTiles TiledMap Now Pending QuadSize
                  NumVerticesForRadius tiles Htiles)
               (DownloadedSucceeded_StartDownload tiles Pending)).
      rewrite (DownloadLoop_RunRounds TiledMap before _ _ s Hbefore).
      cbn [DownloadLoop]. rewrite Hp. reflexivity. }
  exact (proj2 (DownloadLoop_DownloadedSucceeded TiledMap tiles rest s s'
                  Hwf Hun Hdone Hrest) i Hi).
Qed.

Lemma DownloadLoop_keeps_downloaded_witness :
  exists s s',
    RunRounds (F := Binary32.float) (E := FoldedEngine) SmallMap
      [CachedRound; WaitingRound] (StartDownload NineTiles 0) = Some s
    /\ DownloadLoop (E := FoldedEngine) SmallMap [FailingRound] s = Some s'
    /\ 0%nat ∈ FilesDownloaded s' /\ Files s' !! 0%nat = Files s !! 0%nat.
Proof.
  eexists. eexists. split; [ vm_compute; reflexivity | ].
  split; [ vm_compute; reflexivity | ].
  apply (DownloadLoop_keeps_downloaded (F := Binary32.float) (E := FoldedEngine)
           SmallMap 0 0 (of_int 4) 2 NineTiles [CachedRound; WaitingRound]
           [FailingRound]).
  - vm_compute. reflexivity.
  - vm_compute. reflexivity.
  - vm_compute. reflexivity.
  - left.
Defined.

(** ** The tiles collected *)

Lemma GridCells_elem_inv (MinX MaxX MinY MaxY x y : Z) :
  (x, y) ∈ GridCells MinX MaxX MinY MaxY ->
  MinX <= x <= MaxX /\ MinY <= y <= MaxY.
Proof.
  unfold GridCells. intros Hin.
  apply list_elem_of_bind in Hin as (y' & Hin & Hy).
  apply list_elem_of_bind in Hin as (x' & Hin & Hx).
  apply list_elem_of_singleton in Hin. injection Hin as -> ->.
  apply elem_of_seqZ in Hx, Hy. lia.
Qed.

Lemma NoDup_GridCells (MinX MaxX MinY MaxY : Z) :
  NoDup (GridCells MinX MaxX MinY MaxY).
Proof.
  unfold GridCells. apply NoDup_bind.
  - intros y1 y2 p _ _ H1 H2.
    apply list_elem_of_bind in H1 as (x1 & H1 & _).
    apply list_elem_of_bind in H2 as (x2 & H2 & _).
    apply list_elem_of_singleton in H1, H2. congruence.
  - intros y _. apply NoDup_bind.
    + intros x1 x2 p _ _ H1 H2.
      apply list_elem_of_singleton in H1, H2. congruence.
    + intros x _. apply NoDup_singleton.
    + apply NoDup_seqZ.
  - apply NoDup_seqZ.
Qed.

Lemma to_int32_range (z : Z) : - 2 ^ 31 <= to_int32 z < 2 ^ 31.
Proof. unfold to_int32. pose proof (Z.mod_pos_bound (z + 2 ^ 31) (2 ^ 32)). lia. Qed.

Lemma to_uint32_small (z : Z) : 0 <= z < 2 ^ 32 -> to_uint32 z = z.
Proof. intros Hz. unfold to_uint32. apply Z.mod_small. exact Hz. Qed.

(** X9. The tiles [LoadElevationData] collects have coordinates that lie
    on the map of the last level, all carry that level, and no two of them
    have the same coordinates: no tile is asked for twice. *)
Theorem CollectTiles_keys {F} {A : Arith F} {E : Engine F} (TiledMap : FTiledMap)
  (Now : Z) (QuadSize : F) (NumVerticesForRadius : Z)
  (tiles : list (FCachedElevationFile F)) :
  1 <= NumLevels TiledMap <= 31 ->
  CollectTiles TiledMap Now QuadSize NumVerticesForRadius = Some tiles ->
  (forall t, t ∈ tiles ->
     0 <= TileX t < 2 ^ (NumLevels TiledMap - 1)
     /\ 0 <= TileY t < 2 ^ (NumLevels TiledMap - 1)
     /\ TileZ t = NumLevels TiledMap - 1)
  /\ (forall i j ti tj,
        tiles !! i = Some ti -> tiles !! j = Some tj ->
        TileX ti = TileX tj -> TileY ti = TileY tj -> i = j).
Proof.
  intros HL Hc. unfold CollectTiles in Hc.
  destruct (ToEPSG3857 (SouthWest QuadSize NumVerticesForRadius)) as [WS | ];
    [ | discriminate ].
  destruct (ToEPSG3857 (NorthEast QuadSize NumVerticesForRadius)) as [EN | ];
    [ | discriminate ].
  assert (HLevel : LevelIndex TiledMap = NumLevels TiledMap - 1).
  { unfold LevelIndex. apply to_uint32_small. lia. }
  rewrite HLevel in Hc.
  set (L := NumLevels TiledMap - 1) in *.
  assert (HNum : to_int32 (to_int32 (Z.shiftl 1 L) - 1) = 2 ^ L - 1).
  { rewrite Z.shiftl_1_l.
    assert (1 <= 2 ^ L <= 2 ^ 30).
    { split; [ apply (Z.pow_le_mono_r 2 0 L); lia
             | apply Z.pow_le_mono_r; lia ]. }
    rewrite (to_int32_small (2 ^ L)) by lia.
    apply to_int32_small. lia. }
  rewrite HNum in Hc.
  match type of Hc with
  | Some (map _ (GridCells ?a ?b ?c ?d)) = _ =>
      set (MinX := a) in Hc; set (MaxX := b) in Hc;
      set (MinY := c) in Hc; set (MaxY := d) in Hc
  end.
  assert (HX : 0 <= MinX /\ MaxX <= 2 ^ L - 1) by (unfold MinX, MaxX; lia).
  assert (HY : 0 <= MinY /\ MaxY <= 2 ^ L - 1) by (unfold MinY, MaxY; lia).
  assert (HLpow : 2 ^ L <= 2 ^ 30) by (apply Z.pow_le_mono_r; lia).
  injection Hc as <-.
  assert (Hcell : forall XY, XY ∈ GridCells MinX MaxX MinY MaxY ->
            0 <= fst XY < 2 ^ L /\ 0 <= snd XY < 2 ^ L).
  { intros [x y] Hin. apply GridCells_elem_inv in Hin. cbn [fst snd]. lia. }
  split.
  - intros t Ht. apply list_elem_of_In, in_map_iff in Ht as (XY & <- & Hin).
    apply list_elem_of_In in Hin. destruct (Hcell XY Hin) as [Hx Hy].
    cbn [TileX TileY TileZ NewCachedElevationFile].
    rewrite !to_uint32_small by lia. lia.
  - intros i j ti tj Hi Hj Hx Hy.
    change (map ?f ?l) with (f <$> l) in Hi, Hj.
    rewrite list_lookup_fmap in Hi, Hj.
    destruct (GridCells MinX MaxX MinY MaxY !! i) as [[xi yi] | ] eqn:Hci;
      [ | discriminate ].
    destruct (GridCells MinX MaxX MinY MaxY !! j) as [[xj yj] | ] eqn:Hcj;
      [ | discriminate ].
    injection Hi as <-. injection Hj as <-.
    cbn [TileX TileY NewCachedElevationFile fst snd] in Hx, Hy.
    pose proof (Hcell _ (list_elem_of_lookup_2 _ _ _ Hci)) as Hri.
    pose proof (Hcell _ (list_elem_of_lookup_2 _ _ _ Hcj)) as Hrj.
    cbn [fst snd] in Hri, Hrj.
    rewrite !to_uint32_small in Hx, Hy by lia. subst xj yj.
    exact (NoDup_lookup _ i j _ (NoDup_GridCells MinX MaxX MinY MaxY) Hci Hcj).
Qed.

Lemma CollectTiles_keys_witness :
  CollectTiles (F := Binary32.float) (E := FoldedEngine) SmallMap 0 (of_int 4) 2
  = Some NineTiles
  /\ (forall t, t ∈ NineTiles ->
        0 <= TileX t < 2 ^ (NumLevels SmallMap - 1)
        /\ 0 <= TileY t < 2 ^ (NumLevels SmallMap - 1)
        /\ TileZ t = NumLevels SmallMap - 1)
  /\ (forall i j ti tj,
        NineTiles !! i = Some ti -> NineTiles !! j = Some tj ->
        TileX ti = TileX tj -> TileY ti = TileY tj -> i = j).
Proof.
  split; [ vm_compute; reflexivity | ].
  apply (CollectTiles_keys (F := Binary32.float) (E := FoldedEngine) SmallMap 0
           (of_int 4) 2 NineTiles).
  - cbn. lia.
  - vm_compute. reflexivity.
Defined.

(** ** GetTile *)

Lemma FindTile_sound {F} (AllFiles : list (FCachedElevationFile F))
  (XY : FIntPoint) (Level : Z) (t : FCachedElevationFile F) :
  forall Downloaded : list nat,
    FindTile AllFiles Downloaded XY Level = Some t ->
    exists i, i ∈ Downloaded /\ AllFiles !! i = Some t
              /\ TileX t = to_uint32 (IntX XY)
              /\ TileY t = to_uint32 (IntY XY)
              /\ TileZ t = Level.
Proof.
  induction Downloaded as [ | id rest IH ]; intros Hfind; [ discriminate | ].
  cbn [FindTile] in Hfind.
  assert (Hrest : FindTile AllFiles rest XY Level = Some t ->
                  exists i, i ∈ id :: rest /\ AllFiles !! i = Some t
                            /\ TileX t = to_uint32 (IntX XY)
                            /\ TileY t = to_uint32 (IntY XY)
                            /\ TileZ t = Level).
  { intros H. destruct (IH H) as (i & Hi & Hrest). exists i.
    split; [ right; exact Hi | exact Hrest ]. }
  destruct (AllFiles !! id) as [u | ] eqn:Hu; [ | exact (Hrest Hfind) ].
  destruct ((TileX u =? to_uint32 (IntX XY)) && (TileY u =? to_uint32 (IntY XY))
            && (TileZ u =? Level)) eqn:Hkey; [ | exact (Hrest Hfind) ].
  injection Hfind as <-.
  apply andb_true_iff in Hkey as [Hkey Hz].
  apply andb_true_iff in Hkey as [Hx Hy].
  apply Z.eqb_eq in Hx, Hy, Hz.
  exists id. split; [ left | ]. repeat split; assumption.
Qed.

(** X10. Whatever [GetTile] returns after [LoadElevationData] is a tile of
    [FilesDownloaded] with the coordinates and the level asked for, and it
    has succeeded and has not failed; a tile that failed or was cancelled
    is never returned. *)
Theorem GetTile_sound {F} {A : Arith F} {E : Engine F}
  (TiledMap : FTiledMap) (Now Pending : Z) (QuadSize : F)
  (NumVerticesForRadius : Z) (rounds : list Round) (ok : bool) (s : LoadState F)
  (XY : FIntPoint) (Level : Z) (t : FCachedElevationFile F) :
  LoadElevationData TiledMap Now Pending QuadSize NumVerticesForRadius rounds
  = Some (ok, s) ->
  GetTile s XY Level = Some t ->
  TileX t = to_uint32 (IntX XY) /\ TileY t = to_uint32 (IntY XY) /\ TileZ t = Level
  /\ Succeeded t = true /\ Failed t = false
  /\ exists i, i ∈ FilesDownloaded s /\ Files s !! i = Some t.
Proof.
  intros Hload Hget. unfold GetTile in Hget.
  destruct (FindTile_sound _ _ _ _ _ Hget) as (i & Hi & Ht & Hx & Hy & Hz).
  split; [ exact Hx | ]. split; [ exact Hy | ]. split; [ exact Hz | ].
  assert (Hdone : DownloadedSucceeded s).
  { unfold LoadElevationData in Hload.
    destruct (CollectTiles TiledMap Now QuadSize NumVerticesForRadius) as [tiles | ]
      eqn:Htiles.
    - destruct (DownloadLoop TiledMap rounds (StartDownload tiles Pending)) as [s' | ]
        eqn:Hloop; [ | discriminate ].
      injection Hload as _ <-.
      exact (proj1 (DownloadLoop_DownloadedSucceeded TiledMap tiles rounds _ _
                      (WellFormed_StartDownload tiles Pending)
                      (PendingUnfinished_CollectTiles TiledMap Now Pending QuadSize
                         NumVerticesForRadius tiles Htiles)
                      (DownloadedSucceeded_StartDownload tiles Pending) Hloop)).
    - injection Hload as _ <-. apply DownloadedSucceeded_StartDownload. }
  destruct (Hdone i t Hi Ht) as [Hs Hf].
  split; [ exact Hs | ]. split; [ exact Hf | ].
  exists i. split; assumption.
Qed.

Lemma GetTile_sound_witness :
  exists s t,
    LoadElevationData (F := Binary32.float) (E := FoldedEngine) SmallMap 0 0 (of_int 4) 2
      [CachedRound; WaitingRound; FailingRound] = Some (false, s)
    /\ GetTile s {| IntX := 7; IntY := 7 |} 4 = Some t
    /\ TileX t = to_uint32 7 /\ TileY t = to_uint32 7 /\ TileZ t = 4
    /\ Succeeded t = true /\ Failed t = false
    /\ exists i, i ∈ FilesDownloaded s /\ Files s !! i = Some t.
Proof.
  eexists. eexists. split; [ vm_compute; reflexivity | ].
  split; [ vm_compute; reflexivity | ].
  apply (GetTile_sound (F := Binary32.float) (E := FoldedEngine)
           SmallMap 0 0 (of_int 4) 2 [CachedRound; WaitingRound; FailingRound]
           false _ {| IntX := 7; IntY := 7 |} 4).
  - vm_compute. reflexivity.
  - vm_compute. reflexivity.
Defined.

(** ** The samples of a tile *)

Lemma UnpackPixels_length {F} {A : Arith F} (count : nat) :
  forall (Data : list Z) (Min Max : F),
    length (fst (fst (UnpackPixels count Data Min Max))) = count.
Proof.
  induction count as [ | count IH ]; intros Data Min Max; [ reflexivity | ].
  rewrite UnpackPixels_values. cbn [length]. rewrite IH. reflexivity.
Qed.

Lemma UnpackElevation_true {F} {A : Arith F} {E : Engine F}
  (TiledMap : FTiledMap) (RawData : list Z) (t t' : FCachedElevationFile F) :
  0 <= TileWidth TiledMap * TileHeight TiledMap < 2 ^ 31 ->
  UnpackElevation TiledMap RawData t = (true, t') ->
  exists Png,
    SetCompressed RawData = Some Png
    /\ Width Png = TileWidth TiledMap /\ Height Png = TileHeight TiledMap
    /\ Format Png = RGBA /\ BitDepth Png = 8
    /\ match Raw Png with
       | Some RawPNG =>
           HasSamples TiledMap t'
           /\ forall i : nat,
                (i < length (Elevation t'))%nat ->
                Elevation t' !! i = Some (UnpackPixel (drop (4 * i) RawPNG))
       | None => t' = t
       end.
Proof.
  intros Hsize Hun. unfold UnpackElevation in Hun.
  destruct (SetCompressed RawData) as [Png | ]; [ | discriminate ].
  exists Png. split; [ reflexivity | ].
  destruct (negb (Width Png =? TileWidth TiledMap)
            || negb (Height Png =? TileHeight TiledMap)) eqn:Hdim; [ discriminate | ].
  destruct (negb (ERGBFormat_eqb (Format Png) RGBA) || negb (BitDepth Png =? 8))
    eqn:Hfmt; [ discriminate | ].
  apply orb_false_elim in Hdim as [Hw Hh].
  apply orb_false_elim in Hfmt as [Hf Hb].
  apply negb_false_iff in Hw, Hh, Hf, Hb.
  apply Z.eqb_eq in Hw, Hh, Hb. apply ERGBFormat_eqb_eq in Hf.
  repeat (split; [ assumption | ]).
  destruct (Raw Png) as [RawPNG | ]; [ | injection Hun as <-; reflexivity ].
  rewrite Hw, Hh, to_int32_small in Hun by lia.
  set (count := Z.to_nat (TileWidth TiledMap * TileHeight TiledMap)) in *.
  pose proof (UnpackPixels_length count RawPNG (ElevationMin t) (ElevationMax t)) as Hlen.
  assert (Hval : forall (n : nat) (Data : list Z) (Min Max : F) (i : nat),
            (i < n)%nat ->
            fst (fst (UnpackPixels n Data Min Max)) !! i
            = Some (UnpackPixel (drop (4 * i) Data))).
  { induction n as [ | n IH ]; intros Data Min Max i Hi; [ lia | ].
    rewrite UnpackPixels_values. destruct i as [ | i ]; [ reflexivity | ].
    cbn [lookup list_lookup]. rewrite IH by lia.
    rewrite drop_drop. do 3 f_equal. lia. }
  pose proof (Hval count RawPNG (ElevationMin t) (ElevationMax t)) as Hvals.
  destruct (UnpackPixels count RawPNG (ElevationMin t) (ElevationMax t))
    as [[Values Min] Max].
  injection Hun as <-. cbn [fst] in Hlen, Hvals. unfold HasSamples.
  cbn [Elevation]. split.
  - rewrite Hlen. unfold count. apply Z2Nat.id. lia.
  - intros i Hi. apply Hvals. lia.
Qed.

(** X11. [UnpackElevation] returns true only for an image that the wrapper
    accepts with the width and the height of the tiles of the map, in RGBA
    with 8 bits. The tile then holds one elevation per pixel, each the
    decoding of its four bytes, unless [GetRaw] fails: in that case the
    call still returns true and the tile is as before. *)
Theorem UnpackElevation_success {F} {A : Arith F} {E : Engine F}
  (TiledMap : FTiledMap) (RawData : list Z) (t t' : FCachedElevationFile F) :
  0 <= TileWidth TiledMap * TileHeight TiledMap < 2 ^ 31 ->
  UnpackElevation TiledMap RawData t = (true, t') ->
  exists Png,
    SetCompressed RawData = Some Png
    /\ Width Png = TileWidth TiledMap /\ Height Png = TileHeight TiledMap
    /\ Format Png = RGBA /\ BitDepth Png = 8
    /\ match Raw Png with
       | Some RawPNG =>
           HasSamples TiledMap t'
           /\ forall i : nat,
                (i < length (Elevation t'))%nat ->
                Elevation t' !! i = Some (UnpackPixel (drop (4 * i) RawPNG))
       | None => t' = t
       end.
Proof. apply UnpackElevation_true. Qed.

Lemma UnpackElevation_success_witness :
  exists t',
    UnpackElevation (F := Binary32.float) (E := FoldedEngine) SmallMap OnePixelFile
      (NewCachedElevationFile 0 7 7 4) = (true, t')
    /\ exists Png,
         SetCompressed (Engine := FoldedEngine (F := Binary32.float)) OnePixelFile
         = Some Png
         /\ Width Png = TileWidth SmallMap /\ Height Png = TileHeight SmallMap
         /\ Format Png = RGBA /\ BitDepth Png = 8
         /\ match Raw Png with
            | Some RawPNG =>
                HasSamples SmallMap t'
                /\ forall i : nat,
                     (i < length (Elevation t'))%nat ->
                     Elevation t' !! i = Some (UnpackPixel (drop (4 * i) RawPNG))
            | None => t' = NewCachedElevationFile 0 7 7 4
            end.
Proof.
  eexists. split; [ vm_compute; reflexivity | ].
  apply (UnpackElevation_success (F := Binary32.float) (E := FoldedEngine) SmallMap
           OnePixelFile (NewCachedElevationFile 0 7 7 4)).
  - cbn. lia.
  - vm_compute. reflexivity.
Defined.

Lemma UnpackElevation_samples {F} {A : Arith F} {E : Engine F}
  (TiledMap : FTiledMap) (RawData : list Z) (t t' : FCachedElevationFile F) :
  CodecDeliversRaw ->
  0 <= TileWidth TiledMap * TileHeight TiledMap < 2 ^ 31 ->
  UnpackElevation TiledMap RawData t = (true, t') ->
  HasSamples TiledMap t'.
Proof.
  intros Hraw Hsize Hun.
  destruct (UnpackElevation_true TiledMap RawData t t' Hsize Hun)
    as (Png & Hpng & _ & _ & _ & _ & Hres).
  pose proof (Hraw RawData Png Hpng) as Hsome.
  destruct (Raw Png); [ exact (proj1 Hres) | congruence ].
Qed.

Lemma HasSamples_flags {F} (TiledMap : FTiledMap) (t : FCachedElevationFile F)
  (a b c : bool) :
  HasSamples TiledMap (with_flags t a b c) <-> HasSamples TiledMap t.
Proof. reflexivity. Qed.

Lemma TickInitialized_finished {F} {A : Arith F} {E : Engine F}
  (TiledMap : FTiledMap) (w : World) (t : FCachedElevationFile F) (n : Z) :
  HasFinished t = true -> TickInitialized TiledMap w (t, n) = (t, n).
Proof. intros Hfin. unfold TickInitialized. unfold HasFinished in Hfin. rewrite Hfin. reflexivity. Qed.

Lemma TickInitialized_samples {F} {A : Arith F} {E : Engine F}
  (TiledMap : FTiledMap) (w : World) (t : FCachedElevationFile F) (n : Z) :
  CodecDeliversRaw ->
  0 <= TileWidth TiledMap * TileHeight TiledMap < 2 ^ 31 ->
  (GetStatus w = Status_Succeeded -> GetResponse w <> None) ->
  HasFinished t = false ->
  Succeeded (fst (TickInitialized TiledMap w (t, n))) = true ->
  HasSamples TiledMap (fst (TickInitialized TiledMap w (t, n))).
Proof.
  intros Hraw Hsize Hresp Hun. unfold TickInitialized.
  assert (Hs : WasDownloadSuccessful t = false)
    by (unfold HasFinished in Hun; apply orb_false_elim in Hun as [H _]; exact H).
  unfold HasFinished in Hun. rewrite Hun.
  destruct (10 <? GetSeconds (TimeSpan t)).
  { cbn [fst]. unfold Succeeded. cbn. congruence. }
  set (t2 := set_TimeSpan t (UtcNow w - StartTime t)).
  assert (Hs2 : WasDownloadSuccessful t2 = false) by exact Hs.
  destruct (GetStatus w) eqn:Hstatus; cbn [fst]; unfold Succeeded;
    try (cbn; congruence).
  specialize (Hresp eq_refl).
  unfold OnDownloadSucceeded.
  destruct (GetResponse w) as [Content | ]; [ | congruence ].
  pose proof (UnpackElevation_flags TiledMap Content t2) as [Hf _].
  destruct (UnpackElevation TiledMap Content t2) as [ok t3] eqn:Hunp.
  cbn [snd] in Hf. destruct ok; cbn [negb fst].
  - intros _. apply HasSamples_flags.
    exact (UnpackElevation_samples TiledMap Content t2 t3 Hraw Hsize Hunp).
  - cbn. congruence.
Qed.

(** A tile that succeeds in a call of [Tick] holds its samples, when the
    codec delivers the pixels and the response is valid if the request
    has succeeded. *)
Lemma Tick_samples {F} {A : Arith F} {E : Engine F}
  (TiledMap : FTiledMap) (w : World) (t : FCachedElevationFile F) (n : Z) :
  CodecDeliversRaw ->
  0 <= TileWidth TiledMap * TileHeight TiledMap < 2 ^ 31 ->
  (GetStatus w = Status_Succeeded -> GetResponse w <> None) ->
  HasFinished t = false ->
  Succeeded (fst (Tick TiledMap w (t, n))) = true ->
  HasSamples TiledMap (fst (Tick TiledMap w (t, n))).
Proof.
  intros Hraw Hsize Hresp Hun. unfold Tick.
  assert (Hs : WasDownloadSuccessful t = false)
    by (unfold HasFinished in Hun; apply orb_false_elim in Hun as [H _]; exact H).
  destruct (negb (WasInitialized t));
    [ | apply TickInitialized_samples; assumption ].
  destruct (MaxNumPendingDownloads <=? n); [ cbn [fst]; unfold Succeeded; congruence | ].
  unfold Initialize.
  set (t0 := set_StartTime (set_WasInitialized t) (UtcNow w)).
  assert (H0 : HasFinished t0 = false) by exact Hun.
  assert (Hdown : forall t1 : FCachedElevationFile F,
            HasFinished t1 = false ->
            Succeeded (fst (TickInitialized TiledMap w (DownloadFile w (t1, n)))) = true ->
            HasSamples TiledMap
              (fst (TickInitialized TiledMap w (DownloadFile w (t1, n))))).
  { intros t1 H1. unfold DownloadFile.
    destruct (ProcessRequest w).
    - apply TickInitialized_samples; assumption.
    - rewrite TickInitialized_finished
        by (unfold HasFinished; cbn; apply orb_true_r).
      cbn [fst]. unfold Succeeded. cbn.
      unfold HasFinished in H1. apply orb_false_elim in H1 as [H1 _]. congruence. }
  destruct (LoadFileToArray w) as [RawData | ]; [ | apply Hdown; exact H0 ].
  pose proof (UnpackElevation_flags TiledMap RawData t0) as [Hf1 Hf2].
  destruct (UnpackElevation TiledMap RawData t0) as [ok t1] eqn:Hunp.
  cbn [snd] in Hf1, Hf2.
  destruct ok.
  - rewrite TickInitialized_finished by reflexivity.
    cbn [fst]. intros _. apply HasSamples_flags.
    exact (UnpackElevation_samples TiledMap RawData t0 t1 Hraw Hsize Hunp).
  - apply Hdown. unfold HasFinished in *. rewrite Hf1, Hf2. exact H0.
Qed.

Lemma DownloadRound_samples {F} {A : Arith F} {E : Engine F}
  (TiledMap : FTiledMap) (tiles : list (FCachedElevationFile F)) (r : Round)
  (s : LoadState F) :
  CodecDeliversRaw ->
  0 <= TileWidth TiledMap * TileHeight TiledMap < 2 ^ 31 ->
  (forall id, GetStatus (Worlds r id) = Status_Succeeded ->
              GetResponse (Worlds r id) <> None) ->
  WellFormed tiles s -> PendingUnfinished s ->
  (forall i t, i ∈ FilesDownloaded s -> Files s !! i = Some t -> HasSamples TiledMap t) ->
  forall i t, i ∈ FilesDownloaded (DownloadRound TiledMap r s) ->
              Files (DownloadRound TiledMap r s) !! i = Some t -> HasSamples TiledMap t.
Proof.
  intros Hraw Hsize Hresp Hwf Hun Hdone. unfold DownloadRound.
  destruct (TickFiles TiledMap r (FilesToDownload s) s) as [s' fin] eqn:Hrun.
  cbn [fst].
  destruct (TickFiles_downloaded TiledMap r (FilesToDownload s) s s' fin
              ltac:(auto) Hun Hrun) as [Hkeep Hadd].
  assert (Hdisj : forall i, i ∈ FilesDownloaded s -> i ∉ FilesToDownload s).
  { pose proof (wf_NoDup _ _ Hwf) as Hnd.
    apply NoDup_app in Hnd as (_ & Hdisj & _). exact Hdisj. }
  intros i t Hi Ht.
  destruct Hadd as [Heq | (id & t' & Heq & Hid & Hlook & Hs & Hf & t0 & n & H0 & Hfrom)].
  - rewrite Heq in Hi. rewrite (Hkeep i (Hdisj i Hi)) in Ht. exact (Hdone i t Hi Ht).
  - rewrite Heq in Hi. apply elem_of_app in Hi as [Hi | Hi].
    + rewrite (Hkeep i (Hdisj i Hi)) in Ht. exact (Hdone i t Hi Ht).
    + apply list_elem_of_singleton in Hi as ->.
      rewrite Hlook in Ht. injection Ht as <-. subst t'.
      apply Tick_samples; try assumption. apply Hresp.
Qed.

Lemma DownloadLoop_samples {F} {A : Arith F} {E : Engine F}
  (TiledMap : FTiledMap) (tiles : list (FCachedElevationFile F))
  (rounds : list Round) :
  CodecDeliversRaw ->
  0 <= TileWidth TiledMap * TileHeight TiledMap < 2 ^ 31 ->
  ResponsesValid rounds ->
  forall s s' : LoadState F,
    WellFormed tiles s -> PendingUnfinished s ->
    (forall i t, i ∈ FilesDownloaded s -> Files s !! i = Some t -> HasSamples TiledMap t) ->
    DownloadLoop TiledMap rounds s = Some s' ->
    forall i t, i ∈ FilesDownloaded s' -> Files s' !! i = Some t -> HasSamples TiledMap t.
Proof.
  intros Hraw Hsize. induction rounds as [ | r rounds IH ];
    intros Hresp s s' Hwf Hun Hdone Hrun; cbn [DownloadLoop] in Hrun.
  - destruct (FilesToDownload s); [ | discriminate ].
    injection Hrun as <-. exact Hdone.
  - destruct (FilesToDownload s) eqn:Hp; [ injection Hrun as <-; exact Hdone | ].
    destruct (ReceivedUserCancel r); [ injection Hrun as <-; exact Hdone | ].
    apply (IH ltac:(intros r' id Hr'; apply Hresp; right; exact Hr')
              (DownloadRound TiledMap r s) s'
              (DownloadRound_WellFormed TiledMap tiles r s Hwf)
              (DownloadRound_PendingUnfinished TiledMap r s Hun)); [ | exact Hrun ].
    apply (DownloadRound_samples TiledMap tiles r s Hraw Hsize); try assumption.
    intros id. apply Hresp. left.
Qed.

(** X13. When the codec delivers the pixels of every image it accepts and
    every request that succeeds has a valid response, each tile that
    [LoadElevationData] lists as downloaded holds one elevation for every
    pixel of a tile of the map. Nothing is assumed of the requests that
    are under way or have failed. *)
Theorem LoadElevationData_samples {F} {A : Arith F} {E : Engine F}
  (TiledMap : FTiledMap) (Now Pending : Z) (QuadSize : F)
  (NumVerticesForRadius : Z) (rounds : list Round) (ok : bool) (s : LoadState F) :
  CodecDeliversRaw ->
  ResponsesValid rounds ->
  0 <= TileWidth TiledMap * TileHeight TiledMap < 2 ^ 31 ->
  LoadElevationData TiledMap Now Pending QuadSize NumVerticesForRadius rounds
  = Some (ok, s) ->
  forall i t, i ∈ FilesDownloaded s -> Files s !! i = Some t -> HasSamples TiledMap t.
Proof.
  intros Hraw Hresp Hsize Hload. unfold LoadElevationData in Hload.
  destruct (CollectTiles TiledMap Now QuadSize NumVerticesForRadius) as [tiles | ]
    eqn:Htiles.
  - destruct (DownloadLoop TiledMap rounds (StartDownload tiles Pending)) as [s' | ]
      eqn:Hloop; [ | discriminate ].
    injection Hload as _ <-.
    apply (DownloadLoop_samples TiledMap tiles rounds Hraw Hsize Hresp _ s'
             (WellFormed_StartDownload tiles Pending)
             (PendingUnfinished_CollectTiles TiledMap Now Pending QuadSize
                NumVerticesForRadius tiles Htiles)); [ | exact Hloop ].
    intros i t Hi. inversion Hi.
  - injection Hload as _ <-. intros i t Hi. inversion Hi.
Qed.

(** X15. A request that succeeds without a valid response marks the tile
    as successful although no elevation has been unpacked: the samples,
    the minimum and the maximum of the tile are as before, and the request
    gives its slot back. *)
Theorem Tick_success_without_response {F} {A : Arith F} {E : Engine F}
  (TiledMap : FTiledMap) (w : World) (t : FCachedElevationFile F) (n : Z) :
  WasInitialized t = true ->
  HasFinished t = false ->
  GetSeconds (TimeSpan t) <= 10 ->
  GetStatus w = Status_Succeeded ->
  GetResponse w = None ->
  Succeeded (fst (Tick TiledMap w (t, n))) = true
  /\ Failed (fst (Tick TiledMap w (t, n))) = false
  /\ Elevation (fst (Tick TiledMap w (t, n))) = Elevation t
  /\ ElevationMin (fst (Tick TiledMap w (t, n))) = ElevationMin t
  /\ ElevationMax (fst (Tick TiledMap w (t, n))) = ElevationMax t
  /\ snd (Tick TiledMap w (t, n)) = to_int32 (n - 1).
Proof.
  intros Hinit Hun Htime Hstatus Hresp. unfold Tick. rewrite Hinit. cbn [negb].
  unfold TickInitialized. unfold HasFinished in Hun. rewrite Hun.
  replace (10 <? GetSeconds (TimeSpan t)) with false
    by (symmetry; apply Z.ltb_ge; exact Htime).
  rewrite Hstatus. unfold OnDownloadSucceeded. rewrite Hresp. cbn [fst snd].
  apply orb_false_elim in Hun as [_ Hf].
  repeat split. exact Hf.
Qed.

Lemma LoadElevationData_samples_witness :
  exists s t,
    LoadElevationData (F := Binary32.float) (E := FoldedEngine) SmallMap 0 0 (of_int 4) 2
      (WaitingRound :: replicate 9 DeliveredRound) = Some (true, s)
    /\ Files s !! 8%nat = Some t
    /\ HasSamples SmallMap t.
Proof.
  eexists. eexists. split; [ vm_compute; reflexivity | ].
  split; [ vm_compute; reflexivity | ].
  match goal with
  | |- HasSamples _ ?t =>
      apply (LoadElevationData_samples (F := Binary32.float) (E := FoldedEngine)
               SmallMap 0 0 (of_int 4) 2 (WaitingRound :: replicate 9 DeliveredRound)
               true _
               ltac:(intros bytes Png H;
                     destruct bytes as [ | ? [ | ? [ | ? [ | ? ? ] ] ] ];
                     try discriminate; injection H as <-; discriminate)
               ltac:(intros r id Hr Hstatus;
                     apply elem_of_cons in Hr as [-> | Hr];
                     [ discriminate
                     | apply elem_of_replicate in Hr as [-> _]; discriminate ])
               ltac:(cbn; lia)
               ltac:(vm_compute; reflexivity) 8%nat t)
  end.
  - vm_compute. repeat constructor.
  - vm_compute. reflexivity.
Defined.

(** Rounds in which no request has succeeded ask nothing of the
    responses. *)
Example ResponsesValid_without_success :
  ResponsesValid [CachedRound; WaitingRound; FailingRound].
Proof.
  intros r id Hr Hstatus.
  repeat (apply elem_of_cons in Hr as [-> | Hr]); [ | | | inversion Hr ];
    cbn in Hstatus; try discriminate.
  destruct (Nat.eqb id 1); discriminate.
Qed.

Lemma Tick_success_without_response_witness :
  Succeeded (fst (Tick (F := Binary32.float) (E := FoldedEngine) SmallMap
                    EmptyResponseWorld
                    (set_HttpRequest (set_WasInitialized (NewCachedElevationFile 0 7 7 4)),
                     1)))
  = true
  /\ Elevation (fst (Tick (F := Binary32.float) (E := FoldedEngine) SmallMap
                       EmptyResponseWorld
                       (set_HttpRequest
                          (set_WasInitialized (NewCachedElevationFile 0 7 7 4)), 1)))
     = [].
Proof.
  destruct (Tick_success_without_response (F := Binary32.float) (E := FoldedEngine)
              SmallMap EmptyResponseWorld
              (set_HttpRequest (set_WasInitialized (NewCachedElevationFile 0 7 7 4))) 1)
    as (H1 & _ & H3 & _).
  - reflexivity.
  - reflexivity.
  - vm_compute. discriminate.
  - reflexivity.
  - reflexivity.
  - split; [ exact H1 | exact H3 ].
Defined.

(** ** The samples read by SampleElevationLanczos *)

Lemma in_int32_true (z : Z) : - 2 ^ 31 <= z < 2 ^ 31 -> in_int32 z = true.
Proof.
  intros Hz. unfold in_int32. apply andb_true_iff.
  split; [ apply Z.leb_le | apply Z.ltb_lt ]; lia.
Qed.

(** For an exact number between two integers, the conversion is the
    floor and lies between them. *)
Lemma Exact_FloatToInt (x : Exact.number) (lo hi : Z) :
  0 <= lo -> hi < 2 ^ 31 ->
  fleb (of_int lo) x = true ->
  fltb x (of_int hi) = true ->
  exists z, FloatToInt x = Some z /\ lo <= z < hi.
Proof.
  intros Hlo Hhi Hle Hlt. destruct x as [a | ]; [ | discriminate ].
  cbn [fleb fltb exact of_int Exact.leb Exact.ltb] in Hle, Hlt.
  apply Qle_bool_iff in Hle.
  apply negb_true_iff in Hlt.
  assert (Hlt' : (a < inject_Z hi)%Q).
  { apply Qnot_le_lt. intros Hc. apply Qle_bool_iff in Hc. congruence. }
  assert (H0 : (0 <= a)%Q).
  { eapply Qle_trans; [ | exact Hle ].
    change 0%Q with (inject_Z 0). rewrite <- Zle_Qle. exact Hlo. }
  assert (Hfl : lo <= Qfloor a).
  { rewrite <- (Qfloor_Z lo). apply Qfloor_resp_le. exact Hle. }
  assert (Hfh : Qfloor a < hi).
  { rewrite Zlt_Qlt. eapply Qle_lt_trans; [ apply Qfloor_le | exact Hlt' ]. }
  exists (Qfloor a). split; [ | lia ].
  cbn [FloatToInt exact_cast].
  apply Qle_bool_iff in H0. rewrite H0.
  rewrite in_int32_true by lia. reflexivity.
Qed.

Lemma TapIndices_exact_in_bounds (TiledMap : FTiledMap)
  (PixelXY : Exact.number * Exact.number) :
  0 < TileWidth TiledMap < 2 ^ 31 ->
  0 < TileHeight TiledMap < 2 ^ 31 ->
  TileWidth TiledMap * TileHeight TiledMap < 2 ^ 32 ->
  InsideTile TiledMap PixelXY = true ->
  exists indices,
    TapIndices (to_uint32 (TileWidth TiledMap)) PixelXY = Some indices
    /\ length indices = 13%nat
    /\ Forall (fun i => 0 <= i < TileWidth TiledMap * TileHeight TiledMap) indices.
Proof.
  intros HW HH Hsize Hin. unfold InsideTile in Hin.
  apply andb_true_iff in Hin as [Hin Hy2].
  apply andb_true_iff in Hin as [Hin Hx2].
  apply andb_true_iff in Hin as [Hx1 Hy1].
  rewrite to_int32_small in Hx2, Hy2 by lia.
  destruct (Exact_FloatToInt (fst PixelXY) 2 (TileWidth TiledMap - 3)
              ltac:(lia) ltac:(lia) Hx1 Hx2) as (EX & HEX & HX).
  destruct (Exact_FloatToInt (snd PixelXY) 2 (TileHeight TiledMap - 3)
              ltac:(lia) ltac:(lia) Hy1 Hy2) as (EY & HEY & HY).
  unfold TapIndices. rewrite HEX, HEY.
  eexists. split; [ reflexivity | ]. split; [ reflexivity | ].
  rewrite to_uint32_small by lia.
  set (W := TileWidth TiledMap) in *. set (H := TileHeight TiledMap) in *.
  assert (Htap : forall dx dy, -2 <= dx <= 2 -> -2 <= dy <= 2 ->
            0 <= to_uint32 (W * (EY + dy) + EX + dx) < W * H).
  { intros dx dy Hdx Hdy.
    assert (Hlow : 0 <= W * (EY + dy)) by (apply Z.mul_nonneg_nonneg; lia).
    assert (Hhigh : W * (EY + dy) <= W * (H - 2)) by (apply Z.mul_le_mono_nonneg_l; lia).
    rewrite to_uint32_small by lia. lia. }
  unfold Taps, TapIndex. cbn [map IntX IntY].
  repeat constructor; apply Htap; lia.
Qed.

(** X19. Under the check that [ReprojectData] makes before it samples, the
    13 taps of [SampleElevationLanczos] all read inside the elevation
    array of a tile that holds its samples (pixel locations taken as
    exact numbers). *)
Theorem SampleElevationLanczos_reads_in_bounds (TiledMap : FTiledMap)
  (Tile : FCachedElevationFile Exact.number)
  (PixelXY : Exact.number * Exact.number) :
  0 < TileWidth TiledMap < 2 ^ 31 ->
  0 < TileHeight TiledMap < 2 ^ 31 ->
  TileWidth TiledMap * TileHeight TiledMap < 2 ^ 32 ->
  HasSamples TiledMap Tile ->
  InsideTile TiledMap PixelXY = true ->
  exists indices,
    TapIndices (to_uint32 (TileWidth TiledMap)) PixelXY = Some indices
    /\ length indices = 13%nat
    /\ Forall (fun i => 0 <= i /\ is_Some (Elevation Tile !! Z.to_nat i)) indices.
Proof.
  intros HW HH Hsize Hsamples Hin.
  destruct (TapIndices_exact_in_bounds TiledMap PixelXY HW HH Hsize Hin)
    as (indices & Htaps & Hlen & Hall).
  exists indices. split; [ exact Htaps | ]. split; [ exact Hlen | ].
  eapply Forall_impl; [ exact Hall | ].
  intros i Hi. cbn beta in Hi. split; [ lia | ].
  apply lookup_lt_is_Some_2. unfold HasSamples in Hsamples. lia.
Qed.

Lemma SampleElevationLanczos_reads_in_bounds_witness :
  exists indices,
    TapIndices (to_uint32 (TileWidth FlatMap)) (Some (5 # 2), Some (2 # 1))%Q
    = Some indices
    /\ length indices = 13%nat
    /\ Forall (fun i => 0 <= i
                        /\ is_Some (Elevation (FlatTile (F := Exact.number))
                                      !! Z.to_nat i)) indices.
Proof.
  apply (SampleElevationLanczos_reads_in_bounds FlatMap (FlatTile (F := Exact.number))
           (Some (5 # 2), Some (2 # 1))%Q).
  - cbn. lia.
  - cbn. lia.
  - cbn. lia.
  - vm_compute. reflexivity.
  - vm_compute. reflexivity.
Defined.

(** ** The layout of the heights and of the weights *)

Lemma NumPixels_square (N : Z) :
  0 <= N -> 4 * N * N < 2 ^ 31 ->
  NumPixels N = (Z.to_nat (2 * N) * Z.to_nat (2 * N))%nat.
Proof.
  intros HN Hsize. unfold NumPixels.
  assert (H2N : 0 <= 2 * N < 2 ^ 31) by nia.
  replace (N * 2) with (2 * N) by lia.
  rewrite (to_int32_small (2 * N)) by lia.
  rewrite to_int32_small by nia.
  rewrite Z2Nat.inj_mul by lia. reflexivity.
Qed.

Lemma PixelIndex_value (N X Y : Z) :
  0 <= N -> 4 * N * N < 2 ^ 31 ->
  - N <= X < N -> - N <= Y < N ->
  PixelIndex N X Y
  = (Z.to_nat (Y + N) * Z.to_nat (2 * N) + Z.to_nat (X + N))%nat.
Proof.
  intros HN Hsize HX HY. unfold PixelIndex.
  replace (N * 2) with (2 * N) by lia.
  rewrite (to_int32_small (2 * N)) by nia.
  rewrite to_int32_small by nia.
  rewrite <- Z.add_assoc, Z2Nat.inj_add, Z2Nat.inj_mul by nia. reflexivity.
Qed.

Lemma PixelIndex_bound (N X Y : Z) :
  0 <= N -> 4 * N * N < 2 ^ 31 ->
  - N <= X < N -> - N <= Y < N ->
  (PixelIndex N X Y < NumPixels N)%nat.
Proof.
  intros HN Hsize HX HY.
  rewrite PixelIndex_value, NumPixels_square by assumption.
  assert (Hx : (Z.to_nat (X + N) < Z.to_nat (2 * N))%nat) by lia.
  assert (Hy : (Z.to_nat (Y + N) < Z.to_nat (2 * N))%nat) by lia.
  nia.
Qed.

(** The rows that are not cancelled give their cells one after the
    other. *)
Lemma ReprojectRows_cells {F} {A : Arith F} {E : Engine F} {Sa : Sampler F}
  (TiledMap : FTiledMap) (QuadSize : F) (s : LoadState F) (N : Z)
  (Cancel : Z -> bool) (Rows : list Z) :
  forall cells,
    ReprojectRows TiledMap QuadSize s N Cancel Rows = Some cells ->
    Forall (fun Y => Cancel Y = false) Rows
    /\ length cells = (length Rows * Z.to_nat (2 * N))%nat
    /\ forall (j : nat) (Y : Z) (i : nat),
         Rows !! j = Some Y -> (i < Z.to_nat (2 * N))%nat ->
         cells !! (j * Z.to_nat (2 * N) + i)%nat
         = Some (ReprojectCell TiledMap QuadSize s (- N + Z.of_nat i) Y).
Proof.
  induction Rows as [ | Y0 Rows IH ]; intros cells Hrun; cbn [ReprojectRows] in Hrun.
  - injection Hrun as <-. split; [ constructor | ]. split; [ reflexivity | ].
    intros j Y i Hj. discriminate.
  - destruct (Cancel Y0) eqn:Hc; [ discriminate | ].
    destruct (ReprojectRows TiledMap QuadSize s N Cancel Rows) as [rest | ] eqn:Hrest;
      [ | discriminate ].
    cbn in Hrun. injection Hrun as <-.
    destruct (IH rest eq_refl) as (Hall & Hlen & Hcells).
    set (Row := map (fun X => ReprojectCell TiledMap QuadSize s X Y0)
                    (seqZ (- N) (2 * N))).
    assert (HRow : length Row = Z.to_nat (2 * N))
      by (unfold Row; rewrite length_map, length_seqZ; reflexivity).
    split; [ constructor; assumption | ].
    split; [ rewrite length_app, HRow, Hlen; cbn [length]; lia | ].
    intros j Y i Hj Hi. destruct j as [ | j ].
    + injection Hj as <-. cbn [Nat.mul Nat.add].
      rewrite lookup_app_l by (rewrite HRow; exact Hi).
      unfold Row. change (map ?f ?l) with (f <$> l).
      rewrite list_lookup_fmap, lookup_seqZ_lt by lia. reflexivity.
    + cbn [lookup list_lookup] in Hj.
      rewrite lookup_app_r by (rewrite HRow; lia).
      rewrite HRow.
      replace (S j * Z.to_nat (2 * N) + i - Z.to_nat (2 * N))%nat
        with (j * Z.to_nat (2 * N) + i)%nat by lia.
      exact (Hcells j Y i Hj Hi).
Qed.

Lemma ReprojectRows_cancelled {F} {A : Arith F} {E : Engine F} {Sa : Sampler F}
  (TiledMap : FTiledMap) (QuadSize : F) (s : LoadState F) (N : Z)
  (Cancel : Z -> bool) (Rows : list Z) :
  ReprojectRows TiledMap QuadSize s N Cancel Rows = None ->
  exists Y, Y ∈ Rows /\ Cancel Y = true.
Proof.
  induction Rows as [ | Y0 Rows IH ]; cbn [ReprojectRows]; [ discriminate | ].
  destruct (Cancel Y0) eqn:Hc; [ intros _; exists Y0; split; [ left | exact Hc ] | ].
  destruct (ReprojectRows TiledMap QuadSize s N Cancel Rows) as [rest | ];
    [ discriminate | ].
  intros _. destruct (IH eq_refl) as (Y & HY & HcY).
  exists Y. split; [ right; exact HY | exact HcY ].
Qed.

Lemma ReprojectData_cells {F} {A : Arith F} {E : Engine F} {Sa : Sampler F}
  (TiledMap : FTiledMap) (QuadSize : F) (s : LoadState F) (N : Z)
  (Cancel : Z -> bool) (cells : list CellValue) (scale : F * F) :
  0 <= N -> 4 * N * N < 2 ^ 31 ->
  ReprojectData TiledMap QuadSize s N Cancel = Some (cells, scale) ->
  length cells = NumPixels N
  /\ (forall Y, - N <= Y < N -> Cancel Y = false)
  /\ forall X Y, - N <= X < N -> - N <= Y < N ->
       cells !! PixelIndex N X Y = Some (ReprojectCell TiledMap QuadSize s X Y).
Proof.
  intros HN Hsize Hrun. unfold ReprojectData in Hrun.
  destruct (ReprojectRows TiledMap QuadSize s N Cancel (seqZ (- N) (2 * N)))
    as [cells' | ] eqn:Hrows; [ | discriminate ].
  cbn in Hrun. injection Hrun as <- _.
  destruct (ReprojectRows_cells _ _ _ _ _ _ _ Hrows) as (Hall & Hlen & Hcells).
  split; [ rewrite Hlen, length_seqZ, NumPixels_square by assumption; reflexivity | ].
  split.
  - intros Y HY. rewrite Forall_forall in Hall. apply Hall.
    apply elem_of_seqZ. lia.
  - intros X Y HX HY. rewrite PixelIndex_value by assumption.
    rewrite (Hcells (Z.to_nat (Y + N)) Y (Z.to_nat (X + N))).
    + do 2 f_equal. lia.
    + rewrite lookup_seqZ_lt by lia. f_equal. lia.
    + lia.
Qed.

(** X20. When [ReprojectData] returns true, the heights fill the square
    of [Size * Size] vertices, the height of the vertex (X, Y) stands at
    the index [(Y + N) * Size + X + N] that [CreateLandscape] uses for the
    weights, and the user has cancelled after no row. *)
Theorem ReprojectData_layout {F} {A : Arith F} {E : Engine F} {Sa : Sampler F}
  (TiledMap : FTiledMap) (QuadSize : F) (s : LoadState F) (NumVerticesForRadius : Z)
  (Cancel : Z -> bool) (cells : list CellValue) (scale : F * F) :
  0 <= NumVerticesForRadius ->
  4 * NumVerticesForRadius * NumVerticesForRadius < 2 ^ 31 ->
  ReprojectData TiledMap QuadSize s NumVerticesForRadius Cancel = Some (cells, scale) ->
  length cells = NumPixels NumVerticesForRadius
  /\ (forall Y, - NumVerticesForRadius <= Y < NumVerticesForRadius -> Cancel Y = false)
  /\ forall X Y,
       - NumVerticesForRadius <= X < NumVerticesForRadius ->
       - NumVerticesForRadius <= Y < NumVerticesForRadius ->
       cells !! PixelIndex NumVerticesForRadius X Y
       = Some (ReprojectCell TiledMap QuadSize s X Y).
Proof. apply ReprojectData_cells. Qed.

Lemma ReprojectData_layout_witness :
  exists cells scale,
    ReprojectData (F := Binary32.float) (E := OneTileEngine) (S := FirstSampleSampler)
      OneTileMap (of_int 1) OneTileState 2 (fun _ => false) = Some (cells, scale)
    /\ length cells = NumPixels 2
    /\ (forall Y, - 2 <= Y < 2 -> (fun _ : Z => false) Y = false)
    /\ forall X Y, - 2 <= X < 2 -> - 2 <= Y < 2 ->
         cells !! PixelIndex 2 X Y
         = Some (ReprojectCell (F := Binary32.float) (E := OneTileEngine)
                   (S := FirstSampleSampler) OneTileMap (of_int 1) OneTileState X Y).
Proof.
  eexists. eexists. split; [ vm_compute; reflexivity | ].
  eapply (ReprojectData_layout (F := Binary32.float) (E := OneTileEngine)
            (Sa := FirstSampleSampler) OneTileMap (of_int 1) OneTileState 2
            (fun _ => false)).
  - lia.
  - lia.
  - vm_compute. reflexivity.
Defined.

(** X21. [ReprojectData] returns false exactly when the user has
    cancelled after one of the rows. *)
Theorem ReprojectData_cancelled {F} {A : Arith F} {E : Engine F} {Sa : Sampler F}
  (TiledMap : FTiledMap) (QuadSize : F) (s : LoadState F) (NumVerticesForRadius : Z)
  (Cancel : Z -> bool) :
  ReprojectData TiledMap QuadSize s NumVerticesForRadius Cancel = None
  <-> exists Y, - NumVerticesForRadius <= Y < NumVerticesForRadius /\ Cancel Y = true.
Proof.
  unfold ReprojectData.
  destruct (ReprojectRows TiledMap QuadSize s NumVerticesForRadius Cancel
              (seqZ (- NumVerticesForRadius) (2 * NumVerticesForRadius)))
    as [cells | ] eqn:Hrows; cbn.
  - split; [ discriminate | ]. intros (Y & HY & Hc). exfalso.
    destruct (ReprojectRows_cells _ _ _ _ _ _ _ Hrows) as (Hall & _).
    rewrite Forall_forall in Hall.
    rewrite (Hall Y) in Hc; [ discriminate | apply elem_of_seqZ; lia ].
  - split; [ intros _ | reflexivity ].
    destruct (ReprojectRows_cancelled _ _ _ _ _ _ Hrows) as (Y & HY & Hc).
    exists Y. split; [ apply elem_of_seqZ in HY; lia | exact Hc ].
Qed.

Lemma ReprojectData_cancelled_witness :
  ReprojectData (F := Binary32.float) (E := OneTileEngine) (S := FirstSampleSampler)
    OneTileMap (of_int 1) OneTileState 2 (fun Y => Y =? 0) = None.
Proof.
  apply (proj2 (ReprojectData_cancelled (F := Binary32.float) (E := OneTileEngine)
                  (Sa := FirstSampleSampler) OneTileMap (of_int 1) OneTileState 2
                  (fun Y => Y =? 0))).
  exists 0. split; [ lia | reflexivity ].
Defined.

(** ** The import layers *)

Lemma RampDown_is_byte {F} {A : Arith F} (Weight Previous : Z) :
  0 <= RampDown Weight Previous <= 255.
Proof.
  unfold RampDown.
  destruct (RoundToInt _); [ apply to_uint8_byte | lia ].
Qed.

Lemma PaintPixel_bytes {F} {A : Arith F} (n Index : nat) (Rounded : Z) (w : Weights) :
  length (fst w) = n ->
  Forall (fun Weight => 0 <= Weight <= 255) (fst w) ->
  Forall (ByteLayer n) (snd w) ->
  length (fst (PaintPixel Index Rounded w)) = n
  /\ Forall (fun Weight => 0 <= Weight <= 255) (fst (PaintPixel Index Rounded w))
  /\ Forall (ByteLayer n) (snd (PaintPixel Index Rounded w))
  /\ map LayerName (snd (PaintPixel Index Rounded w)) = map LayerName (snd w).
Proof.
  intros Hlen Hbytes Hprev. unfold PaintPixel. cbn [fst snd].
  split; [ rewrite length_insert; exact Hlen | ].
  split; [ apply Forall_insert; [ exact Hbytes | apply StoredWeight_byte ] | ].
  split.
  - induction Hprev as [ | L l [HL1 HL2] _ IH ]; cbn [map]; constructor; [ | exact IH ].
    split; cbn [LayerData].
    + rewrite length_insert. exact HL1.
    + apply Forall_insert; [ exact HL2 | apply RampDown_is_byte ].
  - rewrite map_map. reflexivity.
Qed.

Lemma RasterizePolygon_bytes {F} {A : Arith F} (n : nat) (N : Z)
  (Polygon : FStreetMapMiscWay) (w : Weights) :
  length (fst w) = n ->
  Forall (fun Weight => 0 <= Weight <= 255) (fst w) ->
  Forall (ByteLayer n) (snd w) ->
  length (fst (RasterizePolygon N Polygon w)) = n
  /\ Forall (fun Weight => 0 <= Weight <= 255) (fst (RasterizePolygon N Polygon w))
  /\ Forall (ByteLayer n) (snd (RasterizePolygon N Polygon w))
  /\ map LayerName (snd (RasterizePolygon N Polygon w)) = map LayerName (snd w).
Proof.
  unfold RasterizePolygon. generalize (CoveredPixels N Polygon) as Covered.
  intros Covered. revert w.
  induction Covered as [ | p Covered IH ]; intros w Hlen Hbytes Hprev.
  - cbn [fold_left]. repeat split; assumption.
  - cbn [fold_left].
    destruct (PaintPixel_bytes n (fst p) (snd p) w Hlen Hbytes Hprev)
      as (H1 & H2 & H3 & H4).
    destruct (IH _ H1 H2 H3) as (H1' & H2' & H3' & H4').
    repeat split; try assumption. congruence.
Qed.

Lemma RasterizePolygons_bytes {F} {A : Arith F} (n : nat) (N : Z)
  (Polygons : list FStreetMapMiscWay) :
  forall w w' : Weights,
    length (fst w) = n ->
    Forall (fun Weight => 0 <= Weight <= 255) (fst w) ->
    Forall (ByteLayer n) (snd w) ->
    RasterizePolygons N Polygons w = Some w' ->
    length (fst w') = n
    /\ Forall (fun Weight => 0 <= Weight <= 255) (fst w')
    /\ Forall (ByteLayer n) (snd w')
    /\ map LayerName (snd w') = map LayerName (snd w).
Proof.
  induction Polygons as [ | Polygon rest IH ]; intros w w' Hlen Hbytes Hprev Hrun;
    cbn [RasterizePolygons] in Hrun.
  - injection Hrun as <-. repeat split; assumption.
  - destruct (CancelAfter Polygon); [ discriminate | ].
    destruct (RasterizePolygon_bytes n N Polygon w Hlen Hbytes Hprev)
      as (H1 & H2 & H3 & H4).
    destruct (IH _ w' H1 H2 H3 Hrun) as (H1' & H2' & H3' & H4').
    repeat split; try assumption. congruence.
Qed.

Lemma AddImportLayer_bytes {F} {A : Arith F} (N : Z)
  (MiscWays : list FStreetMapMiscWay) (Name : string)
  (Previous Result : list FLandscapeImportLayerInfo) :
  Forall (ByteLayer (NumPixels N)) Previous ->
  AddImportLayer N MiscWays Name Previous = Some Result ->
  Forall (ByteLayer (NumPixels N)) Result
  /\ map LayerName Result = map LayerName Previous ++ [Name].
Proof.
  intros Hprev Hadd. unfold AddImportLayer in Hadd.
  destruct Previous as [ | L0 Previous ].
  - injection Hadd as <-. split; [ | reflexivity ].
    constructor; [ | constructor ]. split; cbn [LayerData].
    + apply length_replicate.
    + apply Forall_replicate. lia.
  - destruct (GetPolygonWaysForLayer Name MiscWays) as [ | P Ps ].
    + injection Hadd as <-. rewrite app_comm_cons. split.
      * apply Forall_app. split; [ exact Hprev | ].
        constructor; [ | constructor ]. split; cbn [LayerData].
        -- rewrite length_insert. apply length_replicate.
        -- apply Forall_insert; [ apply Forall_replicate | ]; lia.
      * rewrite map_app. reflexivity.
    + assert (Hzero : Forall (fun Weight => 0 <= Weight <= 255)
                        (replicate (NumPixels N) 0))
        by (apply Forall_replicate; lia).
      destruct (RasterizePolygons N (P :: Ps)
                  (replicate (NumPixels N) 0, L0 :: Previous)) as [w | ] eqn:Hras;
        [ | discriminate ].
      cbn in Hadd. injection Hadd as <-.
      destruct (RasterizePolygons_bytes (NumPixels N) N (P :: Ps)
                  (replicate (NumPixels N) 0, L0 :: Previous) w
                  (length_replicate _ _) Hzero Hprev Hras)
        as (H1 & H2 & H3 & H4).
      split.
      * apply Forall_app. split; [ exact H3 | ].
        constructor; [ | constructor ]. split; assumption.
      * rewrite map_app, H4. reflexivity.
Qed.

Lemma AddImportLayers_bytes {F} {A : Arith F} (N : Z)
  (MiscWays : list FStreetMapMiscWay) (Names : list string) :
  forall Previous Result : list FLandscapeImportLayerInfo,
    Forall (ByteLayer (NumPixels N)) Previous ->
    AddImportLayers N MiscWays Names Previous = Some Result ->
    Forall (ByteLayer (NumPixels N)) Result
    /\ map LayerName Result = map LayerName Previous ++ Names.
Proof.
  induction Names as [ | Name rest IH ]; intros Previous Result Hprev Hadd;
    cbn [AddImportLayers] in Hadd.
  - injection Hadd as <-. split; [ exact Hprev | rewrite app_nil_r; reflexivity ].
  - destruct (AddImportLayer N MiscWays Name Previous) as [Layers' | ] eqn:Hone;
      [ | discriminate ].
    cbn in Hadd.
    destruct (AddImportLayer_bytes N MiscWays Name Previous Layers' Hprev Hone)
      as [H1 H2].
    destruct (IH Layers' Result H1 Hadd) as [H1' H2'].
    split; [ exact H1' | ]. rewrite H2', H2, <- app_assoc. reflexivity.
Qed.

(** X24. The import layers that [CreateLandscape] builds are the layers of
    the build settings, one for each name and in their order, and every
    layer holds [Size * Size] weights, each of them a byte. *)
Theorem CreateLandscape_layers {F} {A : Arith F} (NumVerticesForRadius : Z)
  (MiscWays : list FStreetMapMiscWay) (Layers : list string)
  (Result : list FLandscapeImportLayerInfo) :
  CreateLandscape NumVerticesForRadius MiscWays Layers = Some Result ->
  map LayerName Result = Layers
  /\ Forall (ByteLayer (NumPixels NumVerticesForRadius)) Result.
Proof.
  intros Hrun. unfold CreateLandscape in Hrun.
  destruct (AddImportLayers_bytes NumVerticesForRadius MiscWays Layers [] Result
              ltac:(constructor) Hrun) as [H1 H2].
  split; [ exact H2 | exact H1 ].
Qed.

Lemma CreateLandscape_layers_witness :
  exists Result,
    CreateLandscape (F := Binary32.float) 2 [HalfWay LandUse "grass"]
      ["Ground"; "Grass"; "Wood"]%string = Some Result
    /\ map LayerName Result = ["Ground"; "Grass"; "Wood"]%string
    /\ Forall (ByteLayer (NumPixels 2)) Result.
Proof.
  eexists. split; [ vm_compute; reflexivity | ].
  apply (CreateLandscape_layers (F := Binary32.float) 2 [HalfWay LandUse "grass"]
           ["Ground"; "Grass"; "Wood"]%string).
  vm_compute. reflexivity.
Defined.

(** X25. Every vertex that a polygon paints lies inside the weight array:
    the index written is that of a vertex (X, Y) of the landscape which the
    polygon covers, and it is below [Size * Size]. *)
Theorem CoveredPixels_in_bounds (NumVerticesForRadius : Z)
  (Polygon : FStreetMapMiscWay) (Index : nat) (Rounded : Z) :
  0 <= NumVerticesForRadius ->
  4 * NumVerticesForRadius * NumVerticesForRadius < 2 ^ 31 ->
  (Index, Rounded) ∈ CoveredPixels NumVerticesForRadius Polygon ->
  (Index < NumPixels NumVerticesForRadius)%nat
  /\ exists X Y,
       - NumVerticesForRadius <= X < NumVerticesForRadius
       /\ - NumVerticesForRadius <= Y < NumVerticesForRadius
       /\ FloorMinX Polygon <= X <= CeilMaxX Polygon
       /\ FloorMinY Polygon <= Y <= CeilMaxY Polygon
       /\ Index = PixelIndex NumVerticesForRadius X Y
       /\ Coverage Polygon X Y = Some Rounded.
Proof.
  intros HN Hsize Hin. unfold CoveredPixels in Hin.
  apply list_elem_of_bind in Hin as ([X Y] & Hin & Hcell).
  apply GridCells_elem_inv in Hcell. cbn [fst snd] in Hin.
  destruct (Coverage Polygon X Y) as [r | ] eqn:Hcov; [ | inversion Hin ].
  apply list_elem_of_singleton in Hin. injection Hin as -> ->.
  split; [ apply PixelIndex_bound; lia | ].
  exists X, Y. repeat split; try lia. exact Hcov.
Qed.

Lemma CoveredPixels_in_bounds_witness :
  (PixelIndex 8 0 0, 300) ∈ CoveredPixels 8 (RowWay LandUse "grass")
  /\ (PixelIndex 8 0 0 < NumPixels 8)%nat.
Proof.
  assert (Hin : (PixelIndex 8 0 0, 300) ∈ CoveredPixels 8 (RowWay LandUse "grass")).
  { vm_compute. repeat first [ left | right ]. }
  split; [ exact Hin | ].
  apply (CoveredPixels_in_bounds 8 (RowWay LandUse "grass") (PixelIndex 8 0 0) 300).
  - lia.
  - lia.
  - exact Hin.
Defined.

(** ** Quantization inside and outside the range *)










(** ** Ramping down *)

Lemma RampDown_le {F} {A : Arith F} (Weight Previous : Z) :
  RampDownTable (F := F) = true ->
  0 <= Weight <= 255 ->
  0 <= Previous <= 255 ->
  0 <= RampDown Weight Previous <= Previous.
Proof.
  intros Htable HW HP.
  destruct (RampDown_byte Weight Previous Htable HW HP) as (_ & Hbyte & Hnear).
  nia.
Qed.

(** X26. Ramping down never raises a weight: for bytes the result lies
    between 0 and the weight before. A new weight of 0 leaves the earlier
    weight as it is, a new weight of 255 clears it, and a larger new
    weight never leaves more of the earlier one. *)
Theorem RampDown_never_raises {F} {A : Arith F} (Weight Weight' Previous : Z) :
  RampDownTable (F := F) = true ->
  0 <= Weight <= Weight' -> Weight' <= 255 ->
  0 <= Previous <= 255 ->
  0 <= RampDown Weight' Previous
  /\ RampDown Weight' Previous <= RampDown Weight Previous
  /\ RampDown Weight Previous <= Previous
  /\ RampDown 0 Previous = Previous
  /\ RampDown 255 Previous = 0.
Proof.
  intros Htable HW HW' HP.
  destruct (RampDown_byte Weight Previous Htable ltac:(lia) HP) as (_ & Hb1 & Hn1).
  destruct (RampDown_byte Weight' Previous Htable ltac:(lia) HP) as (_ & Hb2 & Hn2).
  destruct (RampDown_byte 0 Previous Htable ltac:(lia) HP) as (_ & Hb3 & Hn3).
  destruct (RampDown_byte 255 Previous Htable ltac:(lia) HP) as (_ & Hb4 & Hn4).
  repeat split; nia.
Qed.

Lemma RampDown_never_raises_witness :
  0 <= RampDown (F := Binary32.float) 200 77
  /\ RampDown (F := Binary32.float) 200 77 <= RampDown (F := Binary32.float) 100 77
  /\ RampDown (F := Binary32.float) 100 77 <= 77
  /\ RampDown (F := Binary32.float) 0 77 = 77
  /\ RampDown (F := Binary32.float) 255 77 = 0.
Proof.
  apply (RampDown_never_raises (F := Binary32.float) 100 200 77).
  - exact Binary32_RampDownTable.
  - lia.
  - lia.
  - lia.
Defined.

Lemma Lowered_refl (n : nat) (L : FLandscapeImportLayerInfo) :
  ByteLayer n L -> Lowered L L.
Proof.
  intros [Hlen Hbytes]. split; [ reflexivity | ]. split; [ reflexivity | ].
  intros j. unfold WeightAt. rewrite nth_lookup.
  destruct (LayerData L !! j) as [x | ] eqn:Hx; cbn; [ | lia ].
  rewrite Forall_lookup in Hbytes. pose proof (Hbytes j x Hx). lia.
Qed.

Lemma Lowered_trans (L1 L2 L3 : FLandscapeImportLayerInfo) :
  Lowered L1 L2 -> Lowered L2 L3 -> Lowered L1 L3.
Proof.
  intros (Hn1 & Hl1 & Hw1) (Hn2 & Hl2 & Hw2).
  split; [ congruence | ]. split; [ congruence | ].
  intros j. specialize (Hw1 j). specialize (Hw2 j). lia.
Qed.

Lemma Forall2_Lowered_trans (l1 : list FLandscapeImportLayerInfo) :
  forall l2 l3,
    Forall2 Lowered l1 l2 -> Forall2 Lowered l2 l3 -> Forall2 Lowered l1 l3.
Proof.
  induction l1 as [ | L1 l1 IH ]; intros l2 l3 H12 H23.
  - inversion H12; subst. inversion H23; subst. constructor.
  - inversion H12 as [ | ? L2 ? l2' HL12 Hl12 ]; subst.
    inversion H23 as [ | ? L3 ? l3' HL23 Hl23 ]; subst.
    constructor; [ eapply Lowered_trans; eassumption | eapply IH; eassumption ].
Qed.

Lemma PaintPixel_lowers {F} {A : Arith F} (n Index : nat) (Rounded : Z) (w : Weights) :
  RampDownTable (F := F) = true ->
  Forall (ByteLayer n) (snd w) ->
  Forall2 Lowered (snd w) (snd (PaintPixel Index Rounded w)).
Proof.
  intros Htable Hprev. unfold PaintPixel. cbn [snd].
  induction Hprev as [ | L l [HL1 HL2] _ IH ]; cbn [map]; constructor; [ | exact IH ].
  split; [ reflexivity | ]. split; [ cbn [LayerData]; apply length_insert | ].
  intros j. unfold WeightAt. cbn [LayerData]. rewrite nth_insert.
  assert (Hbyte : forall k, 0 <= nth k (LayerData L) 0 <= 255).
  { intros k. rewrite nth_lookup.
    destruct (LayerData L !! k) as [x | ] eqn:Hx; cbn; [ | lia ].
    rewrite Forall_lookup in HL2. exact (HL2 k x Hx). }
  destruct (decide (Index = j /\ (Index < length (LayerData L))%nat)) as [[-> _] | _].
  - apply RampDown_le; [ exact Htable | apply StoredWeight_byte | apply Hbyte ].
  - pose proof (Hbyte j). lia.
Qed.

Lemma RasterizePolygon_lowers {F} {A : Arith F} (n : nat) (N : Z)
  (Polygon : FStreetMapMiscWay) (w : Weights) :
  RampDownTable (F := F) = true ->
  length (fst w) = n ->
  Forall (fun Weight => 0 <= Weight <= 255) (fst w) ->
  Forall (ByteLayer n) (snd w) ->
  Forall2 Lowered (snd w) (snd (RasterizePolygon N Polygon w)).
Proof.
  intros Htable. unfold RasterizePolygon.
  generalize (CoveredPixels N Polygon) as Covered.
  intros Covered. revert w.
  induction Covered as [ | p Covered IH ]; intros w Hlen Hbytes Hprev.
  - cbn [fold_left]. apply Forall_Forall2_diag.
    eapply Forall_impl; [ exact Hprev | ]. intros L HL. exact (Lowered_refl n L HL).
  - cbn [fold_left].
    destruct (PaintPixel_bytes n (fst p) (snd p) w Hlen Hbytes Hprev)
      as (H1 & H2 & H3 & _).
    eapply Forall2_Lowered_trans;
      [ exact (PaintPixel_lowers n (fst p) (snd p) w Htable Hprev)
      | exact (IH _ H1 H2 H3) ].
Qed.

Lemma RasterizePolygons_lowers {F} {A : Arith F} (n : nat) (N : Z)
  (Polygons : list FStreetMapMiscWay) :
  RampDownTable (F := F) = true ->
  forall w w' : Weights,
    length (fst w) = n ->
    Forall (fun Weight => 0 <= Weight <= 255) (fst w) ->
    Forall (ByteLayer n) (snd w) ->
    RasterizePolygons N Polygons w = Some w' ->
    Forall2 Lowered (snd w) (snd w').
Proof.
  intros Htable.
  induction Polygons as [ | Polygon rest IH ]; intros w w' Hlen Hbytes Hprev Hrun;
    cbn [RasterizePolygons] in Hrun.
  - injection Hrun as <-. apply Forall_Forall2_diag.
    eapply Forall_impl; [ exact Hprev | ]. intros L HL. exact (Lowered_refl n L HL).
  - destruct (CancelAfter Polygon); [ discriminate | ].
    destruct (RasterizePolygon_bytes n N Polygon w Hlen Hbytes Hprev)
      as (H1 & H2 & H3 & _).
    eapply Forall2_Lowered_trans;
      [ exact (RasterizePolygon_lowers n N Polygon w Htable Hlen Hbytes Hprev)
      | exact (IH _ w' H1 H2 H3 Hrun) ].
Qed.

(** X27. Adding a layer never raises a weight of the layers before it:
    the result is these layers, each with its name and its size and with
    every weight at or below its value before, followed by the new
    layer. *)
Theorem AddImportLayer_lowers {F} {A : Arith F} (NumVerticesForRadius : Z)
  (MiscWays : list FStreetMapMiscWay) (Name : string)
  (Previous Result : list FLandscapeImportLayerInfo) :
  RampDownTable (F := F) = true ->
  Forall (ByteLayer (NumPixels NumVerticesForRadius)) Previous ->
  AddImportLayer NumVerticesForRadius MiscWays Name Previous = Some Result ->
  exists Earlier Last,
    Result = Earlier ++ [Last]
    /\ LayerName Last = Name
    /\ Forall2 Lowered Previous Earlier.
Proof.
  intros Htable Hprev Hadd. unfold AddImportLayer in Hadd.
  assert (Hsame : Forall2 Lowered Previous Previous).
  { apply Forall_Forall2_diag. eapply Forall_impl; [ exact Hprev | ].
    intros L HL. exact (Lowered_refl _ L HL). }
  destruct Previous as [ | L0 Previous ].
  - injection Hadd as <-. eexists [], _.
    split; [ reflexivity | ]. split; [ reflexivity | constructor ].
  - destruct (GetPolygonWaysForLayer Name MiscWays) as [ | P Ps ].
    + injection Hadd as <-. eexists (L0 :: Previous), _.
      split; [ reflexivity | ]. split; [ reflexivity | exact Hsame ].
    + assert (Hzero : Forall (fun Weight => 0 <= Weight <= 255)
                        (replicate (NumPixels NumVerticesForRadius) 0))
        by (apply Forall_replicate; lia).
      destruct (RasterizePolygons NumVerticesForRadius (P :: Ps)
                  (replicate (NumPixels NumVerticesForRadius) 0, L0 :: Previous))
        as [w | ] eqn:Hras; [ | discriminate ].
      cbn in Hadd. injection Hadd as <-.
      eexists (snd w), _. split; [ reflexivity | ]. split; [ reflexivity | ].
      exact (RasterizePolygons_lowers _ NumVerticesForRadius (P :: Ps) Htable
               (replicate (NumPixels NumVerticesForRadius) 0, L0 :: Previous) w
               (length_replicate _ _) Hzero Hprev Hras).
Qed.

Lemma AddImportLayer_lowers_witness :
  exists Result Earlier Last,
    AddImportLayer (F := Binary32.float) 2 [HalfWay LandUse "grass"] "Grass"
      [{| LayerName := "Ground"; LayerData := replicate (NumPixels 2) 255 |}]
    = Some Result
    /\ Result = Earlier ++ [Last]
    /\ LayerName Last = "Grass"%string
    /\ Forall2 Lowered
         [{| LayerName := "Ground"; LayerData := replicate (NumPixels 2) 255 |}]
         Earlier.
Proof.
  eexists.
  destruct (AddImportLayer_lowers (F := Binary32.float) 2 [HalfWay LandUse "grass"]
              "Grass"
              [{| LayerName := "Ground"; LayerData := replicate (NumPixels 2) 255 |}]
              _ Binary32_RampDownTable
              ltac:(repeat constructor; vm_compute; intros H; discriminate H)
              ltac:(vm_compute; reflexivity))
    as (Earlier & Last & H1 & H2 & H3).
  exists Earlier, Last. split; [ reflexivity | ].
  split; [ exact H1 | ]. split; [ exact H2 | exact H3 ].
Defined.

(** ** The polygons of a layer *)

Lemma EStreetMapMiscWayType_eqb_eq (a b : EStreetMapMiscWayType) :
  EStreetMapMiscWayType_eqb a b = true <-> a = b.
Proof. destruct a, b; cbn; split; congruence. Qed.

Lemma FString_eqb_eq (LHS RHS : string) :
  FString_eqb LHS RHS = true <-> ToLowerString LHS = ToLowerString RHS.
Proof. unfold FString_eqb. apply String.eqb_eq. Qed.

Lemma FName_eqb_eq (LHS RHS : string) :
  FName_eqb LHS RHS = true <-> ToLowerString LHS = ToLowerString RHS.
Proof. unfold FName_eqb. apply String.eqb_eq. Qed.

Lemma FWayMatch_eqb_eq (LHS RHS : FWayMatch) :
  FWayMatch_eqb LHS RHS = true
  <-> fst LHS = fst RHS /\ ToLowerString (snd LHS) = ToLowerString (snd RHS).
Proof.
  unfold FWayMatch_eqb.
  rewrite andb_true_iff, EStreetMapMiscWayType_eqb_eq, FString_eqb_eq.
  reflexivity.
Qed.

(** The table of a layer, by the name of the layer up to case *)
Lemma LayerWayMapping_cases (LayerName : string) :
  (ToLowerString LayerName = "grass"%string
   /\ LayerWayMapping LayerName = Some GrassWays)
  \/ (ToLowerString LayerName = "wood"%string
      /\ LayerWayMapping LayerName = Some WoodWays)
  \/ (ToLowerString LayerName <> "grass"%string
      /\ ToLowerString LayerName <> "wood"%string
      /\ LayerWayMapping LayerName = None).
Proof.
  unfold LayerWayMapping.
  destruct (FName_eqb LayerName "Grass") eqn:Hg.
  - left. apply FName_eqb_eq in Hg. split; [ exact Hg | reflexivity ].
  - destruct (FName_eqb LayerName "Wood") eqn:Hw.
    + right. left. apply FName_eqb_eq in Hw. split; [ exact Hw | reflexivity ].
    + right. right.
      split; [ intros H; apply (proj2 (FName_eqb_eq LayerName "Grass")) in H;
               congruence | ].
      split; [ intros H; apply (proj2 (FName_eqb_eq LayerName "Wood")) in H;
               congruence | reflexivity ].
Qed.

(** The categories in the tables are written in small letters. *)
Lemma LayerWayMapping_lower (LayerName : string) (WayMatches : list FWayMatch) :
  LayerWayMapping LayerName = Some WayMatches ->
  Forall (fun WayMatch => ToLowerString (snd WayMatch) = snd WayMatch) WayMatches.
Proof.
  intros H.
  destruct (LayerWayMapping_cases LayerName)
    as [[_ H'] | [[_ H'] | (_ & _ & H')]];
    rewrite H' in H; [ | | discriminate ];
    injection H as <-; repeat constructor.
Qed.

Lemma existsb_FWayMatch (WayMatch : FWayMatch) (WayMatches : list FWayMatch) :
  Forall (fun WayMatch => ToLowerString (snd WayMatch) = snd WayMatch) WayMatches ->
  existsb (FWayMatch_eqb WayMatch) WayMatches = true
  <-> (fst WayMatch, ToLowerString (snd WayMatch)) ∈ WayMatches.
Proof.
  intros Hlower. rewrite existsb_exists. split.
  - intros (x & Hin & Heq). apply FWayMatch_eqb_eq in Heq as [Ht Hc].
    apply list_elem_of_In in Hin.
    rewrite Forall_forall in Hlower. specialize (Hlower x Hin).
    rewrite Ht, Hc, Hlower. destruct x. exact Hin.
  - intros Hin. exists (fst WayMatch, ToLowerString (snd WayMatch)).
    split; [ apply list_elem_of_In; exact Hin | ].
    apply FWayMatch_eqb_eq. cbn [fst snd]. split; [ reflexivity | ].
    rewrite Forall_forall in Hlower. symmetry. exact (Hlower _ Hin).
Qed.

Lemma GetPolygonWaysForLayer_elem_of (LayerName : string)
  (MiscWays : list FStreetMapMiscWay) (MiscWay : FStreetMapMiscWay) :
  MiscWay ∈ GetPolygonWaysForLayer LayerName MiscWays
  <-> MiscWay ∈ MiscWays
      /\ bIsClosed MiscWay = true
      /\ exists WayMatches,
           LayerWayMapping LayerName = Some WayMatches
           /\ (WayType MiscWay, ToLowerString (Category MiscWay)) ∈ WayMatches.
Proof.
  unfold GetPolygonWaysForLayer.
  destruct (LayerWayMapping LayerName) as [WayMatches | ] eqn:Hmap.
  - rewrite list_elem_of_filter, Is_true_true, andb_true_iff.
    rewrite (existsb_FWayMatch _ _ (LayerWayMapping_lower _ _ Hmap)).
    cbn [fst snd]. split.
    + intros [[Hc Hm] Hin]. split; [ exact Hin | ]. split; [ exact Hc | ].
      exists WayMatches. split; [ reflexivity | exact Hm ].
    + intros (Hin & Hc & W & HW & Hm). injection HW as <-. auto.
  - split; [ intros H; inversion H | ].
    intros (_ & _ & W & HW & _). discriminate.
Qed.

(** X28. The polygons of a layer are the closed ways of the street map
    whose type and category stand in the table of the layer, the category
    compared without regard to case, in the order of the street map. The
    table is that of Grass or of Wood when the name of the layer is grass
    or wood up to case, and a layer of another name has no table and no
    polygons. *)
Theorem GetPolygonWaysForLayer_polygons (LayerName : string)
  (MiscWays : list FStreetMapMiscWay) :
  (forall MiscWay,
     MiscWay ∈ GetPolygonWaysForLayer LayerName MiscWays
     <-> MiscWay ∈ MiscWays
         /\ bIsClosed MiscWay = true
         /\ exists WayMatches,
              LayerWayMapping LayerName = Some WayMatches
              /\ (WayType MiscWay, ToLowerString (Category MiscWay)) ∈ WayMatches)
  /\ GetPolygonWaysForLayer LayerName MiscWays `sublist_of` MiscWays
  /\ ((ToLowerString LayerName = "grass"%string
       /\ LayerWayMapping LayerName = Some GrassWays)
      \/ (ToLowerString LayerName = "wood"%string
          /\ LayerWayMapping LayerName = Some WoodWays)
      \/ (ToLowerString LayerName <> "grass"%string
          /\ ToLowerString LayerName <> "wood"%string
          /\ LayerWayMapping LayerName = None
          /\ GetPolygonWaysForLayer LayerName MiscWays = [])).
Proof.
  split; [ apply GetPolygonWaysForLayer_elem_of | ].
  split.
  - unfold GetPolygonWaysForLayer.
    destruct (LayerWayMapping LayerName); [ apply sublist_filter | apply sublist_nil_l ].
  - destruct (LayerWayMapping_cases LayerName) as [H | [H | (H1 & H2 & H3)]];
      [ left; exact H | right; left; exact H | right; right ].
    repeat (split; [ assumption | ]).
    unfold GetPolygonWaysForLayer. rewrite H3. reflexivity.
Qed.

(** X29. No way is a polygon of both a layer named grass and a layer
    named wood, whatever the case of the letters of the two names, and a
    layer of any other name has no polygons at all. *)
Theorem GetPolygonWaysForLayer_exclusive (MiscWays : list FStreetMapMiscWay) :
  (forall (Grass Wood : string) MiscWay,
     ToLowerString Grass = "grass"%string ->
     ToLowerString Wood = "wood"%string ->
     MiscWay ∈ GetPolygonWaysForLayer Grass MiscWays ->
     MiscWay ∉ GetPolygonWaysForLayer Wood MiscWays)
  /\ (forall LayerName : string,
        ToLowerString LayerName <> "grass"%string ->
        ToLowerString LayerName <> "wood"%string ->
        GetPolygonWaysForLayer LayerName MiscWays = []).
Proof.
  split.
  - intros Grass Wood MiscWay HGrass HWood Hg Hw.
    apply GetPolygonWaysForLayer_elem_of in Hg as (_ & _ & Wg & HWg & Hg).
    apply GetPolygonWaysForLayer_elem_of in Hw as (_ & _ & Ww & HWw & Hw).
    destruct (LayerWayMapping_cases Grass) as [[_ H] | [[H _] | (H & _)]];
      [ | rewrite HGrass in H; discriminate | contradiction ].
    rewrite H in HWg. injection HWg as <-. clear H.
    destruct (LayerWayMapping_cases Wood) as [[H _] | [[_ H] | (_ & H & _)]];
      [ rewrite HWood in H; discriminate | | contradiction ].
    rewrite H in HWw. injection HWw as <-. clear H.
    unfold GrassWays in Hg. unfold WoodWays in Hw.
    repeat (apply elem_of_cons in Hg as [Hg | Hg]);
      try (inversion Hg; fail);
      repeat (apply elem_of_cons in Hw as [Hw | Hw]);
      try (inversion Hw; fail);
      rewrite Hg in Hw; discriminate.
  - intros LayerName Hg Hw. unfold GetPolygonWaysForLayer.
    destruct (LayerWayMapping_cases LayerName) as [[H _] | [[H _] | (_ & _ & H)]];
      [ contradiction | contradiction | ].
    rewrite H. reflexivity.
Qed.

(** ** BuildLandscape *)

(** X30. When [BuildLandscape] delivers a landscape, [LoadElevationData]
    has returned true, and what is handed to the import fits together:
    [Size * Size] heights and, for each layer of the build settings in
    their order, [Size * Size] weights that are bytes. *)
Theorem BuildLandscape_consistent {F} {A : Arith F} {E : Engine F} {Sa : Sampler F}
  (TiledMap : FTiledMap) (Now Pending : Z) (QuadSize : F)
  (NumVerticesForRadius : Z) (rounds : list Round) (Cancel : Z -> bool)
  (MiscWays : list FStreetMapMiscWay) (Layers : list string) (L : Landscape F) :
  0 <= NumVerticesForRadius ->
  4 * NumVerticesForRadius * NumVerticesForRadius < 2 ^ 31 ->
  BuildLandscape TiledMap Now Pending QuadSize NumVerticesForRadius rounds Cancel
    MiscWays Layers = Some (Some L) ->
  (exists s,
     LoadElevationData TiledMap Now Pending QuadSize NumVerticesForRadius rounds
     = Some (true, s)
     /\ ReprojectData TiledMap QuadSize s NumVerticesForRadius Cancel
        = Some (ElevationData L, Scale L))
  /\ length (ElevationData L) = NumPixels NumVerticesForRadius
  /\ map LayerName (ImportLayers L) = Layers
  /\ Forall (ByteLayer (NumPixels NumVerticesForRadius)) (ImportLayers L).
Proof.
  intros HN Hsize Hbuild. unfold BuildLandscape in Hbuild.
  destruct (LoadElevationData TiledMap Now Pending QuadSize NumVerticesForRadius rounds)
    as [[ok s] | ] eqn:Hload; [ | discriminate ].
  destruct ok; [ | discriminate ].
  destruct (ReprojectData TiledMap QuadSize s NumVerticesForRadius Cancel)
    as [[cells scale] | ] eqn:Hrep; [ | discriminate ].
  destruct (CreateLandscape NumVerticesForRadius MiscWays Layers) as [layers | ] eqn:Hcl;
    [ | discriminate ].
  injection Hbuild as <-. cbn [ElevationData Scale ImportLayers].
  split; [ exists s; split; [ reflexivity | exact Hrep ] | ].
  split; [ exact (proj1 (ReprojectData_cells _ _ _ _ _ _ _ HN Hsize Hrep)) | ].
  unfold CreateLandscape in Hcl.
  destruct (AddImportLayers_bytes NumVerticesForRadius MiscWays Layers [] layers
              ltac:(constructor) Hcl) as [H1 H2].
  split; [ exact H2 | exact H1 ].
Qed.

Lemma GetPolygonWaysForLayer_polygons_witness :
  HalfWay LandUse "Grass" ∈ GetPolygonWaysForLayer "GRASS"
                              [HalfWay Natural "wood"; HalfWay LandUse "Grass"]
  <-> HalfWay LandUse "Grass" ∈ [HalfWay Natural "wood"; HalfWay LandUse "Grass"]
      /\ bIsClosed (HalfWay LandUse "Grass") = true
      /\ exists WayMatches,
           LayerWayMapping "GRASS" = Some WayMatches
           /\ (WayType (HalfWay LandUse "Grass"),
               ToLowerString (Category (HalfWay LandUse "Grass")))
              ∈ WayMatches.
Proof.
  apply (proj1 (GetPolygonWaysForLayer_polygons "GRASS"
                  [HalfWay Natural "wood"; HalfWay LandUse "Grass"])).
Defined.

Lemma GetPolygonWaysForLayer_exclusive_witness :
  HalfWay LandUse "Grass" ∈ GetPolygonWaysForLayer "grass"
                              [HalfWay Natural "wood"; HalfWay LandUse "Grass"]
  /\ HalfWay LandUse "Grass" ∉ GetPolygonWaysForLayer "WOOD"
                                 [HalfWay Natural "wood"; HalfWay LandUse "Grass"].
Proof.
  assert (Hin : HalfWay LandUse "Grass"
                ∈ GetPolygonWaysForLayer "grass"
                    [HalfWay Natural "wood"; HalfWay LandUse "Grass"]).
  { vm_compute. left. }
  split; [ exact Hin | ].
  apply (proj1 (GetPolygonWaysForLayer_exclusive
                  [HalfWay Natural "wood"; HalfWay LandUse "Grass"])
           "grass"%string "WOOD"%string);
    [ reflexivity | reflexivity | exact Hin ].
Defined.

Lemma BuildLandscape_consistent_witness :
  exists L,
    BuildLandscape (F := Binary32.float) (E := OneTileEngine) (S := FirstSampleSampler)
      FlatMap 0 0 (of_int 1) 2 [FlatRound] (fun _ => false)
      [HalfWay LandUse "grass"] ["Ground"; "Grass"]%string = Some (Some L)
    /\ length (ElevationData L) = NumPixels 2
    /\ map LayerName (ImportLayers L) = ["Ground"; "Grass"]%string
    /\ Forall (ByteLayer (NumPixels 2)) (ImportLayers L).
Proof.
  eexists. split; [ vm_compute; reflexivity | ].
  eapply (BuildLandscape_consistent (F := Binary32.float) (E := OneTileEngine)
            (Sa := FirstSampleSampler) FlatMap 0 0 (of_int 1) 2 [FlatRound]
            (fun _ => false) [HalfWay LandUse "grass"] ["Ground"; "Grass"]%string).
  - lia.
  - lia.
  - vm_compute. reflexivity.
Defined.

(** ** The cache file of a tile *)

Lemma append_cons (x : Ascii.ascii) (a b : string) :
  String.append (String x a) b = String x (String.append a b).
Proof. reflexivity. Qed.

Lemma append_nil (b : string) : String.append EmptyString b = b.
Proof. reflexivity. Qed.

Lemma append_cancel_l (s a b : string) :
  String.append s a = String.append s b -> a = b.
Proof.
  induction s as [ | c s IH ]; rewrite ?append_cons, ?append_nil; intros H;
    [ exact H | ].
  injection H as H. exact (IH H).
Qed.

Lemma append_assoc (a b c : string) :
  String.append (String.append a b) c = String.append a (String.append b c).
Proof.
  induction a as [ | x a IH ]; rewrite ?append_cons, ?append_nil; [ reflexivity | ].
  f_equal. exact IH.
Qed.

Lemma NoSeparator_uint (d : Decimal.uint) :
  NoSeparator (DecimalString.NilEmpty.string_of_uint d) = true.
Proof. induction d; cbn; try rewrite IHd; reflexivity. Qed.

Lemma NoSeparator_int (d : Decimal.int) :
  NoSeparator (DecimalString.NilZero.string_of_int d) = true.
Proof.
  destruct d as [d | d]; cbn [DecimalString.NilZero.string_of_int].
  - destruct d; try reflexivity; apply (NoSeparator_uint _).
  - cbn [NoSeparator]. destruct d; try reflexivity;
      exact (NoSeparator_uint _).
Qed.

(** Two strings without separators that are followed by a separator and
    give the same text are the same, and so is what follows. *)
Lemma split_at_separator (a a' : string) (c c' : Ascii.ascii) (r r' : string) :
  NoSeparator a = true -> NoSeparator a' = true ->
  c = Underscore \/ c = FullStop ->
  c' = Underscore \/ c' = FullStop ->
  String.append a (String c r) = String.append a' (String c' r') ->
  a = a' /\ c = c' /\ r = r'.
Proof.
  revert a'. induction a as [ | x a IH ]; intros a' Ha Ha' Hc Hc' Heq.
  - destruct a' as [ | x' a' ]; rewrite ?append_cons, ?append_nil in Heq.
    + injection Heq as -> ->. repeat split.
    + exfalso. injection Heq as -> _. cbn [NoSeparator] in Ha'.
      destruct Hc as [-> | ->]; vm_compute in Ha'; discriminate.
  - destruct a' as [ | x' a' ]; rewrite ?append_cons, ?append_nil in Heq.
    + exfalso. injection Heq as -> _. cbn [NoSeparator] in Ha.
      destruct Hc' as [-> | ->]; vm_compute in Ha; discriminate.
    + injection Heq as -> Heq. cbn [NoSeparator] in Ha, Ha'.
      apply andb_true_iff in Ha as [_ Ha]. apply andb_true_iff in Ha' as [_ Ha'].
      destruct (IH a' Ha Ha' Hc Hc' Heq) as (-> & Hcc & Hr).
      repeat split; assumption.
Qed.

Lemma string_of_int_inj (z z' : Z) :
  DecimalString.NilZero.string_of_int (Z.to_int z)
  = DecimalString.NilZero.string_of_int (Z.to_int z') ->
  z = z'.
Proof.
  intros Heq. apply DecimalZ.to_int_inj.
  assert (Hnn : forall n, Z.to_int n <> Decimal.Pos Decimal.Nil
                          /\ Z.to_int n <> Decimal.Neg Decimal.Nil).
  { intros [ | p | p ]; cbn; split; try discriminate;
      intros H; injection H as H; exact (DecimalPos.Unsigned.to_uint_nonnil p H). }
  pose proof (DecimalString.NilZero.isi (Z.to_int z)
                (proj1 (Hnn z)) (proj2 (Hnn z))) as H1.
  pose proof (DecimalString.NilZero.isi (Z.to_int z')
                (proj1 (Hnn z')) (proj2 (Hnn z'))) as H2.
  rewrite Heq in H1. congruence.
Qed.

Lemma to_int32_inj (a b : Z) :
  0 <= a < 2 ^ 32 -> 0 <= b < 2 ^ 32 -> to_int32 a = to_int32 b -> a = b.
Proof.
  intros Ha Hb. unfold to_int32. intros H.
  assert (Hm : (a + 2 ^ 31) mod 2 ^ 32 = (b + 2 ^ 31) mod 2 ^ 32) by lia.
  destruct (Z_lt_le_dec a (2 ^ 31)) as [Ha' | Ha'];
    destruct (Z_lt_le_dec b (2 ^ 31)) as [Hb' | Hb'].
  - rewrite !Z.mod_small in Hm by lia. lia.
  - rewrite (Z.mod_small (a + 2 ^ 31)) in Hm by lia.
    replace (b + 2 ^ 31) with ((b - 2 ^ 31) + 1 * 2 ^ 32) in Hm by lia.
    rewrite Z.mod_add, Z.mod_small in Hm by lia. lia.
  - rewrite (Z.mod_small (b + 2 ^ 31)) in Hm by lia.
    replace (a + 2 ^ 31) with ((a - 2 ^ 31) + 1 * 2 ^ 32) in Hm by lia.
    rewrite Z.mod_add, Z.mod_small in Hm by lia. lia.
  - replace (a + 2 ^ 31) with ((a - 2 ^ 31) + 1 * 2 ^ 32) in Hm by lia.
    replace (b + 2 ^ 31) with ((b - 2 ^ 31) + 1 * 2 ^ 32) in Hm by lia.
    rewrite !Z.mod_add, !Z.mod_small in Hm by lia. lia.
Qed.

(** X16. Tiles with different coordinates or levels never share a cache
    file: for coordinates and levels in the range of [uint32] the path of
    [GetCachedFilePath] determines all three. *)
Theorem GetCachedFilePath_inj (ElevationCacheDir : string) (X Y Level X' Y' Level' : Z) :
  0 <= X < 2 ^ 32 -> 0 <= Y < 2 ^ 32 -> 0 <= Level < 2 ^ 32 ->
  0 <= X' < 2 ^ 32 -> 0 <= Y' < 2 ^ 32 -> 0 <= Level' < 2 ^ 32 ->
  GetCachedFilePath ElevationCacheDir X Y Level
  = GetCachedFilePath ElevationCacheDir X' Y' Level' ->
  X = X' /\ Y = Y' /\ Level = Level'.
Proof.
  intros HX HY HL HX' HY' HL' Heq.
  unfold GetCachedFilePath, AppendInt in Heq. cbv zeta in Heq.
  rewrite !append_assoc in Heq.
  apply append_cancel_l, append_cancel_l in Heq.
  change (String.append "_" ?s) with (String Underscore s) in Heq.
  change ".png"%string with (String FullStop "png") in Heq.
  apply split_at_separator in Heq as (HLevel & _ & Heq);
    [ | apply NoSeparator_int | apply NoSeparator_int | left; reflexivity
      | left; reflexivity ].
  apply split_at_separator in Heq as (HXs & _ & Heq);
    [ | apply NoSeparator_int | apply NoSeparator_int | left; reflexivity
      | left; reflexivity ].
  apply split_at_separator in Heq as (HYs & _ & _);
    [ | apply NoSeparator_int | apply NoSeparator_int | right; reflexivity
      | right; reflexivity ].
  apply string_of_int_inj in HLevel, HXs, HYs.
  repeat split; apply to_int32_inj; assumption.
Qed.

Lemma GetCachedFilePath_inj_witness :
  GetCachedFilePath "Temp/ElevationCache/" 7 9 4
  = "Temp/ElevationCache/elevation_4_7_9.png"%string
  /\ (GetCachedFilePath "Temp/ElevationCache/" 7 9 4
      = GetCachedFilePath "Temp/ElevationCache/" 7 9 4 ->
      7 = 7 /\ 9 = 9 /\ 4 = 4).
Proof.
  split; [ vm_compute; reflexivity | ].
  apply (GetCachedFilePath_inj "Temp/ElevationCache/" 7 9 4 7 9 4); lia.
Defined.

(** ** The range of a tile *)

Lemma Exact_PackedElevation (Data : list Z) :
  exists x : Q, PackedElevation (F := Exact.number) Data = Some x.
Proof.
  unfold PackedElevation. cbn [fadd fmul fdiv of_int exact Exact.lift2 Exact.div].
  replace (Qeq_bool (inject_Z 256) 0) with false by reflexivity.
  eexists. reflexivity.
Qed.

Lemma Exact_fmin (a b : Q) :
  exists m : Q, fmin (F := Exact.number) (Some a) (Some b) = Some m /\ (m <= a)%Q /\ (m <= b)%Q.
Proof.
  unfold fmin. cbn [fleb exact Exact.leb].
  destruct (Qle_bool a b) eqn:Hle.
  - exists a. split; [ reflexivity | ]. split; [ apply Qle_refl | ].
    apply Qle_bool_iff. exact Hle.
  - exists b. split; [ reflexivity | ]. split; [ | apply Qle_refl ].
    apply Qlt_le_weak, Qnot_le_lt. intros Hc. apply Qle_bool_iff in Hc. congruence.
Qed.

Lemma Exact_fmax (a b : Q) :
  exists m : Q, fmax (F := Exact.number) (Some a) (Some b) = Some m /\ (a <= m)%Q /\ (b <= m)%Q.
Proof.
  unfold fmax. cbn [fleb exact Exact.leb].
  destruct (Qle_bool b a) eqn:Hle.
  - exists a. split; [ reflexivity | ]. split; [ apply Qle_refl | ].
    apply Qle_bool_iff. exact Hle.
  - exists b. split; [ reflexivity | ]. split; [ | apply Qle_refl ].
    apply Qlt_le_weak, Qnot_le_lt. intros Hc. apply Qle_bool_iff in Hc. congruence.
Qed.

(** The loop only widens the range, and the range it returns holds
    every valid sample. *)
Lemma Exact_UnpackPixels_range (count : nat) :
  forall (Data : list Z) (mn mx : Q) Values Min' Max',
    UnpackPixels (F := Exact.number) count Data (Some mn) (Some mx)
    = (Values, Min', Max') ->
    exists mn' mx' : Q,
      Min' = Some mn' /\ Max' = Some mx'
      /\ (mn' <= mn)%Q /\ (mx <= mx')%Q
      /\ forall i : nat,
           (i < count)%nat ->
           IsValid (PackedElevation (F := Exact.number) (drop (4 * i) Data)) = true ->
           exists v : Q,
             Values !! i = Some (Some v) /\ (mn' <= v)%Q /\ (v <= mx')%Q.
Proof.
  induction count as [ | count IH ]; intros Data mn mx Values Min' Max' Hrun.
  - cbn [UnpackPixels] in Hrun. injection Hrun as <- <- <-.
    exists mn, mx. repeat split; try apply Qle_refl. intros i Hi. lia.
  - cbn [UnpackPixels] in Hrun.
    destruct (Exact_PackedElevation Data) as [x Hx].
    rewrite Hx in Hrun.
    destruct (IsValid (F := Exact.number) (Some x)) eqn:Hvalid.
    + cbv zeta in Hrun.
      cbn [fsub of_int exact Exact.lift2] in Hrun.
      destruct (Exact_fmin mn (x - inject_Z 32768)) as (m1 & Hm1 & Hm1a & Hm1b).
      destruct (Exact_fmax mx (x - inject_Z 32768)) as (m2 & Hm2 & Hm2a & Hm2b).
      rewrite Hm1, Hm2 in Hrun.
      destruct (UnpackPixels (F := Exact.number) count (drop 4 Data) (Some m1) (Some m2))
        as [[rest Min''] Max''] eqn:Hrest.
      injection Hrun as <- <- <-.
      destruct (IH _ _ _ _ _ _ Hrest) as (mn' & mx' & -> & -> & Hlo & Hhi & Hall).
      exists mn', mx'. split; [ reflexivity | ]. split; [ reflexivity | ].
      split; [ eapply Qle_trans; eassumption | ].
      split; [ eapply Qle_trans; eassumption | ].
      intros [ | i ] Hi Hv.
      * exists (x - inject_Z 32768)%Q. split; [ reflexivity | ].
        split; eapply Qle_trans; eassumption.
      * cbn [lookup list_lookup].
        apply (Hall i ltac:(lia)).
        rewrite drop_drop. replace (4 + 4 * i)%nat with (4 * S i)%nat by lia.
        exact Hv.
    + destruct (UnpackPixels (F := Exact.number) count (drop 4 Data) (Some mn) (Some mx))
        as [[rest Min''] Max''] eqn:Hrest.
      injection Hrun as <- <- <-.
      destruct (IH _ _ _ _ _ _ Hrest) as (mn' & mx' & -> & -> & Hlo & Hhi & Hall).
      exists mn', mx'. repeat split; try assumption.
      intros [ | i ] Hi Hv.
      * exfalso. change (drop (4 * 0) Data) with Data in Hv.
        rewrite Hx in Hv. congruence.
      * cbn [lookup list_lookup].
        apply (Hall i ltac:(lia)).
        rewrite drop_drop. replace (4 + 4 * i)%nat with (4 * S i)%nat by lia.
        exact Hv.
Qed.

Lemma Exact_UnpackElevation_bounds {E : Engine Exact.number}
  (TiledMap : FTiledMap) (RawData : list Z) (t : FCachedElevationFile Exact.number)
  (mn mx : Q) :
  ElevationMin t = Some mn -> ElevationMax t = Some mx ->
  exists mn' mx' : Q,
    ElevationMin (snd (UnpackElevation TiledMap RawData t)) = Some mn'
    /\ ElevationMax (snd (UnpackElevation TiledMap RawData t)) = Some mx'
    /\ (mn' <= mn)%Q /\ (mx <= mx')%Q.
Proof.
  intros Hmn Hmx. unfold UnpackElevation.
  assert (Hsame : exists mn' mx' : Q,
             ElevationMin t = Some mn' /\ ElevationMax t = Some mx'
             /\ (mn' <= mn)%Q /\ (mx <= mx')%Q)
    by (exists mn, mx; repeat split; try assumption; apply Qle_refl).
  destruct (SetCompressed RawData) as [Png | ]; [ | exact Hsame ].
  destruct (negb (Width Png =? TileWidth TiledMap)
            || negb (Height Png =? TileHeight TiledMap)); [ exact Hsame | ].
  destruct (negb (ERGBFormat_eqb (Format Png) RGBA) || negb (BitDepth Png =? 8));
    [ exact Hsame | ].
  destruct (Raw Png) as [RawPNG | ]; [ | exact Hsame ].
  rewrite Hmn, Hmx.
  destruct (UnpackPixels (F := Exact.number) _ RawPNG (Some mn) (Some mx))
    as [[Values Min'] Max'] eqn:Hrun.
  destruct (Exact_UnpackPixels_range _ _ _ _ _ _ _ Hrun)
    as (mn' & mx' & -> & -> & Hlo & Hhi & _).
  exists mn', mx'. repeat split; assumption.
Qed.

(** X12. In exact arithmetic [UnpackElevation] only widens the range of
    the tile, and after it has unpacked an image the minimum and the
    maximum of the tile hold the elevation of every pixel that is valid. *)
Theorem UnpackElevation_range {E : Engine Exact.number}
  (TiledMap : FTiledMap) (RawData RawPNG : list Z) (Png : PngImage)
  (t t' : FCachedElevationFile Exact.number) (mn mx : Q) :
  0 <= TileWidth TiledMap * TileHeight TiledMap < 2 ^ 31 ->
  ElevationMin t = Some mn -> ElevationMax t = Some mx ->
  SetCompressed RawData = Some Png -> Raw Png = Some RawPNG ->
  UnpackElevation TiledMap RawData t = (true, t') ->
  exists mn' mx' : Q,
    ElevationMin t' = Some mn' /\ ElevationMax t' = Some mx'
    /\ (mn' <= mn)%Q /\ (mx <= mx')%Q
    /\ forall i : nat,
         Z.of_nat i < TileWidth TiledMap * TileHeight TiledMap ->
         IsValid (PackedElevation (F := Exact.number) (drop (4 * i) RawPNG)) = true ->
         exists v : Q,
           Elevation t' !! i = Some (Some v) /\ (mn' <= v)%Q /\ (v <= mx')%Q.
Proof.
  intros Hsize Hmn Hmx Hpng Hraw Hun. unfold UnpackElevation in Hun.
  rewrite Hpng in Hun.
  destruct (negb (Width Png =? TileWidth TiledMap)
            || negb (Height Png =? TileHeight TiledMap)) eqn:Hdim; [ discriminate | ].
  destruct (negb (ERGBFormat_eqb (Format Png) RGBA) || negb (BitDepth Png =? 8));
    [ discriminate | ].
  apply orb_false_elim in Hdim as [Hw Hh].
  apply negb_false_iff in Hw, Hh. apply Z.eqb_eq in Hw, Hh.
  rewrite Hraw, Hmn, Hmx, Hw, Hh, to_int32_small in Hun by lia.
  destruct (UnpackPixels (F := Exact.number) _ RawPNG (Some mn) (Some mx))
    as [[Values Min'] Max'] eqn:Hrun.
  injection Hun as <-. cbn [ElevationMin ElevationMax Elevation].
  destruct (Exact_UnpackPixels_range _ _ _ _ _ _ _ Hrun)
    as (mn' & mx' & -> & -> & Hlo & Hhi & Hall).
  exists mn', mx'. repeat split; try assumption.
  intros i Hi Hv. apply Hall; [ lia | exact Hv ].
Qed.

Lemma UnpackElevation_range_witness :
  exists mn' mx' v,
    ElevationMin (FlatTile (F := Exact.number)) = Some mn'
    /\ ElevationMax (FlatTile (F := Exact.number)) = Some mx'
    /\ Elevation (FlatTile (F := Exact.number)) !! 7%nat = Some (Some v)
    /\ (mn' <= v)%Q /\ (v <= mx')%Q.
Proof.
  destruct (UnpackElevation_range (E := OneTileEngine) FlatMap FlatFile
              (mjoin (replicate 36 [128; 0; 0; 255]))
              {| BitDepth := 8; Format := RGBA; Width := 6; Height := 6;
                 Raw := Some (mjoin (replicate 36 [128; 0; 0; 255])) |}
              (NewCachedElevationFile (F := Exact.number) (A := exact) 0 0 0 0)
              (FlatTile (F := Exact.number))
              (inject_Z (16777215 * 2 ^ 104)) (- inject_Z (16777215 * 2 ^ 104))%Q)
    as (mn' & mx' & H1 & H2 & _ & _ & Hall).
  - cbn. lia.
  - reflexivity.
  - reflexivity.
  - reflexivity.
  - reflexivity.
  - vm_compute. reflexivity.
  - destruct (Hall 7%nat) as (v & Hv & Hlo & Hhi).
    + cbn. lia.
    + vm_compute. reflexivity.
    + exists mn', mx', v. repeat split; assumption.
Defined.

(** ** The range of the model *)

Lemma UnpackElevation_HasRange {E : Engine Exact.number}
  (TiledMap : FTiledMap) (RawData : list Z) (t : FCachedElevationFile Exact.number) :
  HasRange t -> HasRange (snd (UnpackElevation TiledMap RawData t)).
Proof.
  intros [[mn Hmn] [mx Hmx]].
  destruct (Exact_UnpackElevation_bounds TiledMap RawData t mn mx Hmn Hmx)
    as (mn' & mx' & H1 & H2 & _).
  split; [ exists mn' | exists mx' ]; assumption.
Qed.

Lemma OnDownloadSucceeded_HasRange {E : Engine Exact.number}
  (TiledMap : FTiledMap) (w : World) (t : FCachedElevationFile Exact.number) (n : Z) :
  HasRange t -> HasRange (fst (OnDownloadSucceeded TiledMap w (t, n))).
Proof.
  intros Ht. unfold OnDownloadSucceeded.
  destruct (GetResponse w) as [Content | ]; [ | exact Ht ].
  pose proof (UnpackElevation_HasRange TiledMap Content t Ht) as Hu.
  destruct (UnpackElevation TiledMap Content t) as [ok t1].
  destruct ok; exact Hu.
Qed.

Lemma TickInitialized_HasRange {E : Engine Exact.number}
  (TiledMap : FTiledMap) (w : World) (t : FCachedElevationFile Exact.number) (n : Z) :
  HasRange t -> HasRange (fst (TickInitialized TiledMap w (t, n))).
Proof.
  intros Ht. unfold TickInitialized.
  destruct (WasDownloadSuccessful t || Failed t); [ exact Ht | ].
  destruct (10 <? GetSeconds (TimeSpan t)); [ exact Ht | ].
  destruct (GetStatus w); try exact Ht.
  apply OnDownloadSucceeded_HasRange. exact Ht.
Qed.

Lemma Tick_HasRange {E : Engine Exact.number}
  (TiledMap : FTiledMap) (w : World) (t : FCachedElevationFile Exact.number) (n : Z) :
  HasRange t -> HasRange (fst (Tick TiledMap w (t, n))).
Proof.
  intros Ht. unfold Tick.
  destruct (negb (WasInitialized t)); [ | apply TickInitialized_HasRange; exact Ht ].
  destruct (MaxNumPendingDownloads <=? n); [ exact Ht | ].
  assert (Hinit : HasRange (fst (Initialize TiledMap w (t, n)))).
  { unfold Initialize.
    set (t0 := set_StartTime (set_WasInitialized t) (UtcNow w)).
    assert (H0 : HasRange t0) by exact Ht.
    assert (Hdown : forall t1 : FCachedElevationFile Exact.number,
              HasRange t1 -> HasRange (fst (DownloadFile w (t1, n)))).
    { intros t1 H1. unfold DownloadFile. destruct (ProcessRequest w); exact H1. }
    destruct (LoadFileToArray w) as [RawData | ]; [ | apply Hdown; exact H0 ].
    pose proof (UnpackElevation_HasRange TiledMap RawData t0 H0) as Hu.
    destruct (UnpackElevation TiledMap RawData t0) as [ok t1].
    destruct ok; [ exact Hu | apply Hdown; exact Hu ]. }
  destruct (Initialize TiledMap w (t, n)) as [t1 n1].
  apply TickInitialized_HasRange. exact Hinit.
Qed.

Lemma CancelFiles_model (ToCancel : list nat) :
  forall s : LoadState Exact.number,
    ModelElevationMin (CancelFiles ToCancel s) = ModelElevationMin s
    /\ ModelElevationMax (CancelFiles ToCancel s) = ModelElevationMax s
    /\ ((forall i t, Files s !! i = Some t -> HasRange t) ->
        forall i t, Files (CancelFiles ToCancel s) !! i = Some t -> HasRange t).
Proof.
  induction ToCancel as [ | id rest IH ]; intros s;
    [ split; [ reflexivity | split; [ reflexivity | intros H; exact H ] ] | ].
  cbn [CancelFiles].
  destruct (Files s !! id) as [t0 | ] eqn:Ht0; [ | apply IH ].
  destruct (CancelRequest (t0, NumPendingDownloads s)) as [t0' n'] eqn:Hc.
  match goal with |- context [CancelFiles rest ?x] => set (s1 := x) end.
  destruct (IH s1) as (H1 & H2 & H3).
  split; [ exact H1 | ]. split; [ exact H2 | ].
  intros Hall. apply H3. intros i t Hi. cbn [s1 Files] in Hi.
  destruct (decide (i = id)) as [-> | Hne].
  - rewrite list_lookup_insert_eq in Hi by (eapply lookup_lt_Some; eauto).
    injection Hi as <-. unfold CancelRequest in Hc.
    destruct (HttpRequest (set_Failed t0)); injection Hc as <- _;
      exact (Hall id t0 Ht0).
  - rewrite list_lookup_insert_ne in Hi by congruence. exact (Hall i t Hi).
Qed.

(** What one pass of the loop over the pending tiles does to the range
    of the model. *)
Lemma TickFiles_model {E : Engine Exact.number} (TiledMap : FTiledMap)
  (r : Round) (todo : list nat) :
  forall (s s' : LoadState Exact.number) fin,
    (forall i t, Files s !! i = Some t -> HasRange t) ->
    TickFiles TiledMap r todo s = (s', fin) ->
    (forall i t, Files s' !! i = Some t -> HasRange t)
    /\ match fin with
       | Some (id, t') =>
           if Succeeded t'
           then ModelElevationMin s' = fmin (ModelElevationMin s) (ElevationMin t')
                /\ ModelElevationMax s' = fmax (ModelElevationMax s) (ElevationMax t')
                /\ FilesDownloaded s' = FilesDownloaded s ++ [id]
                /\ Files s' !! id = Some t'
           else ModelElevationMin s' = ModelElevationMin s
                /\ ModelElevationMax s' = ModelElevationMax s
                /\ FilesDownloaded s' = FilesDownloaded s
       | None =>
           ModelElevationMin s' = ModelElevationMin s
           /\ ModelElevationMax s' = ModelElevationMax s
           /\ FilesDownloaded s' = FilesDownloaded s
       end.
Proof.
  induction todo as [ | id rest IH ]; intros s s' fin Hall Hrun;
    cbn [TickFiles] in Hrun.
  - injection Hrun as <- <-. split; [ exact Hall | repeat split ].
  - destruct (Files s !! id) as [t | ] eqn:Ht; [ | exact (IH s s' fin Hall Hrun) ].
    pose proof (Tick_HasRange TiledMap (Worlds r id) t (NumPendingDownloads s)
                  (Hall id t Ht)) as Hrange.
    destruct (Tick TiledMap (Worlds r id) (t, NumPendingDownloads s)) as [t' n'].
    cbn [fst] in Hrange.
    match type of Hrun with
    | context [FileFinished id t' ?x] => set (s1 := x) in Hrun
    end.
    assert (Hlook : Files s1 !! id = Some t')
      by (apply list_lookup_insert_eq; apply lookup_lt_Some in Ht; exact Ht).
    assert (Hall1 : forall i u, Files s1 !! i = Some u -> HasRange u).
    { intros i u Hi. cbn [s1 Files] in Hi.
      destruct (decide (i = id)) as [-> | Hne].
      - rewrite list_lookup_insert_eq in Hi by (eapply lookup_lt_Some; eauto).
        injection Hi as <-. exact Hrange.
      - rewrite list_lookup_insert_ne in Hi by congruence. exact (Hall i u Hi). }
    destruct (HasFinished t') eqn:Hfin.
    + injection Hrun as <- <-. unfold FileFinished.
      destruct (Succeeded t') eqn:Hsucc.
      * cbn [Files ModelElevationMin ModelElevationMax FilesDownloaded].
        split; [ exact Hall1 | ]. repeat split. exact Hlook.
      * cbn [Files ModelElevationMin ModelElevationMax FilesDownloaded].
        destruct (CancelFiles_model (Remove id (FilesToDownload s1)) s1)
          as (H1 & H2 & H3).
        split; [ exact (H3 Hall1) | ].
        split; [ exact H1 | ]. split; [ exact H2 | ].
        rewrite CancelFiles_FilesDownloaded. reflexivity.
    + destruct (IH s1 s' fin Hall1 Hrun) as [Hall' Hfin'].
      split; [ exact Hall' | ]. exact Hfin'.
Qed.

Lemma DownloadRound_RangeCovers {E : Engine Exact.number}
  (TiledMap : FTiledMap) (tiles : list (FCachedElevationFile Exact.number))
  (r : Round) (s : LoadState Exact.number) :
  WellFormed tiles s -> PendingUnfinished s ->
  (forall i t, Files s !! i = Some t -> HasRange t) ->
  RangeCovers s ->
  (forall i t, Files (DownloadRound TiledMap r s) !! i = Some t -> HasRange t)
  /\ RangeCovers (DownloadRound TiledMap r s).
Proof.
  intros Hwf Hun Hall (gmin & gmax & Hmin & Hmax & Hcov). unfold DownloadRound.
  destruct (TickFiles TiledMap r (FilesToDownload s) s) as [s' fin] eqn:Hrun.
  cbn [fst].
  destruct (TickFiles_model TiledMap r (FilesToDownload s) s s' fin Hall Hrun)
    as [Hall' Hmodel].
  destruct (TickFiles_downloaded TiledMap r (FilesToDownload s) s s' fin
              ltac:(auto) Hun Hrun) as [Hkeep _].
  assert (Hdisj : forall i, i ∈ FilesDownloaded s -> i ∉ FilesToDownload s).
  { pose proof (wf_NoDup _ _ Hwf) as Hnd.
    apply NoDup_app in Hnd as (_ & Hdisj & _). exact Hdisj. }
  split; [ exact Hall' | ].
  assert (Hsame : ModelElevationMin s' = ModelElevationMin s ->
                  ModelElevationMax s' = ModelElevationMax s ->
                  FilesDownloaded s' = FilesDownloaded s -> RangeCovers s').
  { intros H1 H2 H3. exists gmin, gmax.
    split; [ congruence | ]. split; [ congruence | ].
    intros i t Hi Ht. rewrite H3 in Hi. rewrite (Hkeep i (Hdisj i Hi)) in Ht.
    exact (Hcov i t Hi Ht). }
  destruct fin as [[id t'] | ];
    [ | destruct Hmodel as (H1 & H2 & H3); exact (Hsame H1 H2 H3) ].
  destruct (Succeeded t');
    [ | destruct Hmodel as (H1 & H2 & H3); exact (Hsame H1 H2 H3) ].
  destruct Hmodel as (H1 & H2 & H3 & H4).
  destruct (Hall' id t' H4) as [[mn Hmn] [mx Hmx]].
  rewrite Hmin, Hmn in H1. rewrite Hmax, Hmx in H2.
  destruct (Exact_fmin gmin mn) as (m1 & Hm1 & Hm1a & Hm1b).
  destruct (Exact_fmax gmax mx) as (m2 & Hm2 & Hm2a & Hm2b).
  exists m1, m2. split; [ exact (eq_trans H1 Hm1) | ].
  split; [ exact (eq_trans H2 Hm2) | ].
  intros i t Hi Ht. rewrite H3 in Hi. apply elem_of_app in Hi as [Hi | Hi].
  - rewrite (Hkeep i (Hdisj i Hi)) in Ht.
    destruct (Hcov i t Hi Ht) as (a & b & Ha & Hb & Hlo & Hhi).
    exists a, b. split; [ exact Ha | ]. split; [ exact Hb | ].
    split; [ exact (Qle_trans _ _ _ Hm1a Hlo) | exact (Qle_trans _ _ _ Hhi Hm2a) ].
  - apply list_elem_of_singleton in Hi as ->.
    rewrite H4 in Ht. injection Ht as <-.
    exists mn, mx. repeat split; assumption.
Qed.

Lemma DownloadLoop_RangeCovers {E : Engine Exact.number}
  (TiledMap : FTiledMap) (tiles : list (FCachedElevationFile Exact.number))
  (rounds : list Round) :
  forall s s' : LoadState Exact.number,
    WellFormed tiles s -> PendingUnfinished s ->
    (forall i t, Files s !! i = Some t -> HasRange t) ->
    RangeCovers s ->
    DownloadLoop TiledMap rounds s = Some s' ->
    RangeCovers s'.
Proof.
  induction rounds as [ | r rounds IH ]; intros s s' Hwf Hun Hall Hcov Hrun;
    cbn [DownloadLoop] in Hrun.
  - destruct (FilesToDownload s); [ | discriminate ].
    injection Hrun as <-. exact Hcov.
  - destruct (FilesToDownload s) eqn:Hp; [ injection Hrun as <-; exact Hcov | ].
    destruct (ReceivedUserCancel r); [ injection Hrun as <-; exact Hcov | ].
    destruct (DownloadRound_RangeCovers TiledMap tiles r s Hwf Hun Hall Hcov)
      as [Hall' Hcov'].
    exact (IH _ s' (DownloadRound_WellFormed TiledMap tiles r s Hwf)
             (DownloadRound_PendingUnfinished TiledMap r s Hun) Hall' Hcov' Hrun).
Qed.

(** X14. In exact arithmetic the range of the model after
    [LoadElevationData] holds the range of every tile listed as
    downloaded: the minimum of the model is at most the minimum of the
    tile and its maximum at least the maximum of the tile. *)
Theorem LoadElevationData_range {E : Engine Exact.number}
  (TiledMap : FTiledMap) (Now Pending : Z) (QuadSize : Exact.number)
  (NumVerticesForRadius : Z) (rounds : list Round) (ok : bool)
  (s : LoadState Exact.number) :
  LoadElevationData TiledMap Now Pending QuadSize NumVerticesForRadius rounds
  = Some (ok, s) ->
  exists globalMin globalMax : Q,
    ModelElevationMin s = Some globalMin
    /\ ModelElevationMax s = Some globalMax
    /\ forall (i : nat) (t : FCachedElevationFile Exact.number),
         i ∈ FilesDownloaded s -> Files s !! i = Some t ->
         exists mn mx : Q,
           ElevationMin t = Some mn /\ ElevationMax t = Some mx
           /\ (globalMin <= mn)%Q /\ (mx <= globalMax)%Q.
Proof.
  intros Hload. unfold LoadElevationData in Hload.
  assert (Hstart : forall tiles, RangeCovers (StartDownload tiles Pending)).
  { intros tiles. eexists. eexists.
    split; [ reflexivity | ]. split; [ reflexivity | ].
    intros i t Hi. inversion Hi. }
  destruct (CollectTiles TiledMap Now QuadSize NumVerticesForRadius) as [tiles | ]
    eqn:Htiles; [ | injection Hload as _ <-; exact (Hstart []) ].
  destruct (DownloadLoop TiledMap rounds (StartDownload tiles Pending)) as [s' | ]
    eqn:Hloop; [ | discriminate ].
  injection Hload as _ <-.
  apply (DownloadLoop_RangeCovers TiledMap tiles rounds _ s'
           (WellFormed_StartDownload tiles Pending)
           (PendingUnfinished_CollectTiles TiledMap Now Pending QuadSize
              NumVerticesForRadius tiles Htiles)); [ | exact (Hstart tiles) | exact Hloop ].
  intros i t Ht. cbn [StartDownload Files] in Ht.
  unfold CollectTiles in Htiles.
  destruct (ToEPSG3857 (SouthWest QuadSize NumVerticesForRadius)); [ | discriminate ].
  destruct (ToEPSG3857 (NorthEast QuadSize NumVerticesForRadius)); [ | discriminate ].
  injection Htiles as <-.
  apply list_elem_of_lookup_2, list_elem_of_In, in_map_iff in Ht as (XY & <- & _).
  split; eexists; reflexivity.
Qed.

Lemma LoadElevationData_range_witness :
  exists s globalMin globalMax,
    LoadElevationData (F := Exact.number) (E := OneTileEngine) FlatMap 0 0
      (Some 1%Q) 2 [FlatRound] = Some (true, s)
    /\ ModelElevationMin s = Some globalMin
    /\ ModelElevationMax s = Some globalMax
    /\ forall (i : nat) (t : FCachedElevationFile Exact.number),
         i ∈ FilesDownloaded s -> Files s !! i = Some t ->
         exists mn mx : Q,
           ElevationMin t = Some mn /\ ElevationMax t = Some mx
           /\ (globalMin <= mn)%Q /\ (mx <= globalMax)%Q.
Proof.
  assert (Hload : exists s,
             LoadElevationData (F := Exact.number) (E := OneTileEngine) FlatMap 0 0
               (Some 1%Q) 2 [FlatRound] = Some (true, s))
    by (eexists; vm_compute; reflexivity).
  destruct Hload as [s Hload].
  destruct (LoadElevationData_range (E := OneTileEngine) FlatMap 0 0 (Some 1%Q) 2
              [FlatRound] true s Hload) as (globalMin & globalMax & H).
  exists s, globalMin, globalMax. split; [ exact Hload | exact H ].
Defined.

(** ** GetNumVerticesForRadius *)

Lemma pow2_between (k : Z) (lo hi : Z) :
  0 <= lo -> lo <= hi ->
  2 ^ lo <= 2 ^ k < 2 ^ (hi + 1) -> 0 <= k -> lo <= k <= hi.
Proof.
  intros Hlo Hhi [H1 H2] Hk. split.
  - destruct (Z_lt_le_dec k lo) as [Hlt | ]; [ | assumption ].
    exfalso. assert (2 ^ k < 2 ^ lo) by (apply Z.pow_lt_mono_r; lia). lia.
  - destruct (Z_lt_le_dec hi k) as [Hlt | ]; [ | assumption ].
    exfalso. assert (2 ^ (hi + 1) <= 2 ^ k) by (apply Z.pow_le_mono_r; lia). lia.
Qed.

(** X17. For a ratio of radius to quad size that rounds to more than 16,
    and for a power-of-two rounding and a rounding division that do what
    their names say, [GetNumVerticesForRadius] returns a whole number of
    subsections that holds the ratio with less than one subsection to
    spare; the subsection size is a sixteenth of the power of two, less
    one. *)
Theorem GetNumVerticesForRadius_multiple {F} {A : Arith F} {M : FMath}
  (Radius QuadSize : F) (Size : Z) :
  RoundToInt (fdiv Radius QuadSize) = Some Size ->
  16 < Size < 2 ^ 30 ->
  (exists k, 0 <= k /\ RoundUpToPowerOfTwo Size = 2 ^ k /\ Size <= 2 ^ k < 2 * Size) ->
  (forall Divisor, 0 < Divisor < 2 ^ 27 ->
     exists q, DivideAndRoundUp Size Divisor = Some q
               /\ (q - 1) * Divisor < Size <= q * Divisor) ->
  exists N Sub,
    GetNumVerticesForRadius Radius QuadSize = Some (N, Sub)
    /\ 1 <= Sub
    /\ 16 * (Sub + 1) = RoundUpToPowerOfTwo Size
    /\ (Sub | N)
    /\ Size <= N < Size + Sub.
Proof.
  intros Hround HSize (k & Hk0 & Hpow & Hk) Hdiv.
  unfold GetNumVerticesForRadius. rewrite Hround.
  rewrite (to_uint32_small Size) by lia. rewrite Hpow.
  assert (Hk5 : 5 <= k <= 30).
  { apply pow2_between; try lia. change (2 ^ 5) with 32. change (2 ^ (30 + 1)) with (2 ^ 31).
    destruct (Z_lt_le_dec (2 ^ k) 32) as [Hlt | ]; [ | lia ].
    exfalso.
    assert (Hle : 2 ^ k <= 16).
    { destruct (Z_lt_le_dec k 5) as [Hk5 | Hk5].
      - change 16 with (2 ^ 4). apply Z.pow_le_mono_r; lia.
      - assert (2 ^ 5 <= 2 ^ k) by (apply Z.pow_le_mono_r; lia).
        change (2 ^ 5) with 32 in *. lia. }
    lia. }
  assert (Hsplit : 2 ^ k = 16 * 2 ^ (k - 4)).
  { change 16 with (2 ^ 4). rewrite <- Z.pow_add_r by lia. f_equal. lia. }
  assert (Hsub : 2 <= 2 ^ (k - 4) <= 2 ^ 26).
  { split; [ change 2 with (2 ^ 1) at 1 | ]; apply Z.pow_le_mono_r; lia. }
  assert (Hquot : 2 ^ k / 16 = 2 ^ (k - 4)).
  { rewrite Hsplit, Z.mul_comm, Z.div_mul by lia. reflexivity. }
  rewrite Hquot.
  rewrite (to_uint32_small (2 ^ (k - 4) - 1)) by lia.
  rewrite (to_int32_small (2 ^ (k - 4) - 1)) by lia.
  set (Sub := 2 ^ (k - 4) - 1) in *.
  destruct (Hdiv Sub ltac:(lia)) as (q & Hq & Hqlo & Hqhi).
  rewrite Hq. exists (to_int32 (q * Sub)), Sub.
  assert (Hrange : Size <= q * Sub < Size + Sub) by lia.
  rewrite (to_int32_small (q * Sub)) by lia.
  split; [ reflexivity | ]. split; [ lia | ].
  split; [ unfold Sub; lia | ].
  split; [ exists q; reflexivity | exact Hrange ].
Qed.

(** The rounding division of the engine on positive numbers *)
Lemma EngineMath_DivideAndRoundUp (Size Divisor : Z) :
  0 < Size < 2 ^ 30 -> 0 < Divisor < 2 ^ 27 ->
  exists q, DivideAndRoundUp (FMath := EngineMath) Size Divisor = Some q
            /\ (q - 1) * Divisor < Size <= q * Divisor.
Proof.
  intros HS HD. cbn [DivideAndRoundUp EngineMath].
  replace (Divisor =? 0) with false by (symmetry; apply Z.eqb_neq; lia).
  rewrite (to_int32_small (Size + Divisor - 1)) by lia.
  rewrite Z.quot_div_nonneg by lia.
  pose proof (Z.div_mod (Size + Divisor - 1) Divisor ltac:(lia)) as Hdm.
  pose proof (Z.mod_pos_bound (Size + Divisor - 1) Divisor ltac:(lia)) as Hm.
  set (q := (Size + Divisor - 1) / Divisor) in *.
  assert (Hq : 0 <= q <= Size) by nia.
  rewrite to_int32_small by lia.
  exists q. split; [ reflexivity | nia ].
Qed.

Lemma GetNumVerticesForRadius_multiple_witness :
  exists N Sub,
    GetNumVerticesForRadius (F := Binary32.float) (M := EngineMath)
      (of_int 1000) (of_int 10) = Some (N, Sub)
    /\ 1 <= Sub
    /\ 16 * (Sub + 1) = RoundUpToPowerOfTwo (FMath := EngineMath) 100
    /\ (Sub | N)
    /\ 100 <= N < 100 + Sub.
Proof.
  apply (GetNumVerticesForRadius_multiple (F := Binary32.float) (M := EngineMath)
           (of_int 1000) (of_int 10) 100).
  - vm_compute. reflexivity.
  - lia.
  - exists 7. split; [ lia | ]. split; [ vm_compute; reflexivity | lia ].
  - intros Divisor HD. apply EngineMath_DivideAndRoundUp; lia.
Defined.

(** X18. For a ratio of radius to quad size that rounds to 9 up to 16
    the power of two is 16, the subsection size is 0, and
    [GetNumVerticesForRadius] divides by zero. *)
Theorem GetNumVerticesForRadius_division_by_zero {F} {A : Arith F} {M : FMath}
  (Radius QuadSize : F) (Size : Z) :
  RoundToInt (fdiv Radius QuadSize) = Some Size ->
  8 < Size <= 16 ->
  (exists k, 0 <= k /\ RoundUpToPowerOfTwo Size = 2 ^ k /\ Size <= 2 ^ k < 2 * Size) ->
  DivideAndRoundUp Size 0 = None ->
  GetNumVerticesForRadius Radius QuadSize = None.
Proof.
  intros Hround HSize (k & Hk0 & Hpow & Hk) Hdiv.
  unfold GetNumVerticesForRadius. rewrite Hround.
  rewrite (to_uint32_small Size) by lia. rewrite Hpow.
  assert (Hk4 : 4 <= k <= 4).
  { apply pow2_between; try lia. change (2 ^ 4) with 16. change (2 ^ (4 + 1)) with 32.
    split; [ | lia ].
    destruct (Z_lt_le_dec (2 ^ k) 16) as [Hlt | ]; [ | lia ].
    exfalso.
    assert (Hle : 2 ^ k <= 8).
    { destruct (Z_lt_le_dec k 4) as [Hk4 | Hk4].
      - change 8 with (2 ^ 3). apply Z.pow_le_mono_r; lia.
      - assert (2 ^ 4 <= 2 ^ k) by (apply Z.pow_le_mono_r; lia).
        change (2 ^ 4) with 16 in *. lia. }
    lia. }
  replace k with 4 by lia.
  change (to_int32 (to_uint32 (2 ^ 4 / 16 - 1))) with 0.
  rewrite Hdiv. reflexivity.
Qed.

Lemma GetNumVerticesForRadius_division_by_zero_witness :
  GetNumVerticesForRadius (F := Binary32.float) (M := EngineMath)
    (of_int 1000) (of_int 100) = None.
Proof.
  apply (GetNumVerticesForRadius_division_by_zero (F := Binary32.float)
           (M := EngineMath) (of_int 1000) (of_int 100) 10).
  - vm_compute. reflexivity.
  - lia.
  - exists 4. split; [ lia | ]. split; [ vm_compute; reflexivity | lia ].
  - reflexivity.
Defined.

(** ** Bounds that do not project *)

(** X8. When a corner of the landscape does not project,
    [LoadElevationData] returns false at once, whatever the passes of the
    loop would observe: no tile is made, no request is sent, the counter
    is untouched, and [BuildLandscape] returns [nullptr]. *)
Theorem LoadElevationData_invalid_bounds {F} {A : Arith F} {E : Engine F}
  {Sa : Sampler F}
  (TiledMap : FTiledMap) (Now Pending : Z) (QuadSize : F)
  (NumVerticesForRadius : Z) (rounds : list Round) (Cancel : Z -> bool)
  (MiscWays : list FStreetMapMiscWay) (Layers : list string) :
  ToEPSG3857 (SouthWest QuadSize NumVerticesForRadius) = None
  \/ ToEPSG3857 (NorthEast QuadSize NumVerticesForRadius) = None ->
  LoadElevationData TiledMap Now Pending QuadSize NumVerticesForRadius rounds
  = Some (false, StartDownload [] Pending)
  /\ Calls (StartDownload (F := F) [] Pending) = []
  /\ NumPendingDownloads (StartDownload (F := F) [] Pending) = Pending
  /\ BuildLandscape TiledMap Now Pending QuadSize NumVerticesForRadius rounds Cancel
       MiscWays Layers = Some None.
Proof.
  intros Hbounds.
  assert (Hnone : CollectTiles TiledMap Now QuadSize NumVerticesForRadius = None).
  { unfold CollectTiles. destruct Hbounds as [-> | ->]; [ reflexivity | ].
    destruct (ToEPSG3857 (SouthWest QuadSize NumVerticesForRadius)); reflexivity. }
  assert (Hload : LoadElevationData TiledMap Now Pending QuadSize NumVerticesForRadius
                    rounds = Some (false, StartDownload [] Pending))
    by (unfold LoadElevationData; rewrite Hnone; reflexivity).
  split; [ exact Hload | ]. split; [ reflexivity | ]. split; [ reflexivity | ].
  unfold BuildLandscape. rewrite Hload. reflexivity.
Qed.

Lemma LoadElevationData_invalid_bounds_witness :
  LoadElevationData (F := Binary32.float) (E := OneTileEngine) OneTileMap 0 3
    (of_int 1000000) 2 [CachedRound] = Some (false, StartDownload [] 3)
  /\ BuildLandscape (F := Binary32.float) (E := OneTileEngine) (S := FirstSampleSampler)
       OneTileMap 0 3 (of_int 1000000) 2 [CachedRound] (fun _ => false) []
       ["Ground"%string] = Some None.
Proof.
  destruct (LoadElevationData_invalid_bounds (F := Binary32.float) (E := OneTileEngine)
              (Sa := FirstSampleSampler) OneTileMap 0 3 (of_int 1000000) 2
              [CachedRound] (fun _ => false) [] ["Ground"%string])
    as (H1 & _ & _ & H4).
  - right. vm_compute. reflexivity.
  - split; [ exact H1 | exact H4 ].
Defined.

(** ** Progress of the loop *)

Lemma length_Remove (id : nat) (l : list nat) :
  id ∈ l -> (length (Remove id l) < length l)%nat.
Proof.
  intros Hin. unfold Remove. induction l as [ | j l IH ]; [ inversion Hin | ].
  destruct (decide (j = id)) as [-> | Hne].
  - rewrite filter_cons_False by (intros Hc; apply Hc; reflexivity).
    cbn [length]. pose proof (length_filter (fun j => j <> id) l). lia.
  - apply elem_of_cons in Hin as [-> | Hin]; [ congruence | ].
    rewrite filter_cons_True by exact Hne. cbn [length]. specialize (IH Hin). lia.
Qed.

(** X7. A pass of the loop never adds to the tiles still to download
    and never takes from the tiles downloaded: what is left to download is
    a part of what was, in the same order, the tiles downloaded before
    stay at the front of the list, and when a tile has finished in the
    pass fewer tiles are left. *)
Theorem DownloadRound_progress {F} {A : Arith F} {E : Engine F}
  (TiledMap : FTiledMap) (tiles : list (FCachedElevationFile F)) (r : Round)
  (s : LoadState F) :
  WellFormed tiles s ->
  FilesToDownload (DownloadRound TiledMap r s) `sublist_of` FilesToDownload s
  /\ FilesDownloaded s `prefix_of` FilesDownloaded (DownloadRound TiledMap r s)
  /\ (snd (TickFiles TiledMap r (FilesToDownload s) s) <> None ->
      (length (FilesToDownload (DownloadRound TiledMap r s))
       < length (FilesToDownload s))%nat).
Proof.
  intros Hwf. unfold DownloadRound.
  destruct (TickFiles TiledMap r (FilesToDownload s) s) as [s' fin] eqn:Hrun.
  cbn [fst snd].
  assert (Hvalid : forall i, i ∈ FilesToDownload s -> (i < length (Files s))%nat)
    by (intros i Hi; exact (WellFormed_pending tiles s i Hwf Hi)).
  destruct (TickFiles_spec TiledMap r (FilesToDownload s) s s' fin Hvalid Hvalid Hrun)
    as (_ & _ & Hfin).
  destruct fin as [[id t'] | ].
  - destruct Hfin as (before & skipped & Heq & _ & Hrest).
    assert (Hid : id ∈ FilesToDownload s)
      by (rewrite Heq; apply elem_of_app; right; left).
    destruct (Succeeded t').
    + destruct Hrest as (_ & Hp & Hd). rewrite Hp, Hd.
      split; [ apply sublist_filter | ].
      split; [ apply prefix_app_r; reflexivity | ].
      intros _. apply length_Remove. exact Hid.
    + destruct Hrest as (_ & Hp & Hd & _). rewrite Hp, Hd.
      split; [ apply sublist_nil_l | ]. split; [ reflexivity | ].
      intros _. destruct (FilesToDownload s); [ inversion Hid | cbn; lia ].
  - destruct Hfin as (_ & Hp & Hd). rewrite Hp, Hd.
    split; [ reflexivity | ]. split; [ reflexivity | ]. intros Hc. congruence.
Qed.

Lemma DownloadRound_progress_witness :
  FilesToDownload (DownloadRound (F := Binary32.float) (E := FoldedEngine) SmallMap
                     CachedRound (StartDownload NineTiles 0))
    `sublist_of` FilesToDownload (StartDownload NineTiles 0)
  /\ FilesDownloaded (StartDownload NineTiles 0)
       `prefix_of` FilesDownloaded
                     (DownloadRound (F := Binary32.float) (E := FoldedEngine) SmallMap
                        CachedRound (StartDownload NineTiles 0))
  /\ (snd (TickFiles (F := Binary32.float) (E := FoldedEngine) SmallMap CachedRound
             (FilesToDownload (StartDownload NineTiles 0)) (StartDownload NineTiles 0))
      <> None ->
      (length (FilesToDownload
                 (DownloadRound (F := Binary32.float) (E := FoldedEngine) SmallMap
                    CachedRound (StartDownload NineTiles 0)))
       < length (FilesToDownload (StartDownload NineTiles 0)))%nat).
Proof.
  apply (DownloadRound_progress (F := Binary32.float) (E := FoldedEngine) SmallMap
           NineTiles CachedRound (StartDownload NineTiles 0)).
  apply WellFormed_StartDownload.
Defined.
